(** * TcpBbr: the BBR congestion control of ns-3.44 with its ECN hybrid

    A shallow embedding of [src/internet/model/tcp-bbr.{h,cc}].  Every member
    function of [TcpBbr] becomes a function on the record [TcpBbr] (the
    object), the record [TcpSocketState] (the control block [tcb] the socket
    passes in) and, where the shared random variable is used, the store of
    random variable objects.  [Simulator::Now()] is an explicit argument
    [now].  Unsigned 32/64-bit members are [Z] with the wrap-around written
    out, [double] members are binary64 primitive floats. *)

From Stdlib Require Import ZArith Bool List Lia.
From Stdlib Require Import Floats Uint63.
Import ListNotations.
Open Scope Z_scope.
Set Warnings "-inexact-float".

(** ** Machine arithmetic of the C++ source *)

Definition u32 (z : Z) : Z := z mod 2 ^ 32.
Definition u64 (z : Z) : Z := z mod 2 ^ 64.

(** [(int)x] for a 32-bit unsigned [x]: the two's complement reading. *)
Definition to_int (z : Z) : Z :=
  let w := u32 z in if w <? 2 ^ 31 then w else w - 2 ^ 32.

(** [std::min(a, b)] is [(b < a) ? b : a], [std::max(a, b)] is
    [(a < b) ? b : a]. *)
Definition std_min (a b : Z) : Z := if b <? a then b else a.
Definition std_max (a b : Z) : Z := if a <? b then b else a.
Definition std_min_d (a b : float) : float := if PrimFloat.ltb b a then b else a.
Definition std_max_d (a b : float) : float := if PrimFloat.ltb a b then b else a.

(** Conversion of an unsigned integer below [2^64] to [double], rounding to
    nearest even.  Above [2^63] the low bit is kept sticky while halving. *)
Definition double_of_Z (z : Z) : float :=
  if z <? 2 ^ 63 then PrimFloat.of_uint63 (Uint63.of_Z z)
  else PrimFloat.mul
         (PrimFloat.of_uint63 (Uint63.of_Z (Z.lor (Z.shiftr z 1) (Z.land z 1))))
         2%float.

(** Conversion of a [double] to an integer type truncates toward zero.  C++
    leaves the conversion undefined when the truncated value does not fit
    (and for NaN and the infinities); the embedding then takes the value
    modulo the width of the target, and 0 for NaN and the infinities. *)
Definition double_trunc (x : float) : Z :=
  match Prim2SF x with
  | S754_finite s m e =>
      let v := if 0 <=? e then Z.pos m * 2 ^ e else Z.pos m / 2 ^ (- e) in
      if s then - v else v
  | _ => 0
  end.

Definition double_to_u32 (x : float) : Z := u32 (double_trunc x).
Definition double_to_u64 (x : float) : Z := u64 (double_trunc x).

(** ** Library types of ns-3 used by the class *)

(** Modelled from the spec: [ns3::Time] is declared outside src/; it is a
    signed 64-bit count of nanoseconds (the default resolution), and
    [Time::Max()] stands for "min-RTT unknown". *)
Definition Time : Type := Z.
Definition Time_Max : Time := 2 ^ 63 - 1.
Definition Time_IsZero (t : Time) : bool := t =? 0.
Definition Time_IsPositive (t : Time) : bool := 0 <=? t.
Definition Time_GetNanoSeconds (t : Time) : Z := t.
Definition MilliSeconds (n : Z) : Time := n * 1000000.
Definition Seconds (n : Z) : Time := n * 1000000000.

(** Modelled from the spec: [ns3::DataRate] is declared outside src/; it
    wraps an unsigned 64-bit bit rate, and [GetBitRate] returns it. *)
Definition DataRate : Type := Z.
Definition GetBitRate (r : DataRate) : Z := r.

(** Modelled from the spec: [SequenceNumber32] is declared outside src/: a
    32-bit sequence number. *)
Definition SequenceNumber32 : Type := Z.

(** Operations of the ns-3 library whose code is outside src/: the windowed
    maximum filter, the conversions of [Time] to seconds and milliseconds,
    the [DataRate] products, the ordering of sequence numbers and the uniform
    random variable.  The class is an interface; nothing below depends on how
    it is implemented. *)
Class Ns3Lib : Type := {
  MaxBandwidthFilter_t : Type;
  Filter_default : MaxBandwidthFilter_t;
  Filter_make : Z -> DataRate -> Z -> MaxBandwidthFilter_t;
  Filter_GetBest : MaxBandwidthFilter_t -> DataRate;
  Filter_Update : MaxBandwidthFilter_t -> DataRate -> Z -> MaxBandwidthFilter_t;
  Time_GetSeconds : Time -> float;
  Time_GetMilliSeconds : Time -> Z;
  DataRate_mul_Time : DataRate -> Time -> float;
  DataRate_mul_double : DataRate -> float -> DataRate;
  SequenceNumber32_geq : SequenceNumber32 -> SequenceNumber32 -> bool;
  UniformRandomVariable : Type;
  Urv_new : UniformRandomVariable;
  Urv_SetStream : UniformRandomVariable -> Z -> UniformRandomVariable;
  Urv_GetValue : UniformRandomVariable -> float -> float -> float * UniformRandomVariable
}.

(** ** Enumerations *)

Inductive BbrMode_t : Type :=
| BBR_STARTUP | BBR_DRAIN | BBR_PROBE_BW | BBR_PROBE_RTT.

Definition BbrMode_eqb (a b : BbrMode_t) : bool :=
  match a, b with
  | BBR_STARTUP, BBR_STARTUP | BBR_DRAIN, BBR_DRAIN
  | BBR_PROBE_BW, BBR_PROBE_BW | BBR_PROBE_RTT, BBR_PROBE_RTT => true
  | _, _ => false
  end.

(** Modelled from the spec: the enumerations of [TcpSocketState]
    (tcp-socket-state.h is outside src/). *)
Inductive TcpCongState_t : Type :=
| CA_OPEN | CA_DISORDER | CA_CWR | CA_RECOVERY | CA_LOSS.

Definition TcpCongState_eqb (a b : TcpCongState_t) : bool :=
  match a, b with
  | CA_OPEN, CA_OPEN | CA_DISORDER, CA_DISORDER | CA_CWR, CA_CWR
  | CA_RECOVERY, CA_RECOVERY | CA_LOSS, CA_LOSS => true
  | _, _ => false
  end.

Inductive TcpCAEvent_t : Type :=
| CA_EVENT_TX_START | CA_EVENT_CWND_RESTART | CA_EVENT_COMPLETE_CWR
| CA_EVENT_LOSS | CA_EVENT_ECN_NO_CE | CA_EVENT_ECN_IS_CE
| CA_EVENT_DELAYED_ACK | CA_EVENT_NON_DELAYED_ACK.

Inductive EcnState_t : Type :=
| ECN_DISABLED | ECN_IDLE | ECN_CE_RCVD | ECN_SENDING_ECE | ECN_ECE_RCVD
| ECN_CWR_SENT.

Definition EcnState_eqb (a b : EcnState_t) : bool :=
  match a, b with
  | ECN_DISABLED, ECN_DISABLED | ECN_IDLE, ECN_IDLE | ECN_CE_RCVD, ECN_CE_RCVD
  | ECN_SENDING_ECE, ECN_SENDING_ECE | ECN_ECE_RCVD, ECN_ECE_RCVD
  | ECN_CWR_SENT, ECN_CWR_SENT => true
  | _, _ => false
  end.

Inductive EcnCodePoint_t : Type := NotECT | Ect1 | Ect0 | CeMark.

Definition EcnCodePoint_eqb (a b : EcnCodePoint_t) : bool :=
  match a, b with
  | NotECT, NotECT | Ect1, Ect1 | Ect0, Ect0 | CeMark, CeMark => true
  | _, _ => false
  end.

Inductive UseEcn_t : Type := Off | On | AcceptOnly.
Inductive EcnMode_t : Type := ClassicEcn | DctcpEcn.

(** Flags of the empty packets the ECN edge handlers send. *)
Inductive TcpFlags : Type := ACK | ACK_ECE.

(** ** The delivery sample and the control block *)

(** Modelled from the spec: [TcpRateOps::TcpRateSample] and
    [TcpRateOps::TcpRateConnection] (tcp-rate-ops.h is outside src/).
    [rs_delivered] is a signed 32-bit count, the other counts are unsigned
    32-bit, [rc_delivered] is unsigned 64-bit. *)
Record TcpRateSample : Type := {
  rs_deliveryRate : DataRate;
  rs_isAppLimited : bool;
  rs_interval : Time;
  rs_delivered : Z;
  rs_priorDelivered : Z;
  rs_bytesLoss : Z;
  rs_priorInFlight : Z;
  rs_ackedSacked : Z
}.

Record TcpRateConnection : Type := { rc_delivered : Z }.

(** Modelled from the spec: the members of [TcpSocketState] the class reads
    and writes (tcp-socket-state.h is outside src/).  [tcb_rxNext] is
    [m_rxBuffer->NextRxSequence()], [tcb_sent] collects the calls of
    [m_sendEmptyPacketCallback] with the receive sequence in force. *)
Record TcpSocketState : Type := {
  tcb_cWnd : Z;
  tcb_ssThresh : Z;
  tcb_initialCWnd : Z;
  tcb_initialSsThresh : Z;
  tcb_segmentSize : Z;
  tcb_bytesInFlight : Z;
  tcb_lastAckedSackedBytes : Z;
  tcb_congState : TcpCongState_t;
  tcb_pacing : bool;
  tcb_pacingRate : DataRate;
  tcb_maxPacingRate : DataRate;
  tcb_minRtt : Time;
  tcb_lastRtt : Time;
  tcb_srtt : Time;
  tcb_useEcn : UseEcn_t;
  tcb_ecnMode : EcnMode_t;
  tcb_ectCodePoint : EcnCodePoint_t;
  tcb_ecnState : EcnState_t;
  tcb_nextTxSequence : SequenceNumber32;
  tcb_lastAckedSeq : SequenceNumber32;
  tcb_rxNext : SequenceNumber32;
  tcb_sent : list (TcpFlags * SequenceNumber32)
}.

Ltac tcb_setter proj :=
  let e := eval cbv beta in
    (fun t : TcpSocketState =>
       Build_TcpSocketState
         (tcb_cWnd t) (tcb_ssThresh t) (tcb_initialCWnd t)
         (tcb_initialSsThresh t) (tcb_segmentSize t) (tcb_bytesInFlight t)
         (tcb_lastAckedSackedBytes t) (tcb_congState t) (tcb_pacing t)
         (tcb_pacingRate t) (tcb_maxPacingRate t) (tcb_minRtt t)
         (tcb_lastRtt t) (tcb_srtt t) (tcb_useEcn t) (tcb_ecnMode t)
         (tcb_ectCodePoint t) (tcb_ecnState t) (tcb_nextTxSequence t)
         (tcb_lastAckedSeq t) (tcb_rxNext t) (tcb_sent t)) in
  lazymatch eval pattern proj in e with
  | ?g _ =>
      let r := eval cbv beta in (fun v t => g (fun _ : TcpSocketState => v) t) in
      exact r
  end.

Definition set_tcb_cWnd : Z -> TcpSocketState -> TcpSocketState :=
  ltac:(tcb_setter tcb_cWnd).
Definition set_tcb_ssThresh : Z -> TcpSocketState -> TcpSocketState :=
  ltac:(tcb_setter tcb_ssThresh).
Definition set_tcb_pacing : bool -> TcpSocketState -> TcpSocketState :=
  ltac:(tcb_setter tcb_pacing).
Definition set_tcb_pacingRate : DataRate -> TcpSocketState -> TcpSocketState :=
  ltac:(tcb_setter tcb_pacingRate).
Definition set_tcb_useEcn : UseEcn_t -> TcpSocketState -> TcpSocketState :=
  ltac:(tcb_setter tcb_useEcn).
Definition set_tcb_ecnMode : EcnMode_t -> TcpSocketState -> TcpSocketState :=
  ltac:(tcb_setter tcb_ecnMode).
Definition set_tcb_ectCodePoint : EcnCodePoint_t -> TcpSocketState -> TcpSocketState :=
  ltac:(tcb_setter tcb_ectCodePoint).
Definition set_tcb_ecnState : EcnState_t -> TcpSocketState -> TcpSocketState :=
  ltac:(tcb_setter tcb_ecnState).
Definition set_tcb_rxNext : SequenceNumber32 -> TcpSocketState -> TcpSocketState :=
  ltac:(tcb_setter tcb_rxNext).
Definition set_tcb_sent :
  list (TcpFlags * SequenceNumber32) -> TcpSocketState -> TcpSocketState :=
  ltac:(tcb_setter tcb_sent).

(** ** The object *)

Section TcpBbrModel.
Context {L : Ns3Lib}.

(** The store of [UniformRandomVariable] objects: [m_uv] is a pointer
    ([Ptr<UniformRandomVariable>]) into it, so that two objects holding the
    same pointer draw from, and reseed, the same generator. *)
Definition UvStore : Type := list UniformRandomVariable.

Definition uv_read (h : UvStore) (p : nat) : UniformRandomVariable :=
  nth p h Urv_new.

Fixpoint uv_write (p : nat) (v : UniformRandomVariable) (h : UvStore) : UvStore :=
  match p, h with
  | _, [] => []
  | O, _ :: t => v :: t
  | S q, x :: t => x :: uv_write q v t
  end.

(** [CreateObject<UniformRandomVariable>()]: a fresh cell, and its address. *)
Definition CreateObject_Urv (h : UvStore) : nat * UvStore :=
  (length h, h ++ [Urv_new]).

(** The data members of [TcpBbr] in the order of tcp-bbr.h, followed by
    [m_suppressIncreaseIfCwndLimited], the member of the base class
    [TcpLinuxReno] that [Init] writes.  [m_extraAcked] is the array of two
    slots.  The traced callback [m_traceCongestionEstimate] is an output and
    appears as the result of [PktsAcked]. *)
Record TcpBbr : Type := {
  m_state : BbrMode_t;
  m_maxBwFilter : MaxBandwidthFilter_t;
  m_bandwidthWindowLength : Z;
  m_pacingGain : float;
  m_cWndGain : float;
  m_highGain : float;
  m_isPipeFilled : bool;
  m_minPipeCwnd : Z;
  m_roundCount : Z;
  m_roundStart : bool;
  m_nextRoundDelivered : Z;
  m_probeRttDuration : Time;
  m_probeRtPropStamp : Time;
  m_probeRttDoneStamp : Time;
  m_probeRttRoundDone : bool;
  m_packetConservation : bool;
  m_priorCwnd : Z;
  m_idleRestart : bool;
  m_targetCWnd : Z;
  m_fullBandwidth : DataRate;
  m_fullBandwidthCount : Z;
  m_minRtt : Time;
  m_sendQuantum : Z;
  m_cycleStamp : Time;
  m_cycleIndex : Z;
  m_minRttExpired : bool;
  m_minRttFilterLen : Time;
  m_minRttStamp : Time;
  m_isInitialized : bool;
  m_uv : nat;
  m_delivered : Z;
  m_appLimited : Z;
  m_extraAckedGain : Z;
  m_extraAcked : Z * Z;
  m_extraAckedWinRtt : Z;
  m_extraAckedWinRttLength : Z;
  m_ackEpochAckedResetThresh : Z;
  m_extraAckedIdx : Z;
  m_ackEpochTime : Time;
  m_ackEpochAcked : Z;
  m_hasSeenRtt : bool;
  m_pacingMargin : float;
  m_rttJitter : float;
  m_ackedBytesEcn : Z;
  m_ackedBytesTotal : Z;
  m_priorRcvNxt : SequenceNumber32;
  m_priorRcvNxtFlag : bool;
  m_alpha : float;
  m_nextSeq : SequenceNumber32;
  m_nextSeqFlag : bool;
  m_ceState : bool;
  m_delayedAckReserved : bool;
  m_g : float;
  m_useEct0 : bool;
  m_initialized : bool;
  m_suppressIncreaseIfCwndLimited : bool
}.

Ltac bbr_setter proj :=
  let e := eval cbv beta in
    (fun b : TcpBbr =>
       Build_TcpBbr
         (m_state b) (m_maxBwFilter b) (m_bandwidthWindowLength b)
         (m_pacingGain b) (m_cWndGain b) (m_highGain b) (m_isPipeFilled b)
         (m_minPipeCwnd b) (m_roundCount b) (m_roundStart b)
         (m_nextRoundDelivered b) (m_probeRttDuration b)
         (m_probeRtPropStamp b) (m_probeRttDoneStamp b)
         (m_probeRttRoundDone b) (m_packetConservation b) (m_priorCwnd b)
         (m_idleRestart b) (m_targetCWnd b) (m_fullBandwidth b)
         (m_fullBandwidthCount b) (m_minRtt b) (m_sendQuantum b)
         (m_cycleStamp b) (m_cycleIndex b) (m_minRttExpired b)
         (m_minRttFilterLen b) (m_minRttStamp b) (m_isInitialized b) (m_uv b)
         (m_delivered b) (m_appLimited b) (m_extraAckedGain b)
         (m_extraAcked b) (m_extraAckedWinRtt b) (m_extraAckedWinRttLength b)
         (m_ackEpochAckedResetThresh b) (m_extraAckedIdx b) (m_ackEpochTime b)
         (m_ackEpochAcked b) (m_hasSeenRtt b) (m_pacingMargin b)
         (m_rttJitter b) (m_ackedBytesEcn b) (m_ackedBytesTotal b)
         (m_priorRcvNxt b) (m_priorRcvNxtFlag b) (m_alpha b) (m_nextSeq b)
         (m_nextSeqFlag b) (m_ceState b) (m_delayedAckReserved b) (m_g b)
         (m_useEct0 b) (m_initialized b) (m_suppressIncreaseIfCwndLimited b)) in
  lazymatch eval pattern proj in e with
  | ?g _ =>
      let r := eval cbv beta in (fun v b => g (fun _ : TcpBbr => v) b) in
      exact r
  end.

Definition set_m_state : BbrMode_t -> TcpBbr -> TcpBbr :=
  ltac:(bbr_setter m_state).
Definition set_m_maxBwFilter : MaxBandwidthFilter_t -> TcpBbr -> TcpBbr :=
  ltac:(bbr_setter m_maxBwFilter).
Definition set_m_pacingGain : float -> TcpBbr -> TcpBbr :=
  ltac:(bbr_setter m_pacingGain).
Definition set_m_cWndGain : float -> TcpBbr -> TcpBbr :=
  ltac:(bbr_setter m_cWndGain).
Definition set_m_isPipeFilled : bool -> TcpBbr -> TcpBbr :=
  ltac:(bbr_setter m_isPipeFilled).
Definition set_m_minPipeCwnd : Z -> TcpBbr -> TcpBbr :=
  ltac:(bbr_setter m_minPipeCwnd).
Definition set_m_roundCount : Z -> TcpBbr -> TcpBbr :=
  ltac:(bbr_setter m_roundCount).
Definition set_m_roundStart : bool -> TcpBbr -> TcpBbr :=
  ltac:(bbr_setter m_roundStart).
Definition set_m_nextRoundDelivered : Z -> TcpBbr -> TcpBbr :=
  ltac:(bbr_setter m_nextRoundDelivered).
Definition set_m_probeRttDoneStamp : Time -> TcpBbr -> TcpBbr :=
  ltac:(bbr_setter m_probeRttDoneStamp).
Definition set_m_probeRttRoundDone : bool -> TcpBbr -> TcpBbr :=
  ltac:(bbr_setter m_probeRttRoundDone).
Definition set_m_packetConservation : bool -> TcpBbr -> TcpBbr :=
  ltac:(bbr_setter m_packetConservation).
Definition set_m_priorCwnd : Z -> TcpBbr -> TcpBbr :=
  ltac:(bbr_setter m_priorCwnd).
Definition set_m_idleRestart : bool -> TcpBbr -> TcpBbr :=
  ltac:(bbr_setter m_idleRestart).
Definition set_m_targetCWnd : Z -> TcpBbr -> TcpBbr :=
  ltac:(bbr_setter m_targetCWnd).
Definition set_m_fullBandwidth : DataRate -> TcpBbr -> TcpBbr :=
  ltac:(bbr_setter m_fullBandwidth).
Definition set_m_fullBandwidthCount : Z -> TcpBbr -> TcpBbr :=
  ltac:(bbr_setter m_fullBandwidthCount).
Definition set_m_minRtt : Time -> TcpBbr -> TcpBbr :=
  ltac:(bbr_setter m_minRtt).
Definition set_m_sendQuantum : Z -> TcpBbr -> TcpBbr :=
  ltac:(bbr_setter m_sendQuantum).
Definition set_m_cycleStamp : Time -> TcpBbr -> TcpBbr :=
  ltac:(bbr_setter m_cycleStamp).
Definition set_m_cycleIndex : Z -> TcpBbr -> TcpBbr :=
  ltac:(bbr_setter m_cycleIndex).
Definition set_m_minRttExpired : bool -> TcpBbr -> TcpBbr :=
  ltac:(bbr_setter m_minRttExpired).
Definition set_m_minRttStamp : Time -> TcpBbr -> TcpBbr :=
  ltac:(bbr_setter m_minRttStamp).
Definition set_m_isInitialized : bool -> TcpBbr -> TcpBbr :=
  ltac:(bbr_setter m_isInitialized).
Definition set_m_delivered : Z -> TcpBbr -> TcpBbr :=
  ltac:(bbr_setter m_delivered).
Definition set_m_appLimited : Z -> TcpBbr -> TcpBbr :=
  ltac:(bbr_setter m_appLimited).
Definition set_m_extraAcked : Z * Z -> TcpBbr -> TcpBbr :=
  ltac:(bbr_setter m_extraAcked).
Definition set_m_extraAckedWinRtt : Z -> TcpBbr -> TcpBbr :=
  ltac:(bbr_setter m_extraAckedWinRtt).
(** Written by the attribute [ExtraAckedRttWindowLength] only. *)
Definition set_m_extraAckedWinRttLength : Z -> TcpBbr -> TcpBbr :=
  ltac:(bbr_setter m_extraAckedWinRttLength).
Definition set_m_extraAckedIdx : Z -> TcpBbr -> TcpBbr :=
  ltac:(bbr_setter m_extraAckedIdx).
Definition set_m_ackEpochTime : Time -> TcpBbr -> TcpBbr :=
  ltac:(bbr_setter m_ackEpochTime).
Definition set_m_ackEpochAcked : Z -> TcpBbr -> TcpBbr :=
  ltac:(bbr_setter m_ackEpochAcked).
Definition set_m_hasSeenRtt : bool -> TcpBbr -> TcpBbr :=
  ltac:(bbr_setter m_hasSeenRtt).
Definition set_m_rttJitter : float -> TcpBbr -> TcpBbr :=
  ltac:(bbr_setter m_rttJitter).
Definition set_m_ackedBytesEcn : Z -> TcpBbr -> TcpBbr :=
  ltac:(bbr_setter m_ackedBytesEcn).
Definition set_m_ackedBytesTotal : Z -> TcpBbr -> TcpBbr :=
  ltac:(bbr_setter m_ackedBytesTotal).
Definition set_m_priorRcvNxt : SequenceNumber32 -> TcpBbr -> TcpBbr :=
  ltac:(bbr_setter m_priorRcvNxt).
Definition set_m_priorRcvNxtFlag : bool -> TcpBbr -> TcpBbr :=
  ltac:(bbr_setter m_priorRcvNxtFlag).
Definition set_m_alpha : float -> TcpBbr -> TcpBbr :=
  ltac:(bbr_setter m_alpha).
Definition set_m_nextSeq : SequenceNumber32 -> TcpBbr -> TcpBbr :=
  ltac:(bbr_setter m_nextSeq).
Definition set_m_nextSeqFlag : bool -> TcpBbr -> TcpBbr :=
  ltac:(bbr_setter m_nextSeqFlag).
Definition set_m_ceState : bool -> TcpBbr -> TcpBbr :=
  ltac:(bbr_setter m_ceState).
Definition set_m_delayedAckReserved : bool -> TcpBbr -> TcpBbr :=
  ltac:(bbr_setter m_delayedAckReserved).
Definition set_m_initialized : bool -> TcpBbr -> TcpBbr :=
  ltac:(bbr_setter m_initialized).
Definition set_m_suppressIncreaseIfCwndLimited : bool -> TcpBbr -> TcpBbr :=
  ltac:(bbr_setter m_suppressIncreaseIfCwndLimited).

(** The two slots of [m_extraAcked].  The index member only ever holds 0
    or 1; any other value would address outside the array in C++. *)
Definition slot_get (i : Z) (a : Z * Z) : Z := if i =? 0 then fst a else snd a.
Definition slot_set (i : Z) (v : Z) (a : Z * Z) : Z * Z :=
  if i =? 0 then (v, snd a) else (fst a, v).

(** ** Constants *)

Definition GAIN_CYCLE_LENGTH : Z := 8.

Definition PACING_GAIN_CYCLE : list float :=
  [(5 / 4)%float; (3 / 4)%float; 1%float; 1%float; 1%float; 1%float; 1%float;
   1%float].

(** ** Member functions, in the order of tcp-bbr.cc *)

(** [TcpBbr::TcpBbr()] with the default member initializers of tcp-bbr.h,
    followed by the attribute defaults registered in [GetTypeId] (the members
    [m_alpha], [m_g], [m_useEct0], [m_highGain], [m_bandwidthWindowLength],
    [m_minRttFilterLen], [m_probeRttDuration], [m_extraAckedWinRttLength],
    [m_ackEpochAckedResetThresh] and the stream receive their value there). *)
Definition TcpBbr_new (h : UvStore) : TcpBbr * UvStore :=
  let '(p, h) := CreateObject_Urv h in
  let h := uv_write p (Urv_SetStream (uv_read h p) 4) h in
  ({| m_state := BBR_STARTUP;
      m_maxBwFilter := Filter_default;
      m_bandwidthWindowLength := 10;
      m_pacingGain := 0%float;
      m_cWndGain := 0%float;
      m_highGain := 2.89%float;
      m_isPipeFilled := false;
      m_minPipeCwnd := 0;
      m_roundCount := 0;
      m_roundStart := false;
      m_nextRoundDelivered := 0;
      m_probeRttDuration := MilliSeconds 200;
      m_probeRtPropStamp := 0;
      m_probeRttDoneStamp := 0;
      m_probeRttRoundDone := false;
      m_packetConservation := false;
      m_priorCwnd := 0;
      m_idleRestart := false;
      m_targetCWnd := 0;
      m_fullBandwidth := 0;
      m_fullBandwidthCount := 0;
      m_minRtt := Time_Max;
      m_sendQuantum := 0;
      m_cycleStamp := 0;
      m_cycleIndex := 0;
      m_minRttExpired := false;
      m_minRttFilterLen := Seconds 10;
      m_minRttStamp := 0;
      m_isInitialized := false;
      m_uv := p;
      m_delivered := 0;
      m_appLimited := 0;
      m_extraAckedGain := 1;
      m_extraAcked := (0, 0);
      m_extraAckedWinRtt := 0;
      m_extraAckedWinRttLength := 5;
      m_ackEpochAckedResetThresh := 2 ^ 12;
      m_extraAckedIdx := 0;
      m_ackEpochTime := 0;
      m_ackEpochAcked := 0;
      m_hasSeenRtt := false;
      m_pacingMargin := 0.01%float;
      m_rttJitter := 0%float;
      m_ackedBytesEcn := 0;
      m_ackedBytesTotal := 0;
      m_priorRcvNxt := 0;
      m_priorRcvNxtFlag := false;
      m_alpha := 1%float;
      m_nextSeq := 0;
      m_nextSeqFlag := false;
      m_ceState := false;
      m_delayedAckReserved := false;
      m_g := 0.0625%float;
      m_useEct0 := true;
      m_initialized := false;
      m_suppressIncreaseIfCwndLimited := true |}, h).

(** [TcpBbr::TcpBbr(const TcpBbr& sock)]: the members of the initializer
    list are copied; [m_minRtt] is set to [Time::Max()]; [m_state],
    [m_maxBwFilter], [m_extraAcked], [m_pacingMargin] and [m_rttJitter] are
    not in the list and take their default member initializers; [m_uv] is a
    copy of the pointer. *)
Definition TcpBbr_copy (sock : TcpBbr) : TcpBbr :=
  {| m_state := BBR_STARTUP;
     m_maxBwFilter := Filter_default;
     m_bandwidthWindowLength := m_bandwidthWindowLength sock;
     m_pacingGain := m_pacingGain sock;
     m_cWndGain := m_cWndGain sock;
     m_highGain := m_highGain sock;
     m_isPipeFilled := m_isPipeFilled sock;
     m_minPipeCwnd := m_minPipeCwnd sock;
     m_roundCount := m_roundCount sock;
     m_roundStart := m_roundStart sock;
     m_nextRoundDelivered := m_nextRoundDelivered sock;
     m_probeRttDuration := m_probeRttDuration sock;
     m_probeRtPropStamp := m_probeRtPropStamp sock;
     m_probeRttDoneStamp := m_probeRttDoneStamp sock;
     m_probeRttRoundDone := m_probeRttRoundDone sock;
     m_packetConservation := m_packetConservation sock;
     m_priorCwnd := m_priorCwnd sock;
     m_idleRestart := m_idleRestart sock;
     m_targetCWnd := m_targetCWnd sock;
     m_fullBandwidth := m_fullBandwidth sock;
     m_fullBandwidthCount := m_fullBandwidthCount sock;
     m_minRtt := Time_Max;
     m_sendQuantum := m_sendQuantum sock;
     m_cycleStamp := m_cycleStamp sock;
     m_cycleIndex := m_cycleIndex sock;
     m_minRttExpired := m_minRttExpired sock;
     m_minRttFilterLen := m_minRttFilterLen sock;
     m_minRttStamp := m_minRttStamp sock;
     m_isInitialized := m_isInitialized sock;
     m_uv := m_uv sock;
     m_delivered := m_delivered sock;
     m_appLimited := m_appLimited sock;
     m_extraAckedGain := m_extraAckedGain sock;
     m_extraAcked := (0, 0);
     m_extraAckedWinRtt := m_extraAckedWinRtt sock;
     m_extraAckedWinRttLength := m_extraAckedWinRttLength sock;
     m_ackEpochAckedResetThresh := m_ackEpochAckedResetThresh sock;
     m_extraAckedIdx := m_extraAckedIdx sock;
     m_ackEpochTime := m_ackEpochTime sock;
     m_ackEpochAcked := m_ackEpochAcked sock;
     m_hasSeenRtt := m_hasSeenRtt sock;
     m_pacingMargin := 0.01%float;
     m_rttJitter := 0%float;
     m_ackedBytesEcn := m_ackedBytesEcn sock;
     m_ackedBytesTotal := m_ackedBytesTotal sock;
     m_priorRcvNxt := m_priorRcvNxt sock;
     m_priorRcvNxtFlag := m_priorRcvNxtFlag sock;
     m_alpha := m_alpha sock;
     m_nextSeq := m_nextSeq sock;
     m_nextSeqFlag := m_nextSeqFlag sock;
     m_ceState := m_ceState sock;
     m_delayedAckReserved := m_delayedAckReserved sock;
     m_g := m_g sock;
     m_useEct0 := m_useEct0 sock;
     m_initialized := m_initialized sock;
     m_suppressIncreaseIfCwndLimited := m_suppressIncreaseIfCwndLimited sock |}.

Definition SetStream (stream : Z) (h : UvStore) (b : TcpBbr) : UvStore :=
  uv_write (m_uv b) (Urv_SetStream (uv_read h (m_uv b)) stream) h.

Definition InitRoundCounting (b : TcpBbr) : TcpBbr :=
  let b := set_m_nextRoundDelivered 0 b in
  let b := set_m_roundStart false b in
  set_m_roundCount 0 b.

Definition InitFullPipe (b : TcpBbr) : TcpBbr :=
  let b := set_m_isPipeFilled false b in
  let b := set_m_fullBandwidth 0 b in
  set_m_fullBandwidthCount 0 b.

Definition InitPacingRate (tcb : TcpSocketState) (b : TcpBbr)
  : TcpSocketState * TcpBbr :=
  let tcb := if negb (tcb_pacing tcb) then set_tcb_pacing true tcb else tcb in
  let '(rtt, b) :=
    if negb (tcb_minRtt tcb =? Time_Max)
    then (MilliSeconds (Z.max (Time_GetMilliSeconds (tcb_minRtt tcb)) 1),
          set_m_hasSeenRtt true b)
    else (MilliSeconds 1, b) in
  let nominalBandwidth : DataRate :=
    double_to_u64 (double_of_Z (u32 (tcb_cWnd tcb * 8)) / Time_GetSeconds rtt)%float in
  let tcb :=
    set_tcb_pacingRate
      (double_to_u64 (m_pacingGain b * double_of_Z (GetBitRate nominalBandwidth))%float)
      tcb in
  let b :=
    set_m_maxBwFilter
      (Filter_make (m_bandwidthWindowLength b)
         (double_to_u64 (double_of_Z (u32 (tcb_cWnd tcb * 8)) / Time_GetSeconds rtt)%float)
         0) b in
  (tcb, b).

Definition SetBbrState (mode : BbrMode_t) (b : TcpBbr) : TcpBbr :=
  set_m_state mode b.

Definition EnterStartup (b : TcpBbr) : TcpBbr :=
  let b := SetBbrState BBR_STARTUP b in
  let b := set_m_pacingGain (m_highGain b) b in
  set_m_cWndGain (m_highGain b) b.

Definition SetPacingRate (tcb : TcpSocketState) (gain : float) (b : TcpBbr)
  : TcpSocketState * TcpBbr :=
  let rate : DataRate :=
    double_to_u64
      (gain * double_of_Z (GetBitRate (Filter_GetBest (m_maxBwFilter b))))%float in
  let rate := DataRate_mul_double rate (1 - m_pacingMargin b)%float in
  let rate := std_min rate (tcb_maxPacingRate tcb) in
  let '(tcb, b) :=
    if negb (m_hasSeenRtt b) && negb (tcb_minRtt tcb =? Time_Max)
    then InitPacingRate tcb b else (tcb, b) in
  let tcb :=
    if m_isPipeFilled b || (tcb_pacingRate tcb <? rate)
    then set_tcb_pacingRate rate tcb else tcb in
  (tcb, b).

Definition HandleRestartFromIdle (tcb : TcpSocketState) (rs : TcpRateSample)
  (b : TcpBbr) : TcpSocketState * TcpBbr :=
  if (tcb_bytesInFlight tcb =? 0) && rs_isAppLimited rs then
    let b := set_m_idleRestart true b in
    if BbrMode_eqb (m_state b) BBR_PROBE_BW then SetPacingRate tcb 1%float b
    else (tcb, b)
  else (tcb, b).

Definition InFlight (tcb : TcpSocketState) (gain : float) (b : TcpBbr) : Z :=
  if m_minRtt b =? Time_Max then u32 (tcb_initialCWnd tcb * tcb_segmentSize tcb)
  else
    let quanta : float := double_of_Z (u32 (3 * m_sendQuantum b)) in
    let estimatedBdp : float :=
      (DataRate_mul_Time (Filter_GetBest (m_maxBwFilter b)) (m_minRtt b) / 8)%float in
    if BbrMode_eqb (m_state b) BBR_PROBE_BW && (m_cycleIndex b =? 0)
    then double_to_u32
           ((gain * estimatedBdp) + quanta
            + double_of_Z (u32 (2 * tcb_segmentSize tcb)))%float
    else double_to_u32 ((gain * estimatedBdp) + quanta)%float.

Definition AdvanceCyclePhase (now : Time) (b : TcpBbr) : TcpBbr :=
  let b := set_m_cycleStamp now b in
  let b := set_m_cycleIndex (u32 (m_cycleIndex b + 1) mod GAIN_CYCLE_LENGTH) b in
  set_m_pacingGain (nth (Z.to_nat (m_cycleIndex b)) PACING_GAIN_CYCLE 0%float) b.

Definition IsNextCyclePhase (tcb : TcpSocketState) (rs : TcpRateSample)
  (now : Time) (b : TcpBbr) : bool :=
  let isFullLength := m_minRtt b <? now - m_cycleStamp b in
  if (m_pacingGain b =? 1)%float then isFullLength
  else if (1 <? m_pacingGain b)%float then
    isFullLength
    && ((0 <? rs_bytesLoss rs)
        || (InFlight tcb (m_pacingGain b) b <=? rs_priorInFlight rs))
  else isFullLength || (rs_priorInFlight rs <=? InFlight tcb 1%float b).

Definition CheckCyclePhase (tcb : TcpSocketState) (rs : TcpRateSample)
  (now : Time) (b : TcpBbr) : TcpBbr :=
  if BbrMode_eqb (m_state b) BBR_PROBE_BW && IsNextCyclePhase tcb rs now b
  then AdvanceCyclePhase now b else b.

(** The test of [CheckFullPipe]: the best bandwidth is at least 1.25 times
    the recorded full bandwidth (both bit rates converted to [double]). *)
Definition bandwidth_still_growing (b : TcpBbr) : bool :=
  (double_of_Z (GetBitRate (m_fullBandwidth b)) * 1.25
   <=? double_of_Z (GetBitRate (Filter_GetBest (m_maxBwFilter b))))%float.

Definition CheckFullPipe (rs : TcpRateSample) (b : TcpBbr) : TcpBbr :=
  if m_isPipeFilled b || negb (m_roundStart b) || rs_isAppLimited rs then b
  else if bandwidth_still_growing b then
    let b := set_m_fullBandwidth (Filter_GetBest (m_maxBwFilter b)) b in
    set_m_fullBandwidthCount 0 b
  else
    let b := set_m_fullBandwidthCount (u32 (m_fullBandwidthCount b + 1)) b in
    if 3 <=? m_fullBandwidthCount b then set_m_isPipeFilled true b else b.

Definition EnterDrain (b : TcpBbr) : TcpBbr :=
  let b := SetBbrState BBR_DRAIN b in
  let b := set_m_pacingGain (1 / m_highGain b)%float b in
  set_m_cWndGain (m_highGain b) b.

Definition EnterProbeBW (now : Time) (h : UvStore) (b : TcpBbr)
  : UvStore * TcpBbr :=
  let b := SetBbrState BBR_PROBE_BW b in
  let b := set_m_pacingGain 1%float b in
  let b := set_m_cWndGain 2%float b in
  let '(x, rv) := Urv_GetValue (uv_read h (m_uv b)) 0%float 6%float in
  let h := uv_write (m_uv b) rv h in
  let b :=
    set_m_cycleIndex (u32 (GAIN_CYCLE_LENGTH - 1 - to_int (double_trunc x))) b in
  (h, AdvanceCyclePhase now b).

Definition CheckDrain (tcb : TcpSocketState) (now : Time) (h : UvStore)
  (b : TcpBbr) : UvStore * TcpSocketState * TcpBbr :=
  let '(tcb, b) :=
    if BbrMode_eqb (m_state b) BBR_STARTUP && m_isPipeFilled b then
      let b := EnterDrain b in
      (set_tcb_ssThresh (InFlight tcb 1%float b) tcb, b)
    else (tcb, b) in
  if BbrMode_eqb (m_state b) BBR_DRAIN
     && (tcb_bytesInFlight tcb <=? InFlight tcb 1%float b)
  then let '(h, b) := EnterProbeBW now h b in (h, tcb, b)
  else (h, tcb, b).

Definition UpdateRTprop (tcb : TcpSocketState) (now : Time) (b : TcpBbr) : TcpBbr :=
  let b := set_m_minRttExpired (m_minRttStamp b + m_minRttFilterLen b <? now) b in
  if Time_IsPositive (tcb_lastRtt tcb)
     && ((tcb_lastRtt tcb <=? m_minRtt b) || m_minRttExpired b)
  then
    let b := set_m_minRtt (tcb_lastRtt tcb) b in
    set_m_minRttStamp now b
  else b.

Definition EnterProbeRTT (b : TcpBbr) : TcpBbr :=
  let b := SetBbrState BBR_PROBE_RTT b in
  let b := set_m_pacingGain 1%float b in
  set_m_cWndGain 1%float b.

Definition SaveCwnd (tcb : TcpSocketState) (b : TcpBbr) : TcpBbr :=
  if negb (TcpCongState_eqb (tcb_congState tcb) CA_RECOVERY)
     && negb (BbrMode_eqb (m_state b) BBR_PROBE_RTT)
  then set_m_priorCwnd (tcb_cWnd tcb) b
  else set_m_priorCwnd (std_max (m_priorCwnd b) (tcb_cWnd tcb)) b.

Definition RestoreCwnd (tcb : TcpSocketState) (b : TcpBbr) : TcpSocketState :=
  set_tcb_cWnd (std_max (m_priorCwnd b) (tcb_cWnd tcb)) tcb.

Definition ExitProbeRTT (now : Time) (h : UvStore) (b : TcpBbr)
  : UvStore * TcpBbr :=
  if m_isPipeFilled b then EnterProbeBW now h b else (h, EnterStartup b).

Definition HandleProbeRTT (tcb : TcpSocketState) (now : Time) (h : UvStore)
  (b : TcpBbr) : UvStore * TcpSocketState * TcpBbr :=
  let totalBytes := u32 (u64 (m_delivered b + tcb_bytesInFlight tcb)) in
  let b := set_m_appLimited (if 0 <? totalBytes then totalBytes else 1) b in
  if Time_IsZero (m_probeRttDoneStamp b)
     && (tcb_bytesInFlight tcb <=? m_minPipeCwnd b)
  then
    let b := set_m_probeRttDoneStamp (now + m_probeRttDuration b) b in
    let b := set_m_probeRttRoundDone false b in
    let b := set_m_nextRoundDelivered (u32 (m_delivered b)) b in
    (h, tcb, b)
  else if negb (Time_IsZero (m_probeRttDoneStamp b)) then
    let b := if m_roundStart b then set_m_probeRttRoundDone true b else b in
    if m_probeRttRoundDone b && (m_probeRttDoneStamp b <? now) then
      let b := set_m_minRttStamp now b in
      let tcb := RestoreCwnd tcb b in
      let '(h, b) := ExitProbeRTT now h b in
      (h, tcb, b)
    else (h, tcb, b)
  else (h, tcb, b).

Definition CheckProbeRTT (tcb : TcpSocketState) (rs : TcpRateSample)
  (now : Time) (h : UvStore) (b : TcpBbr) : UvStore * TcpSocketState * TcpBbr :=
  let b :=
    if negb (BbrMode_eqb (m_state b) BBR_PROBE_RTT) && m_minRttExpired b
       && negb (m_idleRestart b)
    then
      let b := EnterProbeRTT b in
      let b := SaveCwnd tcb b in
      set_m_probeRttDoneStamp (Seconds 0) b
    else b in
  let '(h, tcb, b) :=
    if BbrMode_eqb (m_state b) BBR_PROBE_RTT then HandleProbeRTT tcb now h b
    else (h, tcb, b) in
  let b := if negb (rs_delivered rs =? 0) then set_m_idleRestart false b else b in
  (h, tcb, b).

Definition SetSendQuantum (tcb : TcpSocketState) (b : TcpBbr) : TcpBbr :=
  set_m_sendQuantum (u32 (1 * tcb_segmentSize tcb)) b.

Definition AckAggregationCwnd (b : TcpBbr) : Z :=
  if negb (m_extraAckedGain b =? 0) && m_isPipeFilled b then
    let maxAggrBytes :=
      u32 (GetBitRate (Filter_GetBest (m_maxBwFilter b)) / (10 * 8)) in
    let aggrCwndBytes :=
      u32 (m_extraAckedGain b
           * std_max (fst (m_extraAcked b)) (snd (m_extraAcked b))) in
    std_min aggrCwndBytes maxAggrBytes
  else 0.

Definition UpdateTargetCwnd (tcb : TcpSocketState) (b : TcpBbr) : TcpBbr :=
  set_m_targetCWnd (u32 (InFlight tcb (m_cWndGain b) b + AckAggregationCwnd b)) b.

Definition UpdateAckAggregation (tcb : TcpSocketState) (rs : TcpRateSample)
  (now : Time) (b : TcpBbr) : TcpBbr :=
  if (m_extraAckedGain b =? 0) || (rs_ackedSacked rs <=? 0)
     || (rs_delivered rs <? 0)
  then b
  else
    let b :=
      if m_roundStart b then
        let b :=
          set_m_extraAckedWinRtt (std_min 31 (u32 (m_extraAckedWinRtt b + 1))) b in
        if m_extraAckedWinRttLength b <=? m_extraAckedWinRtt b then
          let b := set_m_extraAckedWinRtt 0 b in
          let b :=
            set_m_extraAckedIdx (if negb (m_extraAckedIdx b =? 0) then 0 else 1) b in
          set_m_extraAcked (slot_set (m_extraAckedIdx b) 0 (m_extraAcked b)) b
        else b
      else b in
    let epochProp :=
      double_to_u32
        (Time_GetSeconds now - Time_GetSeconds (m_ackEpochTime b))%float in
    let expectedAcked :=
      u32 (u64 (GetBitRate (Filter_GetBest (m_maxBwFilter b)) * epochProp) / 8) in
    let '(b, expectedAcked) :=
      if (m_ackEpochAcked b <=? expectedAcked)
         || (m_ackEpochAckedResetThresh b
             <=? u32 (m_ackEpochAcked b + rs_ackedSacked rs))
      then
        let b := set_m_ackEpochAcked 0 b in
        let b := set_m_ackEpochTime now b in
        (b, 0)
      else (b, expectedAcked) in
    let b := set_m_ackEpochAcked (u32 (m_ackEpochAcked b + rs_ackedSacked rs)) b in
    let extraAck := u32 (m_ackEpochAcked b - expectedAcked) in
    let extraAck := std_min extraAck (tcb_cWnd tcb) in
    if slot_get (m_extraAckedIdx b) (m_extraAcked b) <? extraAck
    then set_m_extraAcked (slot_set (m_extraAckedIdx b) extraAck (m_extraAcked b)) b
    else b.

(** The subtraction is done on [int] values; where it leaves the range of
    [int] (undefined in C++) the embedding keeps the mathematical value
    before the conversion back to the unsigned window. *)
Definition ModulateCwndForRecovery (tcb : TcpSocketState) (rs : TcpRateSample)
  (b : TcpBbr) : TcpSocketState * bool :=
  let tcb :=
    if 0 <? rs_bytesLoss rs then
      set_tcb_cWnd
        (u32 (std_max (to_int (tcb_cWnd tcb) - to_int (rs_bytesLoss rs))
                      (to_int (tcb_segmentSize tcb)))) tcb
    else tcb in
  if m_packetConservation b then
    (set_tcb_cWnd
       (std_max (tcb_cWnd tcb) (u32 (tcb_bytesInFlight tcb + rs_ackedSacked rs)))
       tcb, true)
  else (tcb, false).

Definition ModulateCwndForProbeRTT (tcb : TcpSocketState) (b : TcpBbr)
  : TcpSocketState :=
  if BbrMode_eqb (m_state b) BBR_PROBE_RTT
  then set_tcb_cWnd (std_min (tcb_cWnd tcb) (m_minPipeCwnd b)) tcb
  else tcb.

(** The two [goto done] of the source are the two early results that only
    apply [ModulateCwndForProbeRTT]. *)
Definition SetCwnd (tcb : TcpSocketState) (rs : TcpRateSample) (b : TcpBbr)
  : TcpSocketState * TcpBbr :=
  if rs_ackedSacked rs =? 0 then (ModulateCwndForProbeRTT tcb b, b)
  else
    let '(tcb, done) :=
      if TcpCongState_eqb (tcb_congState tcb) CA_RECOVERY
      then ModulateCwndForRecovery tcb rs b
      else (tcb, false) in
    if done then (ModulateCwndForProbeRTT tcb b, b)
    else
      let b := UpdateTargetCwnd tcb b in
      let tcb :=
        if m_isPipeFilled b then
          set_tcb_cWnd
            (std_min (u32 (tcb_cWnd tcb + rs_ackedSacked rs)) (m_targetCWnd b)) tcb
        else if (tcb_cWnd tcb <? m_targetCWnd b)
                || (m_delivered b
                    <? u32 (tcb_initialCWnd tcb * tcb_segmentSize tcb))
        then set_tcb_cWnd (u32 (tcb_cWnd tcb + rs_ackedSacked rs)) tcb
        else tcb in
      let tcb := set_tcb_cWnd (std_max (tcb_cWnd tcb) (m_minPipeCwnd b)) tcb in
      (ModulateCwndForProbeRTT tcb b, b).

Definition UpdateRound (rs : TcpRateSample) (b : TcpBbr) : TcpBbr :=
  if m_nextRoundDelivered b <=? rs_priorDelivered rs then
    let b := set_m_nextRoundDelivered (u32 (m_delivered b)) b in
    let b := set_m_roundCount (u32 (m_roundCount b + 1)) b in
    let b := set_m_roundStart true b in
    set_m_packetConservation false b
  else set_m_roundStart false b.

Definition UpdateBottleneckBandwidth (rs : TcpRateSample) (b : TcpBbr) : TcpBbr :=
  if (rs_delivered rs <? 0) || Time_IsZero (rs_interval rs) then b
  else
    let b := UpdateRound rs b in
    if (Filter_GetBest (m_maxBwFilter b) <=? rs_deliveryRate rs)
       || negb (rs_isAppLimited rs)
    then
      set_m_maxBwFilter
        (Filter_Update (m_maxBwFilter b) (rs_deliveryRate rs) (m_roundCount b)) b
    else b.

Definition UpdateModelAndState (tcb : TcpSocketState) (rs : TcpRateSample)
  (now : Time) (h : UvStore) (b : TcpBbr) : UvStore * TcpSocketState * TcpBbr :=
  let b := UpdateBottleneckBandwidth rs b in
  let b := UpdateAckAggregation tcb rs now b in
  let b := CheckCyclePhase tcb rs now b in
  let b := CheckFullPipe rs b in
  let '(h, tcb, b) := CheckDrain tcb now h b in
  let b := UpdateRTprop tcb now b in
  CheckProbeRTT tcb rs now h b.

Definition UpdateControlParameters (tcb : TcpSocketState) (rs : TcpRateSample)
  (b : TcpBbr) : TcpSocketState * TcpBbr :=
  let '(tcb, b) := SetPacingRate tcb (m_pacingGain b) b in
  let b := SetSendQuantum tcb b in
  SetCwnd tcb rs b.

Definition CongControl (tcb : TcpSocketState) (rc : TcpRateConnection)
  (rs : TcpRateSample) (now : Time) (h : UvStore) (b : TcpBbr)
  : UvStore * TcpSocketState * TcpBbr :=
  let b := set_m_delivered (rc_delivered rc) b in
  let '(h, tcb, b) := UpdateModelAndState tcb rs now h b in
  let '(tcb, b) := UpdateControlParameters tcb rs b in
  (h, tcb, b).

Definition Init (tcb : TcpSocketState) (b : TcpBbr) : TcpSocketState * TcpBbr :=
  let tcb := set_tcb_useEcn On tcb in
  let tcb := set_tcb_ecnMode DctcpEcn tcb in
  let tcb := set_tcb_ectCodePoint (if m_useEct0 b then Ect0 else Ect1) tcb in
  let b := set_m_suppressIncreaseIfCwndLimited false b in
  (tcb, set_m_initialized true b).

Definition CongestionStateSet (tcb : TcpSocketState) (newState : TcpCongState_t)
  (now : Time) (b : TcpBbr) : TcpSocketState * TcpBbr :=
  if TcpCongState_eqb newState CA_OPEN && negb (m_isInitialized b) then
    let b :=
      set_m_minRtt
        (if negb (tcb_srtt tcb =? Time_Max) then tcb_srtt tcb else Time_Max) b in
    let b := set_m_minRttStamp now b in
    let b := set_m_priorCwnd (tcb_cWnd tcb) b in
    let tcb := set_tcb_ssThresh (tcb_initialSsThresh tcb) tcb in
    let b := set_m_targetCWnd (tcb_cWnd tcb) b in
    let b := set_m_minPipeCwnd (u32 (4 * tcb_segmentSize tcb)) b in
    let b := set_m_sendQuantum (u32 (1 * tcb_segmentSize tcb)) b in
    let b := InitRoundCounting b in
    let b := InitFullPipe b in
    let b := EnterStartup b in
    let '(tcb, b) := InitPacingRate tcb b in
    let b := set_m_ackEpochTime now b in
    let b := set_m_extraAckedWinRtt 0 b in
    let b := set_m_extraAckedIdx 0 b in
    let b := set_m_ackEpochAcked 0 b in
    let b := set_m_extraAcked (slot_set 0 0 (m_extraAcked b)) b in
    let b := set_m_extraAcked (slot_set 1 0 (m_extraAcked b)) b in
    (tcb, set_m_isInitialized true b)
  else if TcpCongState_eqb newState CA_LOSS then
    let b := SaveCwnd tcb b in
    (tcb, set_m_roundStart true b)
  else if TcpCongState_eqb newState CA_RECOVERY then
    let b := SaveCwnd tcb b in
    let tcb :=
      set_tcb_cWnd
        (u32 (tcb_bytesInFlight tcb
              + std_max (tcb_lastAckedSackedBytes tcb) (tcb_segmentSize tcb)))
        tcb in
    (tcb, set_m_packetConservation true b)
  else (tcb, b).

Definition UpdateAckReserved (event : TcpCAEvent_t) (b : TcpBbr) : TcpBbr :=
  match event with
  | CA_EVENT_DELAYED_ACK =>
      if negb (m_delayedAckReserved b) then set_m_delayedAckReserved true b else b
  | CA_EVENT_NON_DELAYED_ACK =>
      if m_delayedAckReserved b then set_m_delayedAckReserved false b else b
  | _ => b
  end.

Definition CeState0to1 (tcb : TcpSocketState) (b : TcpBbr)
  : TcpSocketState * TcpBbr :=
  let tcb :=
    if negb (m_ceState b) && m_delayedAckReserved b && m_priorRcvNxtFlag b then
      let tmpRcvNxt := tcb_rxNext tcb in
      let tcb := set_tcb_rxNext (m_priorRcvNxt b) tcb in
      let tcb := set_tcb_sent (tcb_sent tcb ++ [(ACK, tcb_rxNext tcb)]) tcb in
      set_tcb_rxNext tmpRcvNxt tcb
    else tcb in
  let b := if negb (m_priorRcvNxtFlag b) then set_m_priorRcvNxtFlag true b else b in
  let b := set_m_priorRcvNxt (tcb_rxNext tcb) b in
  let b := set_m_ceState true b in
  (set_tcb_ecnState ECN_CE_RCVD tcb, b).

Definition CeState1to0 (tcb : TcpSocketState) (b : TcpBbr)
  : TcpSocketState * TcpBbr :=
  let tcb :=
    if m_ceState b && m_delayedAckReserved b && m_priorRcvNxtFlag b then
      let tmpRcvNxt := tcb_rxNext tcb in
      let tcb := set_tcb_rxNext (m_priorRcvNxt b) tcb in
      let tcb := set_tcb_sent (tcb_sent tcb ++ [(ACK_ECE, tcb_rxNext tcb)]) tcb in
      set_tcb_rxNext tmpRcvNxt tcb
    else tcb in
  let b := if negb (m_priorRcvNxtFlag b) then set_m_priorRcvNxtFlag true b else b in
  let b := set_m_priorRcvNxt (tcb_rxNext tcb) b in
  let b := set_m_ceState false b in
  let tcb :=
    if EcnState_eqb (tcb_ecnState tcb) ECN_CE_RCVD
       || EcnState_eqb (tcb_ecnState tcb) ECN_SENDING_ECE
    then set_tcb_ecnState ECN_IDLE tcb else tcb in
  (tcb, b).

Definition CwndEvent (tcb : TcpSocketState) (event : TcpCAEvent_t) (now : Time)
  (h : UvStore) (b : TcpBbr) : UvStore * TcpSocketState * TcpBbr :=
  match event with
  | CA_EVENT_COMPLETE_CWR =>
      let b := set_m_packetConservation false b in
      (h, RestoreCwnd tcb b, b)
  | CA_EVENT_TX_START =>
      if m_appLimited b =? 0 then (h, tcb, b)
      else
        let b := set_m_idleRestart true b in
        let b := set_m_ackEpochTime now b in
        let b := set_m_ackEpochAcked 0 b in
        if BbrMode_eqb (m_state b) BBR_PROBE_BW then
          let '(tcb, b) := SetPacingRate tcb 1%float b in (h, tcb, b)
        else if BbrMode_eqb (m_state b) BBR_PROBE_RTT then
          if m_probeRttRoundDone b && (m_probeRttDoneStamp b <? now) then
            let b := set_m_minRttStamp now b in
            let tcb := RestoreCwnd tcb b in
            let '(h, b) := ExitProbeRTT now h b in
            (h, tcb, b)
          else (h, tcb, b)
        else (h, tcb, b)
  | CA_EVENT_ECN_IS_CE => let '(tcb, b) := CeState0to1 tcb b in (h, tcb, b)
  | CA_EVENT_ECN_NO_CE => let '(tcb, b) := CeState1to0 tcb b in (h, tcb, b)
  | CA_EVENT_DELAYED_ACK | CA_EVENT_NON_DELAYED_ACK =>
      (h, tcb, UpdateAckReserved event b)
  | _ => (h, tcb, b)
  end.

Definition GetSsThresh (tcb : TcpSocketState) (bytesInFlight : Z) (b : TcpBbr)
  : Z * TcpBbr :=
  let b := SaveCwnd tcb b in
  (tcb_ssThresh tcb, b).

(** [Fork] is [CopyObject<TcpBbr>(this)]: a new object built by the copy
    constructor.  The store of random variables is untouched: the child
    holds the parent's pointer. *)
Definition Fork (b : TcpBbr) : TcpBbr := TcpBbr_copy b.

Definition Reset (tcb : TcpSocketState) (b : TcpBbr) : TcpBbr :=
  let b := set_m_nextSeq (tcb_nextTxSequence tcb) b in
  let b := set_m_ackedBytesEcn 0 b in
  set_m_ackedBytesTotal 0 b.

(** [std::abs] of the difference of two nanosecond counts. *)
Definition PktsAcked (tcb : TcpSocketState) (segmentsAcked : Z) (rtt : Time)
  (b : TcpBbr) : TcpBbr * option (Z * Z * float) :=
  let b :=
    set_m_rttJitter
      ((1 - m_g b) * m_rttJitter b
       + m_g b
         * double_of_Z
             (Z.abs (Time_GetNanoSeconds rtt - Time_GetNanoSeconds (m_minRtt b))))%float
      b in
  let b :=
    set_m_ackedBytesTotal
      (u32 (m_ackedBytesTotal b + u32 (segmentsAcked * tcb_segmentSize tcb))) b in
  let b :=
    if EcnState_eqb (tcb_ecnState tcb) ECN_ECE_RCVD then
      let b :=
        set_m_ackedBytesEcn
          (u32 (m_ackedBytesEcn b + u32 (segmentsAcked * tcb_segmentSize tcb))) b in
      let b :=
        if EcnCodePoint_eqb (tcb_ectCodePoint tcb) Ect0
        then set_m_cWndGain (std_min_d 2.5 (m_cWndGain b + 0.1))%float b
        else b in
      if EcnCodePoint_eqb (tcb_ectCodePoint tcb) Ect1
      then set_m_cWndGain (std_max_d 1.5 (m_cWndGain b - 0.1))%float b
      else b
    else b in
  let b :=
    if negb (m_nextSeqFlag b) then
      let b := set_m_nextSeq (tcb_nextTxSequence tcb) b in
      set_m_nextSeqFlag true b
    else b in
  if SequenceNumber32_geq (tcb_lastAckedSeq tcb) (m_nextSeq b) then
    let bytesEcn : float :=
      if 0 <? m_ackedBytesTotal b
      then (double_of_Z (m_ackedBytesEcn b) * 1.0
            / double_of_Z (m_ackedBytesTotal b))%float
      else 0.0%float in
    let b := set_m_alpha ((1.0 - m_g b) * m_alpha b + m_g b * bytesEcn)%float b in
    let traced := (m_ackedBytesEcn b, m_ackedBytesTotal b, m_alpha b) in
    (Reset tcb b, Some traced)
  else (b, None).

(** [NS_ABORT_MSG_IF] terminates the program when its condition holds: the
    result is then [None]. *)
Definition InitializeDctcpAlpha (alpha : float) (b : TcpBbr) : option TcpBbr :=
  if m_initialized b then None else Some (set_m_alpha alpha b).

End TcpBbrModel.

(** ** An instance of the library interface

    A plain implementation of [Ns3Lib] on which the model runs: the filter
    keeps the largest sample it was given, a time in seconds is its
    nanosecond count divided by [1e9], a bit rate times a time is the number
    of bits, sequence numbers are compared as integers, and the random
    variable is a counter whose draws walk through 0, 1, ..., 5. *)
#[export] Instance PlainLib : Ns3Lib := {|
  MaxBandwidthFilter_t := DataRate;
  Filter_default := 0;
  Filter_make := fun _ zero _ => zero;
  Filter_GetBest := fun f => f;
  Filter_Update := fun f sample _ => Z.max f sample;
  Time_GetSeconds := fun t => (double_of_Z t / 1000000000)%float;
  Time_GetMilliSeconds := fun t => t / 1000000;
  DataRate_mul_Time :=
    fun r t => ((double_of_Z t / 1000000000) * double_of_Z r)%float;
  DataRate_mul_double := fun r d => double_to_u64 (double_of_Z r * d)%float;
  SequenceNumber32_geq := fun a b => b <=? a;
  UniformRandomVariable := Z;
  Urv_new := 0;
  Urv_SetStream := fun _ stream => stream;
  Urv_GetValue := fun rv _ _ => (double_of_Z (rv mod 6), rv + 1)
|}.

(** A control block of a connection with 1448-byte segments and an initial
    window of 10 segments. *)
Definition tcb_example : TcpSocketState :=
  {| tcb_cWnd := 14480; tcb_ssThresh := 2 ^ 32 - 1; tcb_initialCWnd := 10;
     tcb_initialSsThresh := 2 ^ 32 - 1; tcb_segmentSize := 1448;
     tcb_bytesInFlight := 0; tcb_lastAckedSackedBytes := 0;
     tcb_congState := CA_OPEN; tcb_pacing := true; tcb_pacingRate := 0;
     tcb_maxPacingRate := 4000000000; tcb_minRtt := Time_Max;
     tcb_lastRtt := 0; tcb_srtt := Time_Max; tcb_useEcn := Off;
     tcb_ecnMode := ClassicEcn; tcb_ectCodePoint := NotECT;
     tcb_ecnState := ECN_DISABLED; tcb_nextTxSequence := 1;
     tcb_lastAckedSeq := 0; tcb_rxNext := 1; tcb_sent := [] |}.

(** The object of a fresh connection: constructed, then initialised by the
    first [CongestionStateSet(CA_OPEN)] at time 0. *)
Definition bbr_example : TcpBbr :=
  snd (CongestionStateSet tcb_example CA_OPEN 0 (fst (TcpBbr_new []))).

(** The socket, not the class, writes the following members of the control
    block between two calls. *)
Definition set_tcb_bytesInFlight : Z -> TcpSocketState -> TcpSocketState :=
  ltac:(tcb_setter tcb_bytesInFlight).
Definition set_tcb_congState : TcpCongState_t -> TcpSocketState -> TcpSocketState :=
  ltac:(tcb_setter tcb_congState).
Definition set_tcb_lastRtt : Time -> TcpSocketState -> TcpSocketState :=
  ltac:(tcb_setter tcb_lastRtt).
Definition set_tcb_lastAckedSeq :
  SequenceNumber32 -> TcpSocketState -> TcpSocketState :=
  ltac:(tcb_setter tcb_lastAckedSeq).
Definition set_tcb_nextTxSequence :
  SequenceNumber32 -> TcpSocketState -> TcpSocketState :=
  ltac:(tcb_setter tcb_nextTxSequence).

(** * Properties *)

(** Normalisation of projections of records built by the setters. *)
Ltac record_norm :=
  cbv beta iota zeta delta [
    m_state m_maxBwFilter m_bandwidthWindowLength m_pacingGain m_cWndGain
    m_highGain m_isPipeFilled m_minPipeCwnd m_roundCount m_roundStart
    m_nextRoundDelivered m_probeRttDuration m_probeRtPropStamp
    m_probeRttDoneStamp m_probeRttRoundDone m_packetConservation m_priorCwnd
    m_idleRestart m_targetCWnd m_fullBandwidth m_fullBandwidthCount m_minRtt
    m_sendQuantum m_cycleStamp m_cycleIndex m_minRttExpired m_minRttFilterLen
    m_minRttStamp m_isInitialized m_uv m_delivered m_appLimited
    m_extraAckedGain m_extraAcked m_extraAckedWinRtt m_extraAckedWinRttLength
    m_ackEpochAckedResetThresh m_extraAckedIdx m_ackEpochTime m_ackEpochAcked
    m_hasSeenRtt m_pacingMargin m_rttJitter m_ackedBytesEcn m_ackedBytesTotal
    m_priorRcvNxt m_priorRcvNxtFlag m_alpha m_nextSeq m_nextSeqFlag m_ceState
    m_delayedAckReserved m_g m_useEct0 m_initialized
    m_suppressIncreaseIfCwndLimited tcb_cWnd tcb_ssThresh tcb_initialCWnd
    tcb_initialSsThresh tcb_segmentSize tcb_bytesInFlight
    tcb_lastAckedSackedBytes tcb_congState tcb_pacing tcb_pacingRate
    tcb_maxPacingRate tcb_minRtt tcb_lastRtt tcb_srtt tcb_useEcn tcb_ecnMode
    tcb_ectCodePoint tcb_ecnState tcb_nextTxSequence tcb_lastAckedSeq
    tcb_rxNext tcb_sent set_tcb_cWnd set_tcb_ssThresh set_tcb_pacing
    set_tcb_pacingRate set_tcb_useEcn set_tcb_ecnMode set_tcb_ectCodePoint
    set_tcb_ecnState set_tcb_rxNext set_tcb_sent set_m_state
    set_m_maxBwFilter set_m_pacingGain set_m_cWndGain set_m_isPipeFilled
    set_m_minPipeCwnd set_m_roundCount set_m_roundStart
    set_m_nextRoundDelivered set_m_probeRttDoneStamp set_m_probeRttRoundDone
    set_m_packetConservation set_m_priorCwnd set_m_idleRestart
    set_m_targetCWnd set_m_fullBandwidth set_m_fullBandwidthCount
    set_m_minRtt set_m_sendQuantum set_m_cycleStamp set_m_cycleIndex
    set_m_minRttExpired set_m_minRttStamp set_m_isInitialized set_m_delivered
    set_m_appLimited set_m_extraAcked set_m_extraAckedWinRtt
    set_m_extraAckedIdx set_m_ackEpochTime set_m_ackEpochAcked
    set_m_hasSeenRtt set_m_rttJitter set_m_ackedBytesEcn
    set_m_ackedBytesTotal set_m_priorRcvNxt set_m_priorRcvNxtFlag set_m_alpha
    set_m_nextSeq set_m_nextSeqFlag set_m_ceState set_m_delayedAckReserved
    set_m_initialized set_m_suppressIncreaseIfCwndLimited
    set_tcb_bytesInFlight set_tcb_congState set_tcb_lastRtt
    set_tcb_lastAckedSeq set_tcb_nextTxSequence fst snd SetBbrState
  ] in *.

(** Case analysis on the tests of the goal, innermost first. *)
Ltac split_ifs :=
  repeat (record_norm; cbn [Z.eqb negb andb orb] in *;
          match goal with
          | |- context [if ?c then _ else _] =>
              lazymatch c with
              | context [if _ then _ else _] => fail
              | _ => destruct c eqn:?
              end
          end);
  record_norm; cbn [Z.eqb negb andb orb] in *.

(** ** Arithmetic helpers *)

Lemma std_max_ge_r (a b : Z) : b <= std_max a b.
Proof. unfold std_max. destruct (a <? b) eqn:E; lia. Qed.

Lemma std_max_ge_l (a b : Z) : a <= std_max a b.
Proof. unfold std_max. destruct (a <? b) eqn:E; lia. Qed.

Lemma std_min_le_l (a b : Z) : std_min a b <= a.
Proof. unfold std_min. destruct (b <? a) eqn:E; lia. Qed.

Lemma std_min_le_r (a b : Z) : std_min a b <= b.
Proof. unfold std_min. destruct (b <? a) eqn:E; lia. Qed.

Lemma std_max_Zmax (a b : Z) : std_max a b = Z.max a b.
Proof. unfold std_max. destruct (a <? b) eqn:E; [apply Z.ltb_lt in E|apply Z.ltb_ge in E]; lia. Qed.

Lemma std_min_Zmin (a b : Z) : std_min a b = Z.min a b.
Proof. unfold std_min. destruct (b <? a) eqn:E; [apply Z.ltb_lt in E|apply Z.ltb_ge in E]; lia. Qed.

Lemma std_min_glb (a b c : Z) : c <= a -> c <= b -> c <= std_min a b.
Proof. unfold std_min. destruct (b <? a); lia. Qed.

Lemma u32_range (z : Z) : 0 <= u32 z < 2 ^ 32.
Proof. unfold u32. apply Z.mod_pos_bound. lia. Qed.

Lemma u32_small (z : Z) : 0 <= z < 2 ^ 32 -> u32 z = z.
Proof. unfold u32. apply Z.mod_small. Qed.

Lemma TcpCongState_eqb_eq (a b : TcpCongState_t) :
  TcpCongState_eqb a b = true <-> a = b.
Proof. destruct a, b; simpl; split; congruence. Qed.

Lemma BbrMode_eqb_eq (a b : BbrMode_t) : BbrMode_eqb a b = true <-> a = b.
Proof. destruct a, b; simpl; split; congruence. Qed.

(** ** The floor of the congestion window (C1) *)

Section SetCwnd_floor.
Context {L : Ns3Lib}.

Lemma ModulateCwndForProbeRTT_floor (tcb : TcpSocketState) (b : TcpBbr) :
  m_minPipeCwnd b <= tcb_cWnd tcb ->
  m_minPipeCwnd b <= tcb_cWnd (ModulateCwndForProbeRTT tcb b).
Proof.
  intros H. unfold ModulateCwndForProbeRTT.
  destruct (BbrMode_eqb (m_state b) BBR_PROBE_RTT); simpl; [|exact H].
  apply std_min_glb; lia.
Qed.

Lemma ModulateCwndForRecovery_done (tcb : TcpSocketState) (rs : TcpRateSample)
  (b : TcpBbr) :
  snd (ModulateCwndForRecovery tcb rs b) = m_packetConservation b.
Proof.
  unfold ModulateCwndForRecovery.
  destruct (m_packetConservation b); reflexivity.
Qed.

Lemma SetCwnd_keeps_minPipeCwnd (tcb : TcpSocketState) (rs : TcpRateSample)
  (b : TcpBbr) :
  m_minPipeCwnd (snd (SetCwnd tcb rs b)) = m_minPipeCwnd b.
Proof.
  unfold SetCwnd.
  destruct (rs_ackedSacked rs =? 0); [reflexivity|].
  destruct (if TcpCongState_eqb (tcb_congState tcb) CA_RECOVERY
            then ModulateCwndForRecovery tcb rs b else (tcb, false)) as [t d].
  destruct d; reflexivity.
Qed.

(** C1, as the code has it.  For a sample with a non-zero acked count,
    [SetCwnd] leaves the congestion window at or above [m_minPipeCwnd]
    (also in PROBE_RTT, and in RECOVERY without packet conservation).  The
    one exception is the recovery path: in RECOVERY with packet conservation
    active [SetCwnd] returns through [done] with no floor.  The window is
    then the larger of the window after the loss cut (the window less the
    lost bytes, but at least one segment, computed on [int] and stored in 32
    bits, when the sample reports a loss; the window itself when not) and
    the 32-bit sum of the bytes in flight and the acked bytes, cut down to
    [m_minPipeCwnd] in PROBE_RTT; nothing else changes in the control block,
    and nothing in the object. *)
Theorem SetCwnd_floor_outside_conservation (tcb : TcpSocketState)
  (rs : TcpRateSample) (b : TcpBbr) :
  rs_ackedSacked rs <> 0 ->
  (~ (tcb_congState tcb = CA_RECOVERY /\ m_packetConservation b = true) ->
   m_minPipeCwnd (snd (SetCwnd tcb rs b)) <= tcb_cWnd (fst (SetCwnd tcb rs b)))
  /\ (tcb_congState tcb = CA_RECOVERY -> m_packetConservation b = true ->
      let cut :=
        if 0 <? rs_bytesLoss rs
        then u32 (Z.max (to_int (tcb_cWnd tcb) - to_int (rs_bytesLoss rs))
                        (to_int (tcb_segmentSize tcb)))
        else tcb_cWnd tcb in
      let kept := Z.max cut (u32 (tcb_bytesInFlight tcb + rs_ackedSacked rs)) in
      tcb_cWnd (fst (SetCwnd tcb rs b))
      = (if BbrMode_eqb (m_state b) BBR_PROBE_RTT
         then Z.min kept (m_minPipeCwnd b) else kept)
      /\ fst (SetCwnd tcb rs b)
         = set_tcb_cWnd (tcb_cWnd (fst (SetCwnd tcb rs b))) tcb
      /\ snd (SetCwnd tcb rs b) = b
      /\ fst (SetCwnd tcb rs b)
         = ModulateCwndForProbeRTT (fst (ModulateCwndForRecovery tcb rs b)) b).
Proof.
  intros Hack. apply Z.eqb_neq in Hack. split.
  - intros Hout. rewrite SetCwnd_keeps_minPipeCwnd.
    unfold SetCwnd. rewrite Hack.
    assert (Hd : snd (if TcpCongState_eqb (tcb_congState tcb) CA_RECOVERY
                      then ModulateCwndForRecovery tcb rs b else (tcb, false))
                 = false).
    { destruct (TcpCongState_eqb (tcb_congState tcb) CA_RECOVERY) eqn:E;
        [|reflexivity].
      rewrite ModulateCwndForRecovery_done.
      apply TcpCongState_eqb_eq in E.
      destruct (m_packetConservation b); [exfalso; apply Hout; auto|reflexivity]. }
    destruct (if TcpCongState_eqb (tcb_congState tcb) CA_RECOVERY
              then ModulateCwndForRecovery tcb rs b else (tcb, false)) as [t d].
    simpl in Hd. subst d. cbv zeta. cbn [fst].
    change (m_minPipeCwnd b) with (m_minPipeCwnd (UpdateTargetCwnd t b)).
    apply ModulateCwndForProbeRTT_floor.
    cbn [tcb_cWnd set_tcb_cWnd]. apply std_max_ge_r.
  - intros Hrec Hcons. cbv zeta. rewrite <- !std_max_Zmax, <- std_min_Zmin.
    unfold SetCwnd. rewrite Hack.
    apply TcpCongState_eqb_eq in Hrec. rewrite Hrec.
    unfold ModulateCwndForRecovery, ModulateCwndForProbeRTT. rewrite Hcons.
    destruct (0 <? rs_bytesLoss rs);
      destruct (BbrMode_eqb (m_state b) BBR_PROBE_RTT);
      repeat split.
Qed.

End SetCwnd_floor.

(** A sample acknowledging one segment, with no loss. *)
Definition rs_one_segment : TcpRateSample :=
  {| rs_deliveryRate := 100000000; rs_isAppLimited := false;
     rs_interval := 10000000; rs_delivered := 1448; rs_priorDelivered := 0;
     rs_bytesLoss := 0; rs_priorInFlight := 1448; rs_ackedSacked := 1448 |}.

(** The connection enters RECOVERY with one segment in flight:
    [CongestionStateSet] sets the window to two segments and turns packet
    conservation on. *)
Definition tcb_in_recovery : TcpSocketState :=
  set_tcb_congState CA_RECOVERY
    (fst (CongestionStateSet (set_tcb_bytesInFlight 1448 tcb_example)
            CA_RECOVERY 0 bbr_example)).

Definition bbr_in_recovery : TcpBbr :=
  snd (CongestionStateSet (set_tcb_bytesInFlight 1448 tcb_example)
         CA_RECOVERY 0 bbr_example).

Lemma SetCwnd_floor_outside_conservation_witness :
  m_minPipeCwnd (snd (SetCwnd tcb_example rs_one_segment bbr_example))
  <= tcb_cWnd (fst (SetCwnd tcb_example rs_one_segment bbr_example))
  /\ tcb_cWnd (fst (SetCwnd tcb_in_recovery rs_one_segment bbr_in_recovery))
     = 2896.
Proof.
  split.
  - apply (SetCwnd_floor_outside_conservation tcb_example rs_one_segment
             bbr_example).
    + simpl. discriminate.
    + intros [H _]. simpl in H. discriminate H.
  - destruct (SetCwnd_floor_outside_conservation tcb_in_recovery rs_one_segment
                bbr_in_recovery) as [_ H].
    + simpl. discriminate.
    + destruct (H eq_refl eq_refl) as [Hw _]. rewrite Hw. reflexivity.
Defined.

(** C1 as stated fails: in RECOVERY with packet conservation, a sample that
    acknowledges one segment leaves the window at two segments, below the
    floor of four. *)
Lemma SetCwnd_recovery_below_floor :
  rs_ackedSacked rs_one_segment <> 0
  /\ tcb_congState tcb_in_recovery = CA_RECOVERY
  /\ tcb_cWnd (fst (SetCwnd tcb_in_recovery rs_one_segment bbr_in_recovery)) = 2896
  /\ m_minPipeCwnd (snd (SetCwnd tcb_in_recovery rs_one_segment bbr_in_recovery))
     = 4 * tcb_segmentSize tcb_in_recovery
  /\ ~ (m_minPipeCwnd (snd (SetCwnd tcb_in_recovery rs_one_segment bbr_in_recovery))
        <= tcb_cWnd (fst (SetCwnd tcb_in_recovery rs_one_segment bbr_in_recovery))).
Proof.
  repeat split; try (vm_compute; congruence).
Qed.

(** ** Invalid delivery samples (C8) *)

Section InvalidSamples.
Context {L : Ns3Lib}.

(** C8, as the code has it.  A sample with a negative delivered count or
    with an interval equal to zero leaves the whole object unchanged in
    [UpdateBottleneckBandwidth]: the bandwidth filter, the round count, the
    next-round-delivered threshold, the round-start flag and the packet
    conservation flag among the rest.  The guard is [IsZero]: a negative
    interval is not covered. *)
Theorem UpdateBottleneckBandwidth_ignores_invalid (rs : TcpRateSample)
  (b : TcpBbr) :
  rs_delivered rs < 0 \/ rs_interval rs = 0 ->
  UpdateBottleneckBandwidth rs b = b
  /\ m_maxBwFilter (UpdateBottleneckBandwidth rs b) = m_maxBwFilter b
  /\ m_roundCount (UpdateBottleneckBandwidth rs b) = m_roundCount b
  /\ m_nextRoundDelivered (UpdateBottleneckBandwidth rs b) = m_nextRoundDelivered b
  /\ m_roundStart (UpdateBottleneckBandwidth rs b) = m_roundStart b
  /\ m_packetConservation (UpdateBottleneckBandwidth rs b) = m_packetConservation b.
Proof.
  intros H.
  assert (E : UpdateBottleneckBandwidth rs b = b).
  { unfold UpdateBottleneckBandwidth, Time_IsZero.
    destruct H as [H | H].
    - apply Z.ltb_lt in H. rewrite H. reflexivity.
    - apply Z.eqb_eq in H. rewrite H, orb_true_r. reflexivity. }
  rewrite E. repeat split.
Qed.

End InvalidSamples.

(** A sample whose interval is zero, as the rate sampler produces before
    the first send time is known. *)
Definition rs_zero_interval : TcpRateSample :=
  {| rs_deliveryRate := 0; rs_isAppLimited := false; rs_interval := 0;
     rs_delivered := -1; rs_priorDelivered := 0; rs_bytesLoss := 0;
     rs_priorInFlight := 0; rs_ackedSacked := 1448 |}.

Lemma UpdateBottleneckBandwidth_ignores_invalid_witness :
  UpdateBottleneckBandwidth rs_zero_interval bbr_example = bbr_example.
Proof.
  apply (UpdateBottleneckBandwidth_ignores_invalid rs_zero_interval bbr_example).
  right. reflexivity.
Defined.

(** A sample whose interval is negative. *)
Definition rs_negative_interval : TcpRateSample :=
  {| rs_deliveryRate := 100000000; rs_isAppLimited := false;
     rs_interval := -1; rs_delivered := 1448; rs_priorDelivered := 0;
     rs_bytesLoss := 0; rs_priorInFlight := 1448; rs_ackedSacked := 1448 |}.

(** C8 as stated fails: a sample with a negative (hence non-positive)
    interval is processed; it starts a round and raises the round count. *)
Lemma UpdateBottleneckBandwidth_negative_interval_processed :
  rs_interval rs_negative_interval <= 0
  /\ m_roundCount bbr_example = 0
  /\ m_roundCount (UpdateBottleneckBandwidth rs_negative_interval bbr_example) = 1
  /\ m_roundStart bbr_example = false
  /\ m_roundStart (UpdateBottleneckBandwidth rs_negative_interval bbr_example) = true.
Proof.
  repeat split; vm_compute; congruence.
Qed.

(** ** The initial DCTCP alpha (C10) *)

Section DctcpAlpha.
Context {L : Ns3Lib}.

(** C10.  Once [Init] has run on the object, [InitializeDctcpAlpha] aborts;
    on an object on which [m_initialized] is still false it returns, and
    [m_alpha] is the value given. *)
Theorem InitializeDctcpAlpha_contract (tcb : TcpSocketState) (b : TcpBbr)
  (alpha : float) :
  InitializeDctcpAlpha alpha (snd (Init tcb b)) = None
  /\ (m_initialized b = false ->
      exists b', InitializeDctcpAlpha alpha b = Some b'
                 /\ m_alpha b' = alpha
                 /\ b' = set_m_alpha alpha b).
Proof.
  split.
  - reflexivity.
  - intros H. exists (set_m_alpha alpha b).
    unfold InitializeDctcpAlpha. rewrite H. repeat split.
Qed.

End DctcpAlpha.

Lemma InitializeDctcpAlpha_contract_witness :
  exists b', InitializeDctcpAlpha 0.5%float (fst (TcpBbr_new [])) = Some b'
             /\ m_alpha b' = 0.5%float
             /\ b' = set_m_alpha 0.5%float (fst (TcpBbr_new [])).
Proof.
  apply (InitializeDctcpAlpha_contract tcb_example (fst (TcpBbr_new [])) 0.5%float).
  reflexivity.
Defined.

(** ** The pacing-gain cycle of PROBE_BW (C3) *)

(** The gains a run of cycle advances produces, one per advance; [ts] are
    the times of the advances. *)
Fixpoint gains_of_advances {L : Ns3Lib} (ts : list Time) (b : TcpBbr)
  : list float :=
  match ts with
  | [] => []
  | t :: ts' =>
      let b' := AdvanceCyclePhase t b in
      m_pacingGain b' :: gains_of_advances ts' b'
  end.

(** A list read cyclically from position [k]. *)
Definition rotate {A : Type} (k : nat) (l : list A) : list A :=
  skipn k l ++ firstn k l.

Section GainCycle.
Context {L : Ns3Lib}.

Lemma u32_mod_8 (z : Z) : u32 z mod 8 = z mod 8.
Proof.
  unfold u32. symmetry.
  rewrite (Z.div_mod z (2 ^ 32)) at 1 by lia.
  replace (2 ^ 32 * (z / 2 ^ 32) + z mod 2 ^ 32)
    with (z mod 2 ^ 32 + (z / 2 ^ 32 * 536870912) * 8) by lia.
  apply Z.mod_add. lia.
Qed.

Lemma AdvanceCyclePhase_index (t : Time) (b : TcpBbr) :
  m_cycleIndex (AdvanceCyclePhase t b) = (m_cycleIndex b + 1) mod 8.
Proof.
  unfold AdvanceCyclePhase, GAIN_CYCLE_LENGTH. cbn [m_cycleIndex set_m_cycleStamp
    set_m_cycleIndex set_m_pacingGain]. apply u32_mod_8.
Qed.

Lemma AdvanceCyclePhase_gain (t : Time) (b : TcpBbr) :
  m_pacingGain (AdvanceCyclePhase t b)
  = nth (Z.to_nat ((m_cycleIndex b + 1) mod 8)) PACING_GAIN_CYCLE 0%float.
Proof.
  unfold AdvanceCyclePhase, GAIN_CYCLE_LENGTH. cbn [m_cycleIndex m_pacingGain
    set_m_cycleStamp set_m_cycleIndex set_m_pacingGain].
  rewrite u32_mod_8. reflexivity.
Qed.

Lemma gains_of_advances_nth (ts : list Time) :
  forall (b : TcpBbr),
    gains_of_advances ts b
    = map (fun j => nth (Z.to_nat ((m_cycleIndex b + 1 + Z.of_nat j) mod 8))
                      PACING_GAIN_CYCLE 0%float)
          (seq 0 (length ts)).
Proof.
  induction ts as [|t ts IH]; intros b; [reflexivity|].
  cbn [gains_of_advances length seq map]. f_equal.
  - rewrite AdvanceCyclePhase_gain. cbn [Z.of_nat].
    rewrite Z.add_0_r. reflexivity.
  - rewrite IH, <- seq_shift, map_map. apply map_ext. intros j.
    rewrite AdvanceCyclePhase_index.
    rewrite Nat2Z.inj_succ, <- Z.add_assoc, Zplus_mod_idemp_l.
    replace (m_cycleIndex b + 1 + (1 + Z.of_nat j))
      with (m_cycleIndex b + 1 + Z.succ (Z.of_nat j)) by lia.
    reflexivity.
Qed.

Lemma eight_advances (ts : list Time) (b : TcpBbr) :
  length ts = 8%nat ->
  gains_of_advances ts b
  = rotate (Z.to_nat ((m_cycleIndex b + 1) mod 8)) PACING_GAIN_CYCLE.
Proof.
  intros Hlen. rewrite gains_of_advances_nth, Hlen.
  assert (Hr : 0 <= (m_cycleIndex b + 1) mod 8 < 8) by (apply Z.mod_pos_bound; lia).
  assert (Hj : forall j, (m_cycleIndex b + 1 + Z.of_nat j) mod 8
                         = ((m_cycleIndex b + 1) mod 8 + Z.of_nat j) mod 8).
  { intros j. now rewrite Zplus_mod_idemp_l. }
  erewrite map_ext by (intros j; rewrite Hj; reflexivity).
  remember ((m_cycleIndex b + 1) mod 8) as r eqn:Er. clear Er Hj.
  assert (Hc : r = 0 \/ r = 1 \/ r = 2 \/ r = 3 \/ r = 4 \/ r = 5 \/ r = 6 \/ r = 7)
    by lia.
  destruct Hc as [->|[->|[->|[->|[->|[->|[->| ->]]]]]]]; reflexivity.
Qed.

(** C3.  The cycle is {1.25, 0.75, 1, 1, 1, 1, 1, 1}.  [EnterProbeBW] sets
    the index to [GAIN_CYCLE_LENGTH - 1 - r] for the draw [r] (the integer
    part of [GetValue(0, 6)]) and advances once; every advance moves the
    index by one modulo 8 and sets the pacing gain to the cycle value there;
    so any 8 consecutive advances produce the cycle read cyclically from the
    position after the current index. *)
Theorem ProbeBW_gain_cycle (now : Time) (h : UvStore) (b : TcpBbr) :
  let r := to_int (double_trunc
                     (fst (Urv_GetValue (uv_read h (m_uv b)) 0%float 6%float))) in
  let b0 := snd (EnterProbeBW now h b) in
  PACING_GAIN_CYCLE
  = [1.25%float; 0.75%float; 1%float; 1%float; 1%float; 1%float; 1%float; 1%float]
  /\ m_state b0 = BBR_PROBE_BW
  /\ m_cycleIndex b0 = (GAIN_CYCLE_LENGTH - 1 - r + 1) mod 8
  /\ m_pacingGain b0 = nth (Z.to_nat (m_cycleIndex b0)) PACING_GAIN_CYCLE 0%float
  /\ (forall (t : Time) (b1 : TcpBbr),
        m_cycleIndex (AdvanceCyclePhase t b1) = (m_cycleIndex b1 + 1) mod 8
        /\ m_pacingGain (AdvanceCyclePhase t b1)
           = nth (Z.to_nat (m_cycleIndex (AdvanceCyclePhase t b1)))
               PACING_GAIN_CYCLE 0%float)
  /\ (forall (ts : list Time) (b1 : TcpBbr),
        length ts = 8%nat ->
        gains_of_advances ts b1
        = rotate (Z.to_nat ((m_cycleIndex b1 + 1) mod 8)) PACING_GAIN_CYCLE).
Proof.
  intros r b0.
  assert (Hb0 : b0 = AdvanceCyclePhase now
                      (set_m_cycleIndex (u32 (GAIN_CYCLE_LENGTH - 1 - r))
                         (set_m_cWndGain 2%float
                            (set_m_pacingGain 1%float
                               (SetBbrState BBR_PROBE_BW b))))).
  { subst b0 r. unfold EnterProbeBW.
    cbn [m_uv SetBbrState set_m_state set_m_pacingGain set_m_cWndGain].
    destruct (Urv_GetValue (uv_read h (m_uv b)) 0%float 6%float) as [x rv].
    reflexivity. }
  assert (Hidx : m_cycleIndex b0 = (GAIN_CYCLE_LENGTH - 1 - r + 1) mod 8).
  { rewrite Hb0, AdvanceCyclePhase_index.
    cbn [m_cycleIndex set_m_cycleIndex].
    rewrite <- Zplus_mod_idemp_l, u32_mod_8, Zplus_mod_idemp_l. reflexivity. }
  split; [reflexivity|]. split; [rewrite Hb0; reflexivity|].
  split; [exact Hidx|]. split.
  - rewrite Hb0, AdvanceCyclePhase_gain, AdvanceCyclePhase_index. reflexivity.
  - split.
    + intros t b1. split; [apply AdvanceCyclePhase_index|].
      rewrite AdvanceCyclePhase_gain, AdvanceCyclePhase_index. reflexivity.
    + intros ts b1. apply eight_advances.
Qed.

End GainCycle.

(** The store of the fresh connection: one generator, on stream 4. *)
Definition uv_example : UvStore := snd (TcpBbr_new []).

Lemma ProbeBW_gain_cycle_witness :
  gains_of_advances [1; 2; 3; 4; 5; 6; 7; 8]
    (snd (EnterProbeBW 0 uv_example bbr_example))
  = [1%float; 1%float; 1%float; 1.25%float; 0.75%float; 1%float; 1%float; 1%float].
Proof.
  rewrite (proj2 (proj2 (proj2 (proj2 (proj2
             (ProbeBW_gain_cycle 0 uv_example bbr_example)))))
             [1; 2; 3; 4; 5; 6; 7; 8]
             (snd (EnterProbeBW 0 uv_example bbr_example)) eq_refl).
  reflexivity.
Defined.

(** ** The marking-fraction estimator (C5) *)

Section AlphaUpdate.
Context {L : Ns3Lib}.

(** C5.  When the last acked sequence reaches the boundary of the
    observation window (the stored [m_nextSeq], or the next-tx sequence when
    no boundary was stored yet), [PktsAcked] sets
    [alpha = (1 - g) * alpha + g * F], where [F = M * 1.0 / N] if [N > 0] and
    [0] otherwise, [N] and [M] being the accumulators with this batch added
    ([M] only grows while the ECN state is ECE_RCVD); it then clears both
    accumulators and moves the boundary to the next-tx sequence.  The traced
    callback receives [(M, N, alpha)]. *)
Theorem PktsAcked_alpha_update (tcb : TcpSocketState) (segmentsAcked : Z)
  (rtt : Time) (b : TcpBbr) :
  let boundary := if m_nextSeqFlag b then m_nextSeq b else tcb_nextTxSequence tcb in
  let bytes := u32 (segmentsAcked * tcb_segmentSize tcb) in
  let N := u32 (m_ackedBytesTotal b + bytes) in
  let M := if EcnState_eqb (tcb_ecnState tcb) ECN_ECE_RCVD
           then u32 (m_ackedBytesEcn b + bytes) else m_ackedBytesEcn b in
  let F := if 0 <? N then (double_of_Z M * 1.0 / double_of_Z N)%float
           else 0%float in
  let b' := fst (PktsAcked tcb segmentsAcked rtt b) in
  SequenceNumber32_geq (tcb_lastAckedSeq tcb) boundary = true ->
  m_alpha b' = ((1.0 - m_g b) * m_alpha b + m_g b * F)%float
  /\ m_ackedBytesEcn b' = 0
  /\ m_ackedBytesTotal b' = 0
  /\ m_nextSeq b' = tcb_nextTxSequence tcb
  /\ snd (PktsAcked tcb segmentsAcked rtt b) = Some (M, N, m_alpha b').
Proof.
  intros boundary bytes N M F b' Hgeq.
  subst b' F M N bytes boundary. unfold PktsAcked.
  destruct (EcnState_eqb (tcb_ecnState tcb) ECN_ECE_RCVD);
    destruct (EcnCodePoint_eqb (tcb_ectCodePoint tcb) Ect0);
    destruct (EcnCodePoint_eqb (tcb_ectCodePoint tcb) Ect1);
    destruct (m_nextSeqFlag b) eqn:Hflag; cbn in Hgeq |- *;
    rewrite ?Hflag; cbn; rewrite Hgeq; cbn; repeat split.
Qed.

End AlphaUpdate.

(** The control block after [Init], while an acknowledgment carrying the
    ECN echo is processed: the last acked sequence has reached the next-tx
    sequence recorded as the boundary. *)
Definition tcb_marked : TcpSocketState :=
  set_tcb_lastAckedSeq 1449
    (set_tcb_nextTxSequence 2897
       (set_tcb_ecnState ECN_ECE_RCVD (fst (Init tcb_example bbr_example)))).

Definition bbr_marked : TcpBbr :=
  set_m_nextSeqFlag true
    (set_m_nextSeq 1449 (snd (Init tcb_example bbr_example))).

Lemma PktsAcked_alpha_update_witness :
  m_alpha bbr_marked = 1%float
  /\ m_alpha (fst (PktsAcked tcb_marked 1 10000000 bbr_marked)) = 1%float
  /\ m_ackedBytesTotal (fst (PktsAcked tcb_marked 1 10000000 bbr_marked)) = 0
  /\ m_nextSeq (fst (PktsAcked tcb_marked 1 10000000 bbr_marked)) = 2897.
Proof.
  destruct (PktsAcked_alpha_update tcb_marked 1 10000000 bbr_marked eq_refl)
    as (Ha & _ & Ht & Hn & _).
  split; [reflexivity|]. split; [|split].
  - rewrite Ha. vm_compute. reflexivity.
  - exact Ht.
  - rewrite Hn. reflexivity.
Defined.

(** ** The nudge of the cwnd gain on marked acknowledgments (C6) *)

Section GainNudge.
Context {L : Ns3Lib}.

Lemma float_ltb_leb (x y : float) :
  PrimFloat.ltb x y = true -> PrimFloat.leb x y = true.
Proof.
  rewrite FloatAxioms.ltb_spec, FloatAxioms.leb_spec. unfold SFltb, SFleb.
  destruct (SFcompare (Prim2SF x) (Prim2SF y)) as [[]|]; congruence.
Qed.

Lemma std_min_d_cases (a x : float) :
  (std_min_d a x = x /\ PrimFloat.ltb x a = true)
  \/ (std_min_d a x = a /\ PrimFloat.ltb x a = false).
Proof. unfold std_min_d. destruct (PrimFloat.ltb x a); auto. Qed.

Lemma std_max_d_cases (a x : float) :
  (std_max_d a x = x /\ PrimFloat.ltb a x = true)
  \/ (std_max_d a x = a /\ PrimFloat.ltb a x = false).
Proof. unfold std_max_d. destruct (PrimFloat.ltb a x); auto. Qed.

Lemma PktsAcked_cWndGain (tcb : TcpSocketState) (segmentsAcked : Z) (rtt : Time)
  (b : TcpBbr) :
  m_cWndGain (fst (PktsAcked tcb segmentsAcked rtt b))
  = if EcnState_eqb (tcb_ecnState tcb) ECN_ECE_RCVD then
      match tcb_ectCodePoint tcb with
      | Ect0 => std_min_d 2.5 (m_cWndGain b + 0.1)%float
      | Ect1 => std_max_d 1.5 (m_cWndGain b - 0.1)%float
      | _ => m_cWndGain b
      end
    else m_cWndGain b.
Proof.
  unfold PktsAcked.
  destruct (EcnState_eqb (tcb_ecnState tcb) ECN_ECE_RCVD);
    destruct (tcb_ectCodePoint tcb); cbn;
    destruct (m_nextSeqFlag b); cbn;
    match goal with
    | |- context [SequenceNumber32_geq ?x ?y] =>
        destruct (SequenceNumber32_geq x y)
    end; reflexivity.
Qed.

(** C6, as the code has it.  While the ECN state is ECE_RCVD, a batch
    processed under ECT(0) sets the cwnd gain to [min(2.5, gain + 0.1)]: the
    step is +0.1 unless that passes 2.5, and the result is at most 2.5,
    with no lower bound.  Under ECT(1) the gain becomes
    [max(1.5, gain - 0.1)]: the step is -0.1 unless that falls below 1.5,
    and the result is at least 1.5, with no upper bound.  Under any other
    codepoint the gain is unchanged. *)
Theorem PktsAcked_gain_nudge (tcb : TcpSocketState) (segmentsAcked : Z)
  (rtt : Time) (b : TcpBbr) :
  tcb_ecnState tcb = ECN_ECE_RCVD ->
  let g := m_cWndGain b in
  let g' := m_cWndGain (fst (PktsAcked tcb segmentsAcked rtt b)) in
  (tcb_ectCodePoint tcb = Ect0 ->
   g' = std_min_d 2.5 (g + 0.1)%float
   /\ (g' = (g + 0.1)%float \/ g' = 2.5%float)
   /\ PrimFloat.leb g' 2.5 = true)
  /\ (tcb_ectCodePoint tcb = Ect1 ->
      g' = std_max_d 1.5 (g - 0.1)%float
      /\ (g' = (g - 0.1)%float \/ g' = 1.5%float)
      /\ PrimFloat.leb 1.5 g' = true)
  /\ (tcb_ectCodePoint tcb <> Ect0 -> tcb_ectCodePoint tcb <> Ect1 -> g' = g).
Proof.
  intros Hece g g'. subst g g'. rewrite PktsAcked_cWndGain, Hece. cbn.
  split; [|split].
  - intros ->. split; [reflexivity|].
    destruct (std_min_d_cases 2.5 (m_cWndGain b + 0.1)%float) as [[-> H]|[-> _]].
    + split; [left; reflexivity|apply float_ltb_leb, H].
    + split; [right; reflexivity|reflexivity].
  - intros ->. split; [reflexivity|].
    destruct (std_max_d_cases 1.5 (m_cWndGain b - 0.1)%float) as [[-> H]|[-> _]].
    + split; [left; reflexivity|apply float_ltb_leb, H].
    + split; [right; reflexivity|reflexivity].
  - intros H0 H1. destruct (tcb_ectCodePoint tcb); congruence.
Qed.

End GainNudge.

(** The object in PROBE_BW (cwnd gain 2). *)
Definition bbr_probe_bw : TcpBbr :=
  snd (EnterProbeBW 0 uv_example bbr_marked).

Lemma PktsAcked_gain_nudge_witness :
  m_cWndGain bbr_probe_bw = 2%float
  /\ m_cWndGain (fst (PktsAcked tcb_marked 1 10000000 bbr_probe_bw)) = 2.1%float.
Proof.
  split; [reflexivity|].
  destruct (PktsAcked_gain_nudge tcb_marked 1 10000000 bbr_probe_bw eq_refl)
    as [H _].
  destruct (H eq_refl) as [-> _]. vm_compute. reflexivity.
Defined.

(** C6 as stated fails.  In PROBE_RTT the cwnd gain is 1: a marked batch
    under ECT(0) moves it to 1.1, below 1.5.  In STARTUP the gain is 2.89:
    a marked batch under ECT(0) moves it to 2.5, a change of -0.39. *)
Lemma PktsAcked_gain_nudge_outside_interval :
  tcb_ecnState tcb_marked = ECN_ECE_RCVD
  /\ tcb_ectCodePoint tcb_marked = Ect0
  /\ m_cWndGain (EnterProbeRTT bbr_marked) = 1%float
  /\ m_cWndGain (fst (PktsAcked tcb_marked 1 10000000 (EnterProbeRTT bbr_marked)))
     = 1.1%float
  /\ PrimFloat.ltb
       (m_cWndGain (fst (PktsAcked tcb_marked 1 10000000 (EnterProbeRTT bbr_marked))))
       1.5 = true
  /\ m_cWndGain bbr_marked = 2.89%float
  /\ m_cWndGain (fst (PktsAcked tcb_marked 1 10000000 bbr_marked)) = 2.5%float.
Proof.
  repeat split; vm_compute; reflexivity.
Qed.

(** ** The in-flight target (C4) *)

Section InFlightTarget.
Context {L : Ns3Lib}.

(** The formula of the specification for a known min-RTT, evaluated in
    [double]: [g * bdp + quanta], plus two segments in PROBE_BW at cycle
    index 0, with [quanta = 3 * sendQuantum] and
    [bdp = bestBandwidth * minRtt / 8]. *)
Definition InFlight_formula (tcb : TcpSocketState) (g : float) (b : TcpBbr)
  : float :=
  let quanta := double_of_Z (u32 (3 * m_sendQuantum b)) in
  let bdp :=
    (DataRate_mul_Time (Filter_GetBest (m_maxBwFilter b)) (m_minRtt b) / 8)%float in
  match m_state b with
  | BBR_PROBE_BW =>
      if m_cycleIndex b =? 0
      then (g * bdp + quanta + double_of_Z (u32 (2 * tcb_segmentSize tcb)))%float
      else (g * bdp + quanta)%float
  | _ => (g * bdp + quanta)%float
  end.

(** C4, as the code has it.  With the min-RTT unknown the target is the
    initial window in bytes (the 32-bit product).  Otherwise it is the value
    of the formula converted to the 32-bit unsigned result type, that is,
    truncated toward zero: a whole number of bytes, at most the formula's
    value. *)
Theorem InFlight_is_truncated_formula (tcb : TcpSocketState) (g : float)
  (b : TcpBbr) :
  (m_minRtt b = Time_Max ->
   InFlight tcb g b = u32 (tcb_initialCWnd tcb * tcb_segmentSize tcb))
  /\ (m_minRtt b <> Time_Max ->
      InFlight tcb g b = double_to_u32 (InFlight_formula tcb g b)).
Proof.
  unfold InFlight, InFlight_formula. split; intros H.
  - apply Z.eqb_eq in H. rewrite H. reflexivity.
  - apply Z.eqb_neq in H. rewrite H.
    destruct (m_state b); cbn [BbrMode_eqb andb]; try reflexivity.
    destruct (m_cycleIndex b =? 0); reflexivity.
Qed.

End InFlightTarget.

(** The object with a best bandwidth of 8008 bit/s and a min-RTT of one
    second (a bandwidth-delay product of 1001 bytes) and a send quantum of
    1000 bytes, in STARTUP. *)
Definition bbr_bdp_1001 : TcpBbr :=
  set_m_sendQuantum 1000
    (set_m_minRtt (Seconds 1) (set_m_maxBwFilter 8008 bbr_example)).

Lemma InFlight_is_truncated_formula_witness :
  InFlight tcb_example 1.25%float bbr_example = 14480
  /\ InFlight tcb_example 1.25%float bbr_bdp_1001 = 4251.
Proof.
  split.
  - rewrite (proj1 (InFlight_is_truncated_formula tcb_example 1.25%float
                      bbr_example) eq_refl).
    reflexivity.
  - rewrite (proj2 (InFlight_is_truncated_formula tcb_example 1.25%float
                      bbr_bdp_1001)).
    + vm_compute. reflexivity.
    + vm_compute. discriminate.
Defined.

(** C4 as stated fails: at gain 1.25 the formula gives
    [1.25 * 1001 + 3000 = 4251.25], and [InFlight] returns 4251. *)
Lemma InFlight_differs_from_formula :
  m_minRtt bbr_bdp_1001 <> Time_Max
  /\ InFlight_formula tcb_example 1.25%float bbr_bdp_1001 = 4251.25%float
  /\ InFlight tcb_example 1.25%float bbr_bdp_1001 = 4251
  /\ PrimFloat.ltb (double_of_Z (InFlight tcb_example 1.25%float bbr_bdp_1001))
       (InFlight_formula tcb_example 1.25%float bbr_bdp_1001) = true.
Proof.
  repeat split; vm_compute; try reflexivity; discriminate.
Qed.

(** ** The ack-aggregation window (C7) *)

Section AckAggregation.
Context {L : Ns3Lib}.

(** The guard of [UpdateAckAggregation]: the sample is processed. *)
Definition aggregation_processed (rs : TcpRateSample) (b : TcpBbr) : bool :=
  negb ((m_extraAckedGain b =? 0) || (rs_ackedSacked rs <=? 0)
        || (rs_delivered rs <? 0)).

(** The local [extraAck] of [UpdateAckAggregation] after the clamp by the
    congestion window. *)
Definition aggregation_extraAck (tcb : TcpSocketState) (rs : TcpRateSample)
  (now : Time) (b : TcpBbr) : Z :=
  let epochProp :=
    double_to_u32
      (Time_GetSeconds now - Time_GetSeconds (m_ackEpochTime b))%float in
  let expectedAcked :=
    u32 (u64 (GetBitRate (Filter_GetBest (m_maxBwFilter b)) * epochProp) / 8) in
  let restart :=
    (m_ackEpochAcked b <=? expectedAcked)
    || (m_ackEpochAckedResetThresh b
        <=? u32 (m_ackEpochAcked b + rs_ackedSacked rs)) in
  let acked :=
    u32 ((if restart then 0 else m_ackEpochAcked b) + rs_ackedSacked rs) in
  std_min (u32 (acked - (if restart then 0 else expectedAcked))) (tcb_cWnd tcb).

(** The age of the window after a processed round-start sample, before the
    comparison with the window length. *)
Definition aggregation_age (b : TcpBbr) : Z :=
  std_min 31 (u32 (m_extraAckedWinRtt b + 1)).

Definition aggregation_flips (rs : TcpRateSample) (b : TcpBbr) : bool :=
  aggregation_processed rs b && m_roundStart b
  && (m_extraAckedWinRttLength b <=? aggregation_age b).

Definition other_slot (i : Z) : Z := if i =? 0 then 1 else 0.

Lemma UpdateAckAggregation_unprocessed (tcb : TcpSocketState)
  (rs : TcpRateSample) (now : Time) (b : TcpBbr) :
  aggregation_processed rs b = false -> UpdateAckAggregation tcb rs now b = b.
Proof.
  unfold aggregation_processed, UpdateAckAggregation. intros H.
  apply negb_false_iff in H. rewrite H. reflexivity.
Qed.

Lemma UpdateAckAggregation_window (tcb : TcpSocketState) (rs : TcpRateSample)
  (now : Time) (b : TcpBbr) :
  let b' := UpdateAckAggregation tcb rs now b in
  m_extraAckedWinRtt b'
  = (if aggregation_flips rs b then 0
     else if aggregation_processed rs b && m_roundStart b then aggregation_age b
          else m_extraAckedWinRtt b)
  /\ m_extraAckedIdx b'
     = (if aggregation_flips rs b then other_slot (m_extraAckedIdx b)
        else m_extraAckedIdx b).
Proof.
  cbv zeta. unfold aggregation_flips.
  destruct (aggregation_processed rs b) eqn:Hp.
  2:{ rewrite UpdateAckAggregation_unprocessed by exact Hp. split; reflexivity. }
  unfold aggregation_processed in Hp. apply negb_true_iff in Hp.
  unfold UpdateAckAggregation, aggregation_age, other_slot. rewrite Hp.
  destruct b; record_norm.
  destruct m_roundStart0; cbn [andb negb];
    [destruct (m_extraAckedWinRttLength0
               <=? std_min 31 (u32 (m_extraAckedWinRtt0 + 1)));
     [destruct (m_extraAckedIdx0 =? 0)|]|];
    cbn [negb]; split_ifs; split; reflexivity.
Qed.

Lemma UpdateAckAggregation_slots (tcb : TcpSocketState) (rs : TcpRateSample)
  (now : Time) (b : TcpBbr) :
  aggregation_processed rs b = true ->
  let b' := UpdateAckAggregation tcb rs now b in
  let e := aggregation_extraAck tcb rs now b in
  let i' := m_extraAckedIdx b' in
  slot_get i' (m_extraAcked b')
  = std_max (if aggregation_flips rs b then 0 else slot_get i' (m_extraAcked b)) e
  /\ slot_get (other_slot i') (m_extraAcked b')
     = slot_get (other_slot i') (m_extraAcked b).
Proof.
  intros Hp. cbv zeta. unfold aggregation_flips. rewrite Hp.
  unfold aggregation_processed in Hp. apply negb_true_iff in Hp.
  unfold UpdateAckAggregation, aggregation_extraAck, aggregation_age.
  rewrite Hp. unfold std_max, other_slot, slot_get, slot_set.
  destruct b; record_norm. destruct m_extraAcked0 as [e0 e1]. record_norm.
  destruct m_roundStart0; cbn [andb negb];
    [destruct (m_extraAckedWinRttLength0
               <=? std_min 31 (u32 (m_extraAckedWinRtt0 + 1)))|];
    destruct (m_extraAckedIdx0 =? 0) eqn:Hi; cbn [negb];
    split_ifs; split; congruence.
Qed.

Lemma aggregation_extraAck_le_cWnd (tcb : TcpSocketState) (rs : TcpRateSample)
  (now : Time) (b : TcpBbr) :
  aggregation_extraAck tcb rs now b <= tcb_cWnd tcb.
Proof. unfold aggregation_extraAck. cbv zeta. apply std_min_le_r. Qed.

Lemma aggregation_age_le_31 (b : TcpBbr) : aggregation_age b <= 31.
Proof. unfold aggregation_age. apply std_min_le_l. Qed.

Lemma aggregation_age_small (b : TcpBbr) :
  0 <= m_extraAckedWinRtt b < 31 ->
  aggregation_age b = m_extraAckedWinRtt b + 1.
Proof.
  intros H. unfold aggregation_age, std_min.
  rewrite u32_small by lia.
  destruct (m_extraAckedWinRtt b + 1 <? 31) eqn:E; [reflexivity|].
  apply Z.ltb_ge in E. lia.
Qed.

Lemma std_max_lub (a b c : Z) : a <= c -> b <= c -> std_max a b <= c.
Proof. unfold std_max. destruct (a <? b); lia. Qed.

Lemma UpdateAckAggregation_slots_le_cWnd (tcb : TcpSocketState)
  (rs : TcpRateSample) (now : Time) (b : TcpBbr) :
  0 <= tcb_cWnd tcb ->
  fst (m_extraAcked b) <= tcb_cWnd tcb ->
  snd (m_extraAcked b) <= tcb_cWnd tcb ->
  fst (m_extraAcked (UpdateAckAggregation tcb rs now b)) <= tcb_cWnd tcb
  /\ snd (m_extraAcked (UpdateAckAggregation tcb rs now b)) <= tcb_cWnd tcb.
Proof.
  intros H0 Hf Hs.
  destruct (aggregation_processed rs b) eqn:Hp.
  2:{ rewrite UpdateAckAggregation_unprocessed by exact Hp. split; assumption. }
  destruct (UpdateAckAggregation_slots tcb rs now b Hp) as [Ha Ho].
  cbv zeta in Ha, Ho.
  pose proof (aggregation_extraAck_le_cWnd tcb rs now b) as He.
  assert (Hact : slot_get (m_extraAckedIdx (UpdateAckAggregation tcb rs now b))
                   (m_extraAcked (UpdateAckAggregation tcb rs now b))
                 <= tcb_cWnd tcb).
  { rewrite Ha. apply std_max_lub; [|exact He].
    destruct (aggregation_flips rs b); [exact H0|].
    unfold slot_get. destruct (_ =? 0); assumption. }
  assert (Hoth : slot_get (other_slot (m_extraAckedIdx (UpdateAckAggregation tcb rs now b)))
                   (m_extraAcked (UpdateAckAggregation tcb rs now b))
                 <= tcb_cWnd tcb).
  { rewrite Ho. unfold slot_get. destruct (_ =? 0); assumption. }
  unfold slot_get, other_slot in Hact, Hoth.
  destruct (m_extraAckedIdx (UpdateAckAggregation tcb rs now b) =? 0);
    cbn [Z.eqb] in Hoth; split; assumption.
Qed.

(** C7, as the code has it.  (a) [UpdateAckAggregation] keeps both slots at
    or below the congestion window of the call, if they were (what it stores
    is clamped by that window; nothing lowers a slot when the window shrinks
    later).  (b) Only a processed sample seen while the round-start flag is
    set ages the window; the slot index flips, and the age returns to 0,
    exactly when the age capped at 31 reaches the window length.  (c) On a
    flip the newly active slot is zeroed before the extra-ack estimate of
    the sample is stored in it.  (d) For a window length from 1 to 31 the
    age counts modulo the length, so the flip comes with every
    length-th such sample; for a length above 31 there is never a flip. *)
Theorem UpdateAckAggregation_window_flip (tcb : TcpSocketState)
  (rs : TcpRateSample) (now : Time) (b : TcpBbr) :
  let b' := UpdateAckAggregation tcb rs now b in
  let len := m_extraAckedWinRttLength b in
  let aged := aggregation_processed rs b && m_roundStart b in
  (0 <= tcb_cWnd tcb ->
   fst (m_extraAcked b) <= tcb_cWnd tcb ->
   snd (m_extraAcked b) <= tcb_cWnd tcb ->
   fst (m_extraAcked b') <= tcb_cWnd tcb /\ snd (m_extraAcked b') <= tcb_cWnd tcb)
  /\ m_extraAckedIdx b'
     = (if aggregation_flips rs b then other_slot (m_extraAckedIdx b)
        else m_extraAckedIdx b)
  /\ m_extraAckedWinRtt b'
     = (if aggregation_flips rs b then 0
        else if aged then aggregation_age b else m_extraAckedWinRtt b)
  /\ (aggregation_flips rs b = true ->
      slot_get (m_extraAckedIdx b') (m_extraAcked b')
      = std_max 0 (aggregation_extraAck tcb rs now b)
      /\ slot_get (m_extraAckedIdx b) (m_extraAcked b')
         = slot_get (m_extraAckedIdx b) (m_extraAcked b))
  /\ (1 <= len <= 31 -> 0 <= m_extraAckedWinRtt b < len -> aged = true ->
      m_extraAckedWinRtt b' = (m_extraAckedWinRtt b + 1) mod len
      /\ (aggregation_flips rs b = true <-> m_extraAckedWinRtt b' = 0))
  /\ (31 < len -> aggregation_flips rs b = false).
Proof.
  cbv zeta.
  destruct (UpdateAckAggregation_window tcb rs now b) as [Hage Hidx].
  cbv zeta in Hage, Hidx.
  split; [apply UpdateAckAggregation_slots_le_cWnd|].
  split; [exact Hidx|]. split; [exact Hage|]. split; [|split].
  - intros Hf.
    assert (Hp : aggregation_processed rs b = true).
    { unfold aggregation_flips in Hf.
      destruct (aggregation_processed rs b); [reflexivity|discriminate]. }
    destruct (UpdateAckAggregation_slots tcb rs now b Hp) as [Ha Ho].
    cbv zeta in Ha, Ho. rewrite Hf in Ha. split; [exact Ha|].
    rewrite Hidx, Hf in Ho. unfold other_slot in Ho. unfold slot_get in *.
    destruct (m_extraAckedIdx b =? 0); cbn [Z.eqb] in Ho; exact Ho.
  - intros Hlen Hrange Haged. rewrite Hage. unfold aggregation_flips.
    rewrite Haged. cbn [andb].
    rewrite aggregation_age_small by lia.
    destruct (m_extraAckedWinRttLength b <=? m_extraAckedWinRtt b + 1) eqn:E.
    + apply Z.leb_le in E.
      replace (m_extraAckedWinRtt b + 1) with (m_extraAckedWinRttLength b) by lia.
      rewrite Z.mod_same by lia. split; [reflexivity|]. split; reflexivity.
    + apply Z.leb_gt in E. rewrite Z.mod_small by lia.
      split; [reflexivity|]. split; [discriminate|lia].
  - intros Hlen. unfold aggregation_flips.
    pose proof (aggregation_age_le_31 b) as H31.
    destruct (m_extraAckedWinRttLength b <=? aggregation_age b) eqn:E.
    + apply Z.leb_le in E. lia.
    + apply andb_false_r.
Qed.

End AckAggregation.

(** A sample acknowledging 10000 bytes at once. *)
Definition rs_big_ack : TcpRateSample :=
  {| rs_deliveryRate := 100000000; rs_isAppLimited := false;
     rs_interval := 10000000; rs_delivered := 10000; rs_priorDelivered := 0;
     rs_bytesLoss := 0; rs_priorInFlight := 14480; rs_ackedSacked := 10000 |}.

(** One acknowledgment that starts a round: the round bookkeeping of
    [UpdateBottleneckBandwidth], then [UpdateAckAggregation], as
    [UpdateModelAndState] runs them. *)
Definition round_start_ack (b : TcpBbr) : TcpBbr :=
  UpdateAckAggregation tcb_example rs_one_segment 0
    (UpdateBottleneckBandwidth rs_one_segment b).

Lemma UpdateAckAggregation_window_flip_witness :
  m_extraAckedWinRtt (round_start_ack bbr_example) = 1
  /\ aggregation_flips rs_one_segment
       (UpdateBottleneckBandwidth rs_one_segment bbr_example) = false
  /\ fst (m_extraAcked (round_start_ack bbr_example)) <= 14480.
Proof.
  pose proof (UpdateAckAggregation_window_flip tcb_example rs_one_segment 0
                (UpdateBottleneckBandwidth rs_one_segment bbr_example)) as H.
  cbv zeta in H. destruct H as (Hslots & _ & _ & _ & Hperiod & _).
  destruct Hperiod as [Hage Hflip].
  - vm_compute. split; discriminate.
  - vm_compute. split; [discriminate|reflexivity].
  - reflexivity.
  - split; [exact Hage|]. split.
    + destruct (aggregation_flips rs_one_segment
                  (UpdateBottleneckBandwidth rs_one_segment bbr_example)) eqn:E;
        [|reflexivity].
      destruct Hflip as [Hf _]. specialize (Hf eq_refl).
      rewrite Hage in Hf. vm_compute in Hf. discriminate Hf.
    + apply Hslots; vm_compute; discriminate.
Defined.

(** C7 as stated fails, in both halves.  A slot filled with 10000 bytes
    under a window of 14480 bytes stays at 10000 when the entry into
    RECOVERY cuts the window to 2896 bytes, and through the [SetCwnd] that
    follows.  With a window length of 32, 64 acknowledgments that each start
    a round leave the slot index where it was: the age stops at 31. *)
Lemma extraAcked_above_cWnd_and_no_flip :
  fst (m_extraAcked (UpdateAckAggregation tcb_example rs_big_ack 0 bbr_example))
  = 10000
  /\ tcb_cWnd tcb_example = 14480
  /\ (let '(tcb, b) :=
        CongestionStateSet (set_tcb_bytesInFlight 1448 tcb_example) CA_RECOVERY 0
          (UpdateAckAggregation tcb_example rs_big_ack 0 bbr_example) in
      tcb_cWnd tcb = 2896 /\ fst (m_extraAcked b) = 10000
      /\ (let '(tcb', b') :=
            SetCwnd (set_tcb_congState CA_RECOVERY tcb) rs_one_segment b in
          tcb_cWnd tcb' = 2896 /\ fst (m_extraAcked b') = 10000))
  /\ (let b := Nat.iter 64 round_start_ack
                 (set_m_extraAckedWinRttLength 32 bbr_example) in
      m_roundCount b = 64 /\ m_extraAckedWinRtt b = 31
      /\ m_extraAckedIdx b = m_extraAckedIdx bbr_example).
Proof.
  repeat split; vm_compute; reflexivity.
Qed.

(** ** Forking (C9) *)

(** The calls the socket makes on the object. *)
Inductive Call : Type :=
| Call_Init
| Call_CongestionStateSet (newState : TcpCongState_t)
| Call_CwndEvent (event : TcpCAEvent_t)
| Call_CongControl (rc : TcpRateConnection) (rs : TcpRateSample)
| Call_PktsAcked (segmentsAcked : Z) (rtt : Time)
| Call_GetSsThresh (bytesInFlight : Z)
| Call_SetStream (stream : Z).

(** One call, with the control block and the time the socket passes. *)
Record Step : Type := {
  step_call : Call;
  step_tcb : TcpSocketState;
  step_now : Time
}.

Section Forking.
Context {L : Ns3Lib}.

(** The members the copy constructor takes from the parent [p]. *)
Definition copied_members (c p : TcpBbr) : Prop :=
  m_bandwidthWindowLength c = m_bandwidthWindowLength p
  /\ m_pacingGain c = m_pacingGain p
  /\ m_cWndGain c = m_cWndGain p
  /\ m_highGain c = m_highGain p
  /\ m_isPipeFilled c = m_isPipeFilled p
  /\ m_minPipeCwnd c = m_minPipeCwnd p
  /\ m_roundCount c = m_roundCount p
  /\ m_roundStart c = m_roundStart p
  /\ m_nextRoundDelivered c = m_nextRoundDelivered p
  /\ m_probeRttDuration c = m_probeRttDuration p
  /\ m_probeRtPropStamp c = m_probeRtPropStamp p
  /\ m_probeRttDoneStamp c = m_probeRttDoneStamp p
  /\ m_probeRttRoundDone c = m_probeRttRoundDone p
  /\ m_packetConservation c = m_packetConservation p
  /\ m_priorCwnd c = m_priorCwnd p
  /\ m_idleRestart c = m_idleRestart p
  /\ m_targetCWnd c = m_targetCWnd p
  /\ m_fullBandwidth c = m_fullBandwidth p
  /\ m_fullBandwidthCount c = m_fullBandwidthCount p
  /\ m_sendQuantum c = m_sendQuantum p
  /\ m_cycleStamp c = m_cycleStamp p
  /\ m_cycleIndex c = m_cycleIndex p
  /\ m_minRttExpired c = m_minRttExpired p
  /\ m_minRttFilterLen c = m_minRttFilterLen p
  /\ m_minRttStamp c = m_minRttStamp p
  /\ m_isInitialized c = m_isInitialized p
  /\ m_uv c = m_uv p
  /\ m_delivered c = m_delivered p
  /\ m_appLimited c = m_appLimited p
  /\ m_extraAckedGain c = m_extraAckedGain p
  /\ m_extraAckedWinRtt c = m_extraAckedWinRtt p
  /\ m_extraAckedWinRttLength c = m_extraAckedWinRttLength p
  /\ m_ackEpochAckedResetThresh c = m_ackEpochAckedResetThresh p
  /\ m_extraAckedIdx c = m_extraAckedIdx p
  /\ m_ackEpochTime c = m_ackEpochTime p
  /\ m_ackEpochAcked c = m_ackEpochAcked p
  /\ m_hasSeenRtt c = m_hasSeenRtt p
  /\ m_ackedBytesEcn c = m_ackedBytesEcn p
  /\ m_ackedBytesTotal c = m_ackedBytesTotal p
  /\ m_priorRcvNxt c = m_priorRcvNxt p
  /\ m_priorRcvNxtFlag c = m_priorRcvNxtFlag p
  /\ m_alpha c = m_alpha p
  /\ m_nextSeq c = m_nextSeq p
  /\ m_nextSeqFlag c = m_nextSeqFlag p
  /\ m_ceState c = m_ceState p
  /\ m_delayedAckReserved c = m_delayedAckReserved p
  /\ m_g c = m_g p
  /\ m_useEct0 c = m_useEct0 p
  /\ m_initialized c = m_initialized p
  /\ m_suppressIncreaseIfCwndLimited c = m_suppressIncreaseIfCwndLimited p.

(** The objects of a simulation.  A [TcpBbr] object holds its value members
    itself and is known by its address; [m_uv] is an address into the store
    of random variables. *)
Record Objects : Type := {
  bbr_objects : list TcpBbr;
  uv_objects : UvStore
}.

Definition bbr_read (w : Objects) (p : nat) : option TcpBbr :=
  nth_error (bbr_objects w) p.

Fixpoint bbr_write (p : nat) (v : TcpBbr) (l : list TcpBbr) : list TcpBbr :=
  match p, l with
  | _, [] => []
  | O, _ :: t => v :: t
  | S q, x :: t => x :: bbr_write q v t
  end.

(** [Fork] on the object at [p]: [CopyObject<TcpBbr>(this)] builds the copy
    at a fresh address and returns that address.  No object lives at an
    address that was never allocated: the result is then [None]. *)
Definition Fork_at (p : nat) (w : Objects) : option (nat * Objects) :=
  match bbr_read w p with
  | Some b =>
      Some (length (bbr_objects w),
            {| bbr_objects := bbr_objects w ++ [Fork b];
               uv_objects := uv_objects w |})
  | None => None
  end.

(** A member function called on an object: the store and the object after
    the call. *)
Definition member_call (s : Step) (h : UvStore) (b : TcpBbr) : UvStore * TcpBbr :=
  match step_call s with
  | Call_Init => (h, snd (Init (step_tcb s) b))
  | Call_CongestionStateSet newState =>
      (h, snd (CongestionStateSet (step_tcb s) newState (step_now s) b))
  | Call_CwndEvent event =>
      let '(h, _, b) := CwndEvent (step_tcb s) event (step_now s) h b in (h, b)
  | Call_CongControl rc rs =>
      let '(h, _, b) := CongControl (step_tcb s) rc rs (step_now s) h b in (h, b)
  | Call_PktsAcked segmentsAcked rtt =>
      (h, fst (PktsAcked (step_tcb s) segmentsAcked rtt b))
  | Call_GetSsThresh bytesInFlight =>
      (h, snd (GetSsThresh (step_tcb s) bytesInFlight b))
  | Call_SetStream stream => (SetStream stream h b, b)
  end.

(** The call on the object at address [p]. *)
Definition call_at (p : nat) (s : Step) (w : Objects) : option Objects :=
  match bbr_read w p with
  | Some b =>
      let '(h, b') := member_call s (uv_objects w) b in
      Some {| bbr_objects := bbr_write p b' (bbr_objects w); uv_objects := h |}
  | None => None
  end.

Fixpoint calls_at (p : nat) (ss : list Step) (w : Objects) : option Objects :=
  match ss with
  | [] => Some w
  | s :: ss' =>
      match call_at p s w with
      | Some w' => calls_at p ss' w'
      | None => None
      end
  end.

Lemma bbr_write_other (p q : nat) (v : TcpBbr) (l : list TcpBbr) :
  p <> q -> nth_error (bbr_write q v l) p = nth_error l p.
Proof.
  revert p q. induction l as [|x t IH]; intros p q Hpq; [destruct q; reflexivity|].
  destruct q as [|q]; destruct p as [|p]; cbn [bbr_write nth_error];
    try reflexivity; try congruence.
  apply IH. congruence.
Qed.

Lemma bbr_write_same (q : nat) (v b : TcpBbr) (l : list TcpBbr) :
  nth_error l q = Some b -> nth_error (bbr_write q v l) q = Some v.
Proof.
  revert q. induction l as [|x t IH]; intros q Hq; [destruct q; discriminate|].
  destruct q as [|q]; cbn [bbr_write nth_error] in *; [reflexivity|].
  apply IH. exact Hq.
Qed.

(** A call at [q] returns when an object lives there; the object at [q] is
    then still there, and every other object is as it was. *)
Lemma call_at_frame (p q : nat) (s : Step) (w : Objects) (b : TcpBbr) :
  bbr_read w q = Some b ->
  exists w', call_at q s w = Some w'
             /\ bbr_read w' q = Some (snd (member_call s (uv_objects w) b))
             /\ uv_objects w' = fst (member_call s (uv_objects w) b)
             /\ (p <> q -> bbr_read w' p = bbr_read w p).
Proof.
  intros Hq. unfold call_at. rewrite Hq.
  destruct (member_call s (uv_objects w) b) as [h b'] eqn:E.
  eexists. split; [reflexivity|]. unfold bbr_read in *. cbn [bbr_objects uv_objects fst snd].
  split; [eapply bbr_write_same; exact Hq|]. split; [reflexivity|].
  intros Hpq. apply bbr_write_other. exact Hpq.
Qed.

Lemma calls_at_frame (p q : nat) (ss : list Step) :
  p <> q ->
  forall (w : Objects) (b : TcpBbr),
    bbr_read w q = Some b ->
    exists w', calls_at q ss w = Some w' /\ bbr_read w' p = bbr_read w p.
Proof.
  intros Hpq. induction ss as [|s ss IH]; intros w b Hq; cbn [calls_at].
  - exists w. split; reflexivity.
  - destruct (call_at_frame p q s w b Hq) as (w1 & Hc & Hq1 & _ & Hp1).
    rewrite Hc. destruct (IH w1 _ Hq1) as (w2 & Hc2 & Hp2).
    exists w2. split; [exact Hc2|]. rewrite Hp2. apply Hp1. exact Hpq.
Qed.

Lemma uv_write_read (p : nat) (v : UniformRandomVariable) (h : UvStore) :
  (p < length h)%nat -> uv_read (uv_write p v h) p = v.
Proof.
  unfold uv_read. revert p. induction h as [|x t IH]; intros p Hp; [cbn in Hp; lia|].
  destruct p as [|p]; cbn [uv_write nth]; [reflexivity|].
  apply IH. cbn [length] in Hp. lia.
Qed.

(** C9, as the code has it.  [Fork] on the object at address [p] returns a
    new object at a fresh address.  Each member the copy constructor
    initialises from the parent equals the parent's at fork time; the
    min-RTT estimate is not copied: it is [Time::Max()].  These members are
    held in each object: whatever is called on the child afterwards leaves
    the parent as it was, and the other way round.  The random variable is
    copied as a pointer: parent and child hold the same address, so a reseed
    through the child reseeds the generator the parent draws from, and a
    draw through either takes the same value from it and advances it
    for both. *)
Theorem Fork_copies_initializer_list (w : Objects) (p : nat) (b : TcpBbr) :
  bbr_read w p = Some b ->
  let q := length (bbr_objects w) in
  let w1 := {| bbr_objects := bbr_objects w ++ [Fork b];
               uv_objects := uv_objects w |} in
  Fork_at p w = Some (q, w1)
  /\ q <> p
  /\ bbr_read w1 q = Some (Fork b)
  /\ bbr_read w1 p = Some b
  /\ copied_members (Fork b) b
  /\ m_minRtt (Fork b) = Time_Max
  /\ m_uv (Fork b) = m_uv b
  /\ (forall ss : list Step,
        exists w2, calls_at q ss w1 = Some w2 /\ bbr_read w2 p = Some b)
  /\ (forall ss : list Step,
        exists w2, calls_at p ss w1 = Some w2 /\ bbr_read w2 q = Some (Fork b))
  /\ (forall (stream : Z) (tcb : TcpSocketState) (now : Time),
        (m_uv b < length (uv_objects w))%nat ->
        exists w2,
          call_at q {| step_call := Call_SetStream stream; step_tcb := tcb;
                       step_now := now |} w1 = Some w2
          /\ uv_read (uv_objects w2) (m_uv b)
             = Urv_SetStream (uv_read (uv_objects w) (m_uv b)) stream)
  /\ (forall (now : Time) (h : UvStore),
        fst (EnterProbeBW now h (Fork b)) = fst (EnterProbeBW now h b)).
Proof.
  intros Hp. cbv zeta.
  assert (Hlt : (p < length (bbr_objects w))%nat).
  { apply nth_error_Some. unfold bbr_read in Hp. congruence. }
  assert (Hq1 : bbr_read {| bbr_objects := bbr_objects w ++ [Fork b];
                            uv_objects := uv_objects w |}
                  (length (bbr_objects w)) = Some (Fork b)).
  { unfold bbr_read. cbn [bbr_objects].
    rewrite nth_error_app2 by lia. rewrite Nat.sub_diag. reflexivity. }
  assert (Hp1 : bbr_read {| bbr_objects := bbr_objects w ++ [Fork b];
                            uv_objects := uv_objects w |} p = Some b).
  { unfold bbr_read in *. cbn [bbr_objects].
    rewrite nth_error_app1 by exact Hlt. exact Hp. }
  split; [unfold Fork_at; rewrite Hp; reflexivity|].
  split; [lia|]. split; [exact Hq1|]. split; [exact Hp1|].
  split; [unfold copied_members; repeat split|].
  split; [reflexivity|]. split; [reflexivity|]. split; [|split; [|split]].
  - intros ss.
    destruct (calls_at_frame p (length (bbr_objects w)) ss ltac:(lia) _ _ Hq1)
      as (w2 & Hc & Hf).
    exists w2. split; [exact Hc|]. rewrite Hf. exact Hp1.
  - intros ss.
    destruct (calls_at_frame (length (bbr_objects w)) p ss ltac:(lia) _ _ Hp1)
      as (w2 & Hc & Hf).
    exists w2. split; [exact Hc|]. rewrite Hf. exact Hq1.
  - intros stream tcb now Hs.
    destruct (call_at_frame p (length (bbr_objects w))
                {| step_call := Call_SetStream stream; step_tcb := tcb;
                   step_now := now |} _ _ Hq1) as (w2 & Hc & _ & Hu & _).
    exists w2. split; [exact Hc|]. rewrite Hu.
    cbn [member_call step_call fst uv_objects]. unfold SetStream.
    cbn [m_uv Fork TcpBbr_copy]. apply uv_write_read. exact Hs.
  - intros now h. unfold EnterProbeBW. cbn [m_uv Fork TcpBbr_copy SetBbrState
      set_m_state set_m_pacingGain set_m_cWndGain].
    destruct (Urv_GetValue (uv_read h (m_uv b)) 0%float 6%float) as [x rv].
    reflexivity.
Qed.

End Forking.

(** A simulation with one object: the connection of [bbr_bdp_1001], whose
    min-RTT is one second, and its generator. *)
Definition one_socket : Objects :=
  {| bbr_objects := [bbr_bdp_1001]; uv_objects := uv_example |}.

(** The first acknowledgment of the child: one segment, ten milliseconds
    after the fork. *)
Definition child_ack : Step :=
  {| step_call := Call_CongControl {| rc_delivered := 1448 |} rs_one_segment;
     step_tcb := tcb_example; step_now := 10000000 |}.

Lemma Fork_copies_initializer_list_witness :
  m_pacingGain bbr_bdp_1001 = 2.89%float
  /\ m_sendQuantum bbr_bdp_1001 = 1000
  /\ copied_members (Fork bbr_bdp_1001) bbr_bdp_1001
  /\ exists w2,
       calls_at 1%nat [child_ack; child_ack]
         {| bbr_objects := [bbr_bdp_1001; Fork bbr_bdp_1001];
            uv_objects := uv_example |} = Some w2
       /\ bbr_read w2 0%nat = Some bbr_bdp_1001.
Proof.
  split; [vm_compute; reflexivity|]. split; [reflexivity|].
  destruct (Fork_copies_initializer_list one_socket 0%nat bbr_bdp_1001 eq_refl)
    as (_ & _ & _ & _ & Hc & _ & _ & Hi & _).
  split; [exact Hc|]. exact (Hi [child_ack; child_ack]).
Defined.

(** C9 as stated fails.  The child of an object whose min-RTT is one second
    has an unknown min-RTT; and reseeding through the child changes the next
    draw of the parent, hence the phase at which the parent enters
    PROBE_BW. *)
Lemma Fork_resets_and_shares :
  m_minRtt bbr_bdp_1001 = Seconds 1
  /\ m_minRtt (Fork bbr_bdp_1001) = Time_Max
  /\ m_minRtt (Fork bbr_bdp_1001) <> m_minRtt bbr_bdp_1001
  /\ m_cycleIndex (snd (EnterProbeBW 0 uv_example bbr_example)) = 4
  /\ m_cycleIndex
       (snd (EnterProbeBW 0 (SetStream 9 uv_example (Fork bbr_example)) bbr_example))
     = 5.
Proof.
  repeat split; try (vm_compute; congruence).
Qed.

(** * Part II: the calls of the socket, and what they keep *)

(** ** Calls and traces *)

(** The outcome of one evaluation of [CheckFullPipe]. *)
Inductive Verdict : Type := Skipped | Growing | Plateau.

Section Calls.
Context {L : Ns3Lib}.

(** One call, with what the environment provides for it: the store of
    random variables (another object may share the generator), the control
    block as the socket left it, and the time. *)
Record Invocation : Type := {
  inv_store : UvStore;
  inv_tcb : TcpSocketState;
  inv_now : Time;
  inv_call : Call
}.

(** The object after the call. *)
Definition invoke (i : Invocation) (b : TcpBbr) : TcpBbr :=
  match inv_call i with
  | Call_Init => snd (Init (inv_tcb i) b)
  | Call_CongestionStateSet newState =>
      snd (CongestionStateSet (inv_tcb i) newState (inv_now i) b)
  | Call_CwndEvent event =>
      snd (CwndEvent (inv_tcb i) event (inv_now i) (inv_store i) b)
  | Call_CongControl rc rs =>
      snd (CongControl (inv_tcb i) rc rs (inv_now i) (inv_store i) b)
  | Call_PktsAcked segmentsAcked rtt =>
      fst (PktsAcked (inv_tcb i) segmentsAcked rtt b)
  | Call_GetSsThresh bytesInFlight => snd (GetSsThresh (inv_tcb i) bytesInFlight b)
  | Call_SetStream _ => b
  end.

Fixpoint run (tr : list Invocation) (b : TcpBbr) : TcpBbr :=
  match tr with
  | [] => b
  | i :: tr' => run tr' (invoke i b)
  end.

(** [invoke] is [member_call] with the store the environment provides,
    the store after the call left out. *)
Lemma invoke_member_call (i : Invocation) (b : TcpBbr) :
  invoke i b
  = snd (member_call {| step_call := inv_call i; step_tcb := inv_tcb i;
                        step_now := inv_now i |} (inv_store i) b).
Proof.
  unfold invoke, member_call. cbn [step_call step_tcb step_now].
  destruct (inv_call i); try reflexivity.
  - destruct (CwndEvent (inv_tcb i) event (inv_now i) (inv_store i) b) as [[h t] b'].
    reflexivity.
  - destruct (CongControl (inv_tcb i) rc rs (inv_now i) (inv_store i) b)
      as [[h t] b'].
    reflexivity.
Qed.

(** The object as [CongControl] hands it to [CheckFullPipe]. *)
Definition before_CheckFullPipe (tcb : TcpSocketState) (rc : TcpRateConnection)
  (rs : TcpRateSample) (now : Time) (b : TcpBbr) : TcpBbr :=
  CheckCyclePhase tcb rs now
    (UpdateAckAggregation tcb rs now
       (UpdateBottleneckBandwidth rs (set_m_delivered (rc_delivered rc) b))).

(** What [CheckFullPipe] makes of a sample: nothing (pipe already filled, no
    round start, or app-limited sample), growth of at least 1.25, or a
    plateau. *)
Definition verdict (rs : TcpRateSample) (b : TcpBbr) : Verdict :=
  if m_isPipeFilled b || negb (m_roundStart b) || rs_isAppLimited rs then Skipped
  else if bandwidth_still_growing b then Growing
  else Plateau.





(** The members behind the latch, and the mode. *)
Definition pipe_view (b : TcpBbr) : bool * bool * DataRate * Z :=
  (m_isInitialized b, m_isPipeFilled b, m_fullBandwidth b, m_fullBandwidthCount b).

Definition core_view (b : TcpBbr) : bool * bool * DataRate * Z * BbrMode_t :=
  (pipe_view b, m_state b).

(** Once the latch is set the mode is not STARTUP. *)
Definition filled_not_startup (b : TcpBbr) : Prop :=
  m_isPipeFilled b = true -> m_state b <> BBR_STARTUP.

End Calls.

(** ** The RTT cache of tcp-socket-base.h *)

(** [RttCache]: the deque of recent samples.  [PushRtt] and [GetRttDeque]
    each run under the lock of the cache, so a history of the cache is a
    sequence of whole operations. *)
Definition RttCache : Type := list Time.

Definition RttCache_new : RttCache := [].

Definition PushRtt (rtt : Time) (m_rttDeque : RttCache) : RttCache :=
  let m_rttDeque :=
    if (10 <=? length m_rttDeque)%nat then tl m_rttDeque else m_rttDeque in
  m_rttDeque ++ [rtt].

Definition GetRttDeque (m_rttDeque : RttCache) : list Time := m_rttDeque.

(** ** Stepping through a member function *)

(** While only a view [V] of the object is tracked, each intermediate object
    of a member function is replaced by a variable known to have the view of
    the initial object. *)
Ltac close_view :=
  repeat match goal with
         | |- context [if ?c then _ else _] => destruct c
         end;
  first [ reflexivity | eassumption ].

Ltac step_view V b0 :=
  match goal with
  | |- context C [let x := ?X in @?B x] =>
      let y := fresh "v" in
      pose (y := X);
      let B' := eval cbv beta in (B y) in
      let g := context C [B'] in
      change g;
      lazymatch type of X with
      | TcpBbr =>
          let H := fresh "Hv" in
          assert (H : V y = V b0) by (unfold y; close_view);
          clearbody y
      | _ => idtac
      end
  | |- context [match (if ?c then _ else _) with pair _ _ => _ end] =>
      destruct c
  | |- context C [match (?u, ?w) with pair a b => @?B a b end] =>
      let ya := fresh "v" in
      let yb := fresh "v" in
      pose (ya := u); pose (yb := w);
      let B' := eval cbv beta in (B ya yb) in
      let g := context C [B'] in
      change g;
      lazymatch type of w with
      | TcpBbr =>
          let H := fresh "Hv" in
          assert (H : V yb = V b0) by (unfold yb; close_view);
          clearbody yb
      | _ => idtac
      end
  end.

Ltac frame :=
  intros;
  lazymatch goal with
  | |- ?V _ = ?V ?b0 =>
      assert (Hv0 : V b0 = V b0) by reflexivity;
      repeat step_view V b0;
      cbn [fst snd]; close_view
  end.


(** ** What the member functions leave alone *)

Section Frames.
Context {L : Ns3Lib}.

Lemma core_pipe (b b' : TcpBbr) :
  core_view b' = core_view b -> pipe_view b' = pipe_view b.
Proof. unfold core_view. congruence. Qed.


Lemma pipe_filled (b b' : TcpBbr) :
  pipe_view b' = pipe_view b -> m_isPipeFilled b' = m_isPipeFilled b.
Proof. unfold pipe_view. congruence. Qed.

Lemma pipe_initialized (b b' : TcpBbr) :
  pipe_view b' = pipe_view b -> m_isInitialized b' = m_isInitialized b.
Proof. unfold pipe_view. congruence. Qed.


Lemma core_filled_not_startup (b b' : TcpBbr) :
  core_view b' = core_view b -> filled_not_startup b -> filled_not_startup b'.
Proof.
  unfold core_view, pipe_view, filled_not_startup. intros H Hb Hf Hs.
  injection H as H1 H2 H3 H4 H5. apply Hb; congruence.
Qed.

Lemma UpdateBottleneckBandwidth_core rs b :
  core_view (UpdateBottleneckBandwidth rs b) = core_view b.
Proof. unfold UpdateBottleneckBandwidth, UpdateRound. frame. Qed.

Lemma UpdateAckAggregation_core tcb rs now b :
  core_view (UpdateAckAggregation tcb rs now b) = core_view b.
Proof. unfold UpdateAckAggregation. frame. Qed.

Lemma CheckCyclePhase_core tcb rs now b :
  core_view (CheckCyclePhase tcb rs now b) = core_view b.
Proof. unfold CheckCyclePhase, AdvanceCyclePhase. frame. Qed.

Lemma before_CheckFullPipe_core tcb rc rs now b :
  core_view (before_CheckFullPipe tcb rc rs now b) = core_view b.
Proof.
  unfold before_CheckFullPipe.
  rewrite CheckCyclePhase_core, UpdateAckAggregation_core,
    UpdateBottleneckBandwidth_core.
  reflexivity.
Qed.

Lemma UpdateRTprop_core tcb now b : core_view (UpdateRTprop tcb now b) = core_view b.
Proof. unfold UpdateRTprop. frame. Qed.

Lemma SaveCwnd_core tcb b : core_view (SaveCwnd tcb b) = core_view b.
Proof. unfold SaveCwnd. frame. Qed.

Lemma SetPacingRate_core tcb gain b :
  core_view (snd (SetPacingRate tcb gain b)) = core_view b.
Proof. unfold SetPacingRate, InitPacingRate. frame. Qed.

Lemma SetCwnd_core tcb rs b : core_view (snd (SetCwnd tcb rs b)) = core_view b.
Proof.
  unfold SetCwnd, ModulateCwndForRecovery, UpdateTargetCwnd. frame.
Qed.

Lemma UpdateControlParameters_core tcb rs b :
  core_view (snd (UpdateControlParameters tcb rs b)) = core_view b.
Proof.
  unfold UpdateControlParameters.
  pose proof (SetPacingRate_core tcb (m_pacingGain b) b) as H.
  destruct (SetPacingRate tcb (m_pacingGain b) b) as [t1 b1].
  rewrite SetCwnd_core. exact H.
Qed.

Lemma Init_core tcb b : core_view (snd (Init tcb b)) = core_view b.
Proof. unfold Init. frame. Qed.

Lemma PktsAcked_core tcb n rtt b :
  core_view (fst (PktsAcked tcb n rtt b)) = core_view b.
Proof. unfold PktsAcked, Reset. frame. Qed.

Lemma GetSsThresh_core tcb n b : core_view (snd (GetSsThresh tcb n b)) = core_view b.
Proof. unfold GetSsThresh. cbn [snd]. apply SaveCwnd_core. Qed.

Lemma CongestionStateSet_core tcb st now b :
  m_isInitialized b = true ->
  core_view (snd (CongestionStateSet tcb st now b)) = core_view b.
Proof.
  intros Hi. unfold CongestionStateSet. rewrite Hi, andb_false_r.
  unfold SaveCwnd. clear Hi. frame.
Qed.

Lemma CeState0to1_core tcb b : core_view (snd (CeState0to1 tcb b)) = core_view b.
Proof. unfold CeState0to1. frame. Qed.

Lemma CeState1to0_core tcb b : core_view (snd (CeState1to0 tcb b)) = core_view b.
Proof. unfold CeState1to0. frame. Qed.

Lemma UpdateAckReserved_core ev b : core_view (UpdateAckReserved ev b) = core_view b.
Proof. unfold UpdateAckReserved. destruct ev; frame. Qed.

(** The functions that change the mode keep the latch and its counters. *)

Lemma EnterProbeBW_view now h b :
  pipe_view (snd (EnterProbeBW now h b)) = pipe_view b
  /\ m_state (snd (EnterProbeBW now h b)) = BBR_PROBE_BW.
Proof.
  unfold EnterProbeBW.
  cbn [m_uv SetBbrState set_m_state set_m_pacingGain set_m_cWndGain].
  destruct (Urv_GetValue (uv_read h (m_uv b)) 0%float 6%float) as [x rv].
  split; reflexivity.
Qed.

Lemma ExitProbeRTT_view now h b :
  pipe_view (snd (ExitProbeRTT now h b)) = pipe_view b
  /\ m_state (snd (ExitProbeRTT now h b))
     = (if m_isPipeFilled b then BBR_PROBE_BW else BBR_STARTUP).
Proof.
  unfold ExitProbeRTT. destruct (m_isPipeFilled b) eqn:E.
  - apply EnterProbeBW_view.
  - split; reflexivity.
Qed.

Lemma ExitProbeRTT_filled_not_startup now h b :
  filled_not_startup (snd (ExitProbeRTT now h b)).
Proof.
  destruct (ExitProbeRTT_view now h b) as [Hp Hs].
  unfold filled_not_startup. rewrite (pipe_filled _ _ Hp), Hs.
  intros ->. discriminate.
Qed.

Lemma triple_snd {A B C : Type} (p : A * C) (t : B) :
  snd (let '(a, c) := p in (a, t, c)) = snd p.
Proof. destruct p; reflexivity. Qed.

Lemma CheckDrain_view tcb now h b :
  let b' := snd (CheckDrain tcb now h b) in
  pipe_view b' = pipe_view b
  /\ filled_not_startup b'
  /\ (m_state b' = BBR_STARTUP -> m_state b = BBR_STARTUP).
Proof.
  cbv zeta. unfold CheckDrain.
  destruct (BbrMode_eqb (m_state b) BBR_STARTUP && m_isPipeFilled b) eqn:E1.
  - match goal with
    | |- context [if ?c then _ else _] => destruct c
    end.
    + rewrite triple_snd.
      destruct (EnterProbeBW_view now h (EnterDrain b)) as [Hp Hs].
      rewrite Hp. unfold filled_not_startup. rewrite Hs.
      repeat split; try discriminate; try (intros; discriminate).
    + cbn [snd]. unfold filled_not_startup, EnterDrain.
      repeat split; cbn; try discriminate; try (intros; discriminate).
  - match goal with
    | |- context [if ?c then _ else _] => destruct c
    end.
    + rewrite triple_snd.
      destruct (EnterProbeBW_view now h b) as [Hp Hs].
      rewrite Hp. unfold filled_not_startup. rewrite Hs.
      repeat split; try discriminate; try (intros; discriminate).
    + cbn [snd]. split; [reflexivity|]. split; [|auto].
      unfold filled_not_startup. intros Hf Hs.
      rewrite Hf, Hs in E1. discriminate E1.
Qed.

Lemma HandleProbeRTT_view tcb now h b :
  let b' := snd (HandleProbeRTT tcb now h b) in
  pipe_view b' = pipe_view b
  /\ (filled_not_startup b -> filled_not_startup b').
Proof.
  cbv zeta. unfold HandleProbeRTT.
  set (b0 := set_m_appLimited _ b).
  assert (H0 : core_view b0 = core_view b) by reflexivity.
  clearbody b0. cbv zeta.
  destruct (Time_IsZero (m_probeRttDoneStamp b0)
            && (tcb_bytesInFlight tcb <=? m_minPipeCwnd b0)).
  - cbn [snd]. split; [apply core_pipe in H0; exact H0|].
    apply core_filled_not_startup. exact H0.
  - destruct (negb (Time_IsZero (m_probeRttDoneStamp b0))).
    2:{ cbn [snd]. split; [apply core_pipe in H0; exact H0|].
        apply core_filled_not_startup. exact H0. }
    match goal with
    | |- context [if m_roundStart b0 then ?X else b0] =>
        set (b1 := if m_roundStart b0 then X else b0)
    end.
    assert (H1 : core_view b1 = core_view b).
    { unfold b1. destruct (m_roundStart b0); exact H0. }
    clearbody b1.
    destruct (m_probeRttRoundDone b1 && (m_probeRttDoneStamp b1 <? now)).
    + rewrite triple_snd.
      destruct (ExitProbeRTT_view now h (set_m_minRttStamp now b1)) as [Hp _].
      split.
      * rewrite Hp. apply core_pipe in H1. exact H1.
      * intros _. apply ExitProbeRTT_filled_not_startup.
    + cbn [snd]. split; [apply core_pipe in H1; exact H1|].
      apply core_filled_not_startup. exact H1.
Qed.

Lemma CheckProbeRTT_view tcb rs now h b :
  let b' := snd (CheckProbeRTT tcb rs now h b) in
  pipe_view b' = pipe_view b
  /\ (filled_not_startup b -> filled_not_startup b').
Proof.
  cbv zeta. unfold CheckProbeRTT. cbv zeta.
  match goal with
  | |- context [if ?c then ?X else b] => set (b0 := if c then X else b)
  end.
  assert (H0 : pipe_view b0 = pipe_view b
               /\ (filled_not_startup b -> filled_not_startup b0)).
  { unfold b0.
    destruct (negb (BbrMode_eqb (m_state b) BBR_PROBE_RTT) && m_minRttExpired b
              && negb (m_idleRestart b)).
    - split.
      + unfold SaveCwnd.
        destruct (negb (TcpCongState_eqb (tcb_congState tcb) CA_RECOVERY)
                  && negb (BbrMode_eqb (m_state (EnterProbeRTT b)) BBR_PROBE_RTT));
          reflexivity.
      + intros _. unfold filled_not_startup, SaveCwnd.
        destruct (negb (TcpCongState_eqb (tcb_congState tcb) CA_RECOVERY)
                  && negb (BbrMode_eqb (m_state (EnterProbeRTT b)) BBR_PROBE_RTT));
          cbn; intros; discriminate.
    - split; auto. }
  clearbody b0. destruct H0 as [Hp0 Hf0].
  destruct (BbrMode_eqb (m_state b0) BBR_PROBE_RTT).
  - pose proof (HandleProbeRTT_view tcb now h b0) as H. cbv zeta in H.
    destruct (HandleProbeRTT tcb now h b0) as [[h1 t1] b1]. cbn [snd] in *.
    destruct H as [Hp1 Hf1].
    destruct (negb (rs_delivered rs =? 0)); cbn [snd].
    + split; [change (pipe_view b1 = pipe_view b); congruence|].
      intros Hb. specialize (Hf1 (Hf0 Hb)).
      exact Hf1.
    + split; [congruence|auto].
  - cbv iota beta.
    destruct (negb (rs_delivered rs =? 0)); cbn [snd].
    + split; [exact Hp0|]. intros Hb. exact (Hf0 Hb).
    + split; [exact Hp0|exact Hf0].
Qed.

Lemma CheckFullPipe_view rs b :
  m_isInitialized (CheckFullPipe rs b) = m_isInitialized b
  /\ m_state (CheckFullPipe rs b) = m_state b
  /\ (m_isPipeFilled b = true -> CheckFullPipe rs b = b).
Proof.
  unfold CheckFullPipe. split; [|split].
  - repeat match goal with
           | |- context [if ?c then _ else _] => destruct c
           end; reflexivity.
  - repeat match goal with
           | |- context [if ?c then _ else _] => destruct c
           end; reflexivity.
  - intros ->. reflexivity.
Qed.

End Frames.


(** ** The pipe-filled latch over the life of a connection *)

Section Latch.
Context {L : Ns3Lib}.

Lemma CwndEvent_view tcb ev now h b :
  let b' := snd (CwndEvent tcb ev now h b) in
  pipe_view b' = pipe_view b
  /\ (filled_not_startup b -> filled_not_startup b').
Proof.
  cbv zeta. destruct ev; cbn [CwndEvent snd];
    try solve [split; [reflexivity|intros H; exact H]].
  - (* CA_EVENT_TX_START *)
    destruct (m_appLimited b =? 0); [cbn [snd]; split; [reflexivity|auto]|].
    cbv zeta.
    set (b0 := set_m_ackEpochAcked 0 _).
    assert (H0 : core_view b0 = core_view b) by reflexivity.
    clearbody b0.
    destruct (BbrMode_eqb (m_state b0) BBR_PROBE_BW).
    + pose proof (SetPacingRate_core tcb 1%float b0) as H.
      destruct (SetPacingRate tcb 1%float b0) as [t1 b1]. cbn [snd] in *.
      rewrite H0 in H. split; [apply core_pipe in H; exact H|].
      apply core_filled_not_startup. exact H.
    + destruct (BbrMode_eqb (m_state b0) BBR_PROBE_RTT);
        [destruct (m_probeRttRoundDone b0 && (m_probeRttDoneStamp b0 <? now))|].
      * rewrite triple_snd.
        destruct (ExitProbeRTT_view now h (set_m_minRttStamp now b0)) as [Hp _].
        split; [rewrite Hp; apply core_pipe in H0; exact H0|].
        intros _. apply ExitProbeRTT_filled_not_startup.
      * cbn [snd]. split; [apply core_pipe in H0; exact H0|].
        apply core_filled_not_startup. exact H0.
      * cbn [snd]. split; [apply core_pipe in H0; exact H0|].
        apply core_filled_not_startup. exact H0.
  - (* CA_EVENT_ECN_NO_CE *)
    pose proof (CeState1to0_core tcb b) as H.
    destruct (CeState1to0 tcb b) as [t1 b1]. cbn [snd] in *.
    split; [apply core_pipe in H; exact H|].
    apply core_filled_not_startup. exact H.
  - (* CA_EVENT_ECN_IS_CE *)
    pose proof (CeState0to1_core tcb b) as H.
    destruct (CeState0to1 tcb b) as [t1 b1]. cbn [snd] in *.
    split; [apply core_pipe in H; exact H|].
    apply core_filled_not_startup. exact H.
  - pose proof (UpdateAckReserved_core CA_EVENT_DELAYED_ACK b) as H.
    split; [apply core_pipe in H; exact H|].
    apply core_filled_not_startup. exact H.
  - pose proof (UpdateAckReserved_core CA_EVENT_NON_DELAYED_ACK b) as H.
    split; [apply core_pipe in H; exact H|].
    apply core_filled_not_startup. exact H.
Qed.

Lemma CongControl_view tcb rc rs now h b :
  let b2 := CheckFullPipe rs (before_CheckFullPipe tcb rc rs now b) in
  let b' := snd (CongControl tcb rc rs now h b) in
  pipe_view b' = pipe_view b2 /\ filled_not_startup b'.
Proof.
  cbv zeta. unfold CongControl, UpdateModelAndState. cbv zeta.
  change (CheckCyclePhase tcb rs now
            (UpdateAckAggregation tcb rs now
               (UpdateBottleneckBandwidth rs (set_m_delivered (rc_delivered rc) b))))
    with (before_CheckFullPipe tcb rc rs now b).
  set (b2 := CheckFullPipe rs (before_CheckFullPipe tcb rc rs now b)).
  clearbody b2.
  pose proof (CheckDrain_view tcb now h b2) as Hd. cbv zeta in Hd.
  destruct (CheckDrain tcb now h b2) as [[h3 t3] b3]. cbn [snd] in Hd.
  destruct Hd as (Hp3 & Hf3 & _).
  pose proof (UpdateRTprop_core t3 now b3) as Hr.
  pose proof (CheckProbeRTT_view t3 rs now h3 (UpdateRTprop t3 now b3)) as Hc.
  cbv zeta in Hc.
  destruct (CheckProbeRTT t3 rs now h3 (UpdateRTprop t3 now b3)) as [[h5 t5] b5].
  cbn [snd] in Hc. destruct Hc as [Hp5 Hf5].
  pose proof (UpdateControlParameters_core t5 rs b5) as Hu.
  destruct (UpdateControlParameters t5 rs b5) as [t6 b6]. cbn [snd] in *.
  split.
  - apply core_pipe in Hu. apply core_pipe in Hr. congruence.
  - apply (core_filled_not_startup _ _ Hu). apply Hf5.
    apply (core_filled_not_startup _ _ Hr). exact Hf3.
Qed.

Lemma invoke_pipe_view (i : Invocation) (b : TcpBbr) :
  m_isInitialized b = true ->
  pipe_view (invoke i b)
  = match inv_call i with
    | Call_CongControl rc rs =>
        pipe_view (CheckFullPipe rs
                     (before_CheckFullPipe (inv_tcb i) rc rs (inv_now i) b))
    | _ => pipe_view b
    end.
Proof.
  intros Hi. unfold invoke. destruct (inv_call i).
  - apply core_pipe, Init_core.
  - apply core_pipe, CongestionStateSet_core, Hi.
  - apply CwndEvent_view.
  - apply CongControl_view.
  - apply core_pipe, PktsAcked_core.
  - apply core_pipe, GetSsThresh_core.
  - reflexivity.
Qed.

Lemma invoke_filled_not_startup (i : Invocation) (b : TcpBbr) :
  m_isInitialized b = true ->
  filled_not_startup b -> filled_not_startup (invoke i b).
Proof.
  intros Hi Hb. unfold invoke. destruct (inv_call i).
  - apply (core_filled_not_startup b); [apply Init_core|exact Hb].
  - apply (core_filled_not_startup b); [apply CongestionStateSet_core, Hi|exact Hb].
  - apply CwndEvent_view, Hb.
  - apply CongControl_view.
  - apply (core_filled_not_startup b); [apply PktsAcked_core|exact Hb].
  - apply (core_filled_not_startup b); [apply GetSsThresh_core|exact Hb].
  - exact Hb.
Qed.

Lemma before_CheckFullPipe_pipe tcb rc rs now b :
  pipe_view (before_CheckFullPipe tcb rc rs now b) = pipe_view b.
Proof. apply core_pipe, before_CheckFullPipe_core. Qed.

Lemma invoke_initialized (i : Invocation) (b : TcpBbr) :
  m_isInitialized b = true -> m_isInitialized (invoke i b) = true.
Proof.
  intros Hi. pose proof (invoke_pipe_view i b Hi) as H.
  destruct (inv_call i);
    try (rewrite (pipe_initialized _ _ H); exact Hi).
  apply pipe_initialized in H. rewrite H.
  destruct (CheckFullPipe_view rs
              (before_CheckFullPipe (inv_tcb i) rc rs (inv_now i) b)) as [-> _].
  rewrite (pipe_initialized _ _ (before_CheckFullPipe_pipe _ _ _ _ _)). exact Hi.
Qed.

Lemma invoke_keeps_latch (i : Invocation) (b : TcpBbr) :
  m_isInitialized b = true ->
  m_isPipeFilled b = true -> m_isPipeFilled (invoke i b) = true.
Proof.
  intros Hi Hf. pose proof (invoke_pipe_view i b Hi) as H.
  destruct (inv_call i); try (rewrite (pipe_filled _ _ H); exact Hf).
  apply pipe_filled in H. rewrite H.
  pose proof (pipe_filled _ _ (before_CheckFullPipe_pipe (inv_tcb i) rc rs (inv_now i) b))
    as Hb.
  destruct (CheckFullPipe_view rs
              (before_CheckFullPipe (inv_tcb i) rc rs (inv_now i) b))
    as (_ & _ & Hsame).
  rewrite Hsame by congruence. congruence.
Qed.




Lemma run_initialized (tr : list Invocation) :
  forall b, m_isInitialized b = true -> m_isInitialized (run tr b) = true.
Proof.
  induction tr as [|i tr IH]; intros b Hi; [exact Hi|].
  cbn [run]. apply IH, invoke_initialized, Hi.
Qed.

Lemma run_keeps_latch (tr : list Invocation) :
  forall b, m_isInitialized b = true -> m_isPipeFilled b = true ->
            m_isPipeFilled (run tr b) = true.
Proof.
  induction tr as [|i tr IH]; intros b Hi Hf; [exact Hf|].
  cbn [run]. apply IH; [apply invoke_initialized, Hi|].
  apply invoke_keeps_latch; assumption.
Qed.

Lemma run_filled_not_startup (tr : list Invocation) :
  forall b, m_isInitialized b = true -> filled_not_startup b ->
            filled_not_startup (run tr b).
Proof.
  induction tr as [|i tr IH]; intros b Hi Hb; [exact Hb|].
  cbn [run]. apply IH; [apply invoke_initialized, Hi|].
  apply invoke_filled_not_startup; assumption.
Qed.


Lemma CheckFullPipe_cases (rs : TcpRateSample) (b : TcpBbr) :
  match verdict rs b with
  | Skipped => CheckFullPipe rs b = b
  | Growing =>
      m_fullBandwidth (CheckFullPipe rs b) = Filter_GetBest (m_maxBwFilter b)
      /\ m_fullBandwidthCount (CheckFullPipe rs b) = 0
      /\ m_isPipeFilled (CheckFullPipe rs b) = false
  | Plateau =>
      m_fullBandwidth (CheckFullPipe rs b) = m_fullBandwidth b
      /\ m_fullBandwidthCount (CheckFullPipe rs b)
         = u32 (m_fullBandwidthCount b + 1)
      /\ m_isPipeFilled (CheckFullPipe rs b)
         = (3 <=? u32 (m_fullBandwidthCount b + 1))
  end.
Proof.
  unfold verdict, CheckFullPipe.
  destruct (m_isPipeFilled b) eqn:Hf; cbn [orb]; [reflexivity|].
  destruct (negb (m_roundStart b)); cbn [orb]; [reflexivity|].
  destruct (rs_isAppLimited rs); [reflexivity|].
  destruct (bandwidth_still_growing b).
  - cbn. repeat split. exact Hf.
  - cbv zeta. cbn [m_fullBandwidthCount set_m_fullBandwidthCount].
    destruct (3 <=? u32 (m_fullBandwidthCount b + 1)); cbn; repeat split.
    exact Hf.
Qed.

End Latch.

(** ** The STARTUP to DRAIN transition (C2) *)

(** Five acknowledgments of one segment each, ten milliseconds apart, on the
    fresh connection; each starts a round. *)
Definition ack_at (n : Z) : Invocation :=
  {| inv_store := uv_example; inv_tcb := tcb_example;
     inv_now := n * 10000000;
     inv_call := Call_CongControl {| rc_delivered := 0 |} rs_one_segment |}.

Definition five_acks : list Invocation :=
  [ack_at 1; ack_at 2; ack_at 3; ack_at 4; ack_at 5].




Section LatchTheorems.
Context {L : Ns3Lib}.




(** [CheckFullPipe], by verdict.  A skipped sample (latch already set, no
    round start, or app-limited) leaves the object as it is: it does not
    restart the count.  Growth of at least 1.25 records the best bandwidth
    and zeroes the count.  A plateau adds one to the count and sets the
    latch when the count reaches 3.  So the latch is set only by a plateau
    that brings the count to 3, and is never cleared. *)
Theorem CheckFullPipe_latch_rule (rs : TcpRateSample) (b : TcpBbr) :
  let b' := CheckFullPipe rs b in
  (verdict rs b = Skipped -> b' = b)
  /\ (verdict rs b = Growing ->
      m_fullBandwidth b' = Filter_GetBest (m_maxBwFilter b)
      /\ m_fullBandwidthCount b' = 0 /\ m_isPipeFilled b' = false)
  /\ (verdict rs b = Plateau ->
      m_fullBandwidth b' = m_fullBandwidth b
      /\ m_fullBandwidthCount b' = u32 (m_fullBandwidthCount b + 1)
      /\ m_isPipeFilled b' = (3 <=? u32 (m_fullBandwidthCount b + 1)))
  /\ (m_isPipeFilled b' = true ->
      m_isPipeFilled b = true
      \/ (verdict rs b = Plateau /\ 3 <= u32 (m_fullBandwidthCount b + 1)))
  /\ (m_isPipeFilled b = true -> m_isPipeFilled b' = true).
Proof.
  cbv zeta. pose proof (CheckFullPipe_cases rs b) as H.
  split; [|split; [|split; [|split]]].
  - intros E. rewrite E in H. exact H.
  - intros E. rewrite E in H. exact H.
  - intros E. rewrite E in H. exact H.
  - intros Hf. destruct (verdict rs b).
    + left. rewrite H in Hf. exact Hf.
    + destruct H as (_ & _ & H). congruence.
    + right. split; [reflexivity|]. destruct H as (_ & _ & H).
      rewrite H in Hf. apply Z.leb_le. exact Hf.
  - intros Hf. destruct (CheckFullPipe_view rs b) as (_ & _ & Hsame).
    rewrite Hsame by exact Hf. exact Hf.
Qed.

(** On an initialised object no call other than [CongControl] changes the
    latch, the recorded full bandwidth or the full-bandwidth count (nor the
    initialised flag), and [CongControl] changes them only through its one
    evaluation of [CheckFullPipe]. *)
Theorem latch_written_only_by_CheckFullPipe (i : Invocation) (b : TcpBbr) :
  m_isInitialized b = true ->
  pipe_view (invoke i b)
  = match inv_call i with
    | Call_CongControl rc rs =>
        pipe_view (CheckFullPipe rs
                     (before_CheckFullPipe (inv_tcb i) rc rs (inv_now i) b))
    | _ => pipe_view b
    end
  /\ (forall rc rs,
        pipe_view (before_CheckFullPipe (inv_tcb i) rc rs (inv_now i) b)
        = pipe_view b).
Proof.
  intros Hi. split; [apply invoke_pipe_view, Hi|].
  intros rc rs. apply before_CheckFullPipe_pipe.
Qed.

(** An initialised object stays initialised, a latch that is set stays set,
    and a set latch never goes with the mode STARTUP again, through any
    sequence of calls. *)
Theorem latch_never_cleared (tr : list Invocation) (b : TcpBbr) :
  m_isInitialized b = true ->
  m_isInitialized (run tr b) = true
  /\ (m_isPipeFilled b = true -> m_isPipeFilled (run tr b) = true)
  /\ (filled_not_startup b -> filled_not_startup (run tr b)).
Proof.
  intros Hi. split; [apply run_initialized, Hi|].
  split; [apply run_keeps_latch, Hi|].
  apply run_filled_not_startup, Hi.
Qed.

End LatchTheorems.



Lemma CheckFullPipe_latch_rule_witness :
  m_fullBandwidthCount
    (CheckFullPipe rs_one_segment (set_m_roundStart true bbr_example)) = 0
  /\ m_fullBandwidth
       (CheckFullPipe rs_one_segment (set_m_roundStart true bbr_example))
     = 115840000.
Proof.
  destruct (CheckFullPipe_latch_rule rs_one_segment
              (set_m_roundStart true bbr_example)) as (_ & H & _).
  destruct (H eq_refl) as (Hb & Hc & _).
  split; [exact Hc|]. rewrite Hb. reflexivity.
Defined.

Lemma latch_written_only_by_CheckFullPipe_witness :
  pipe_view (invoke (ack_at 1) bbr_example) = (true, false, 115840000, 0).
Proof.
  rewrite (proj1 (latch_written_only_by_CheckFullPipe (ack_at 1) bbr_example
                    eq_refl)).
  reflexivity.
Defined.

Lemma latch_never_cleared_witness :
  m_isPipeFilled (run five_acks bbr_example) = true
  /\ m_isInitialized (run (five_acks ++ five_acks) bbr_example) = true
  /\ m_isPipeFilled (run five_acks (run five_acks bbr_example)) = true.
Proof.
  split; [vm_compute; reflexivity|]. split.
  - exact (proj1 (latch_never_cleared (five_acks ++ five_acks) bbr_example
                    eq_refl)).
  - apply (proj1 (proj2 (latch_never_cleared five_acks
                           (run five_acks bbr_example) eq_refl))).
    vm_compute. reflexivity.
Defined.


(** ** Mode transitions *)

Section Transitions.
Context {L : Ns3Lib}.

Lemma InFlight_ssThresh tcb v gain b :
  InFlight (set_tcb_ssThresh v tcb) gain b = InFlight tcb gain b.
Proof. reflexivity. Qed.

(** [CheckDrain].  It never touches the congestion window.  In STARTUP with
    the latch set it enters DRAIN, sets the slow-start threshold to the
    in-flight target at gain 1, and goes on to PROBE_BW in the same call
    when the bytes in flight are already at or below that target.  In DRAIN
    it enters PROBE_BW under the same test and otherwise does nothing.  In
    every other case it changes nothing. *)
Theorem CheckDrain_transitions (tcb : TcpSocketState) (now : Time) (h : UvStore)
  (b : TcpBbr) :
  let tcb' := snd (fst (CheckDrain tcb now h b)) in
  let b' := snd (CheckDrain tcb now h b) in
  tcb_cWnd tcb' = tcb_cWnd tcb
  /\ (m_state b = BBR_STARTUP -> m_isPipeFilled b = true ->
      tcb_ssThresh tcb' = InFlight tcb 1%float (EnterDrain b)
      /\ m_state b'
         = (if tcb_bytesInFlight tcb <=? InFlight tcb 1%float (EnterDrain b)
            then BBR_PROBE_BW else BBR_DRAIN))
  /\ (m_state b = BBR_DRAIN ->
      tcb' = tcb
      /\ (if tcb_bytesInFlight tcb <=? InFlight tcb 1%float b
          then m_state b' = BBR_PROBE_BW
          else CheckDrain tcb now h b = (h, tcb, b)))
  /\ (m_state b <> BBR_DRAIN ->
      (m_state b = BBR_STARTUP -> m_isPipeFilled b = false) ->
      CheckDrain tcb now h b = (h, tcb, b)).
Proof.
  cbv zeta. unfold CheckDrain. split; [|split; [|split]].
  - destruct (BbrMode_eqb (m_state b) BBR_STARTUP && m_isPipeFilled b);
      match goal with
      | |- context [if ?c then _ else _] => destruct c
      end;
      try match goal with
          | |- context [EnterProbeBW ?n ?s ?x] => destruct (EnterProbeBW n s x)
          end; reflexivity.
  - intros Hs Hf. rewrite Hs, Hf. cbn [BbrMode_eqb andb].
    rewrite InFlight_ssThresh.
    change (BbrMode_eqb (m_state (EnterDrain b)) BBR_DRAIN) with true.
    cbn [andb tcb_bytesInFlight set_tcb_ssThresh].
    destruct (tcb_bytesInFlight tcb <=? InFlight tcb 1%float (EnterDrain b)).
    + pose proof (EnterProbeBW_view now h (EnterDrain b)) as [_ Hm].
      destruct (EnterProbeBW now h (EnterDrain b)) as [h1 b1].
      cbn [fst snd] in *. split; [reflexivity|exact Hm].
    + cbn [fst snd]. split; reflexivity.
  - intros Hs. rewrite Hs. cbn [BbrMode_eqb andb]. cbv beta iota.
    rewrite Hs. cbn [BbrMode_eqb andb].
    destruct (tcb_bytesInFlight tcb <=? InFlight tcb 1%float b).
    + pose proof (EnterProbeBW_view now h b) as [_ Hm].
      destruct (EnterProbeBW now h b) as [h1 b1].
      cbn [fst snd] in *. split; [reflexivity|exact Hm].
    + cbn [fst snd]. split; reflexivity.
  - intros Hd Hs.
    assert (E1 : BbrMode_eqb (m_state b) BBR_STARTUP && m_isPipeFilled b = false).
    { destruct (m_state b) eqn:E; cbn; try reflexivity. apply Hs. reflexivity. }
    rewrite E1.
    assert (E2 : BbrMode_eqb (m_state b) BBR_DRAIN = false).
    { destruct (m_state b); cbn; congruence. }
    rewrite E2. reflexivity.
Qed.

(** [EnterProbeBW] with a draw whose integer part lies in 0..5 (as
    [GetValue(0, 6)] yields): the cycle starts at index 0 or at one of 3..7,
    never at index 1, so PROBE_BW is entered with a pacing gain of 1.25 or
    1 and never in the 0.75 phase; the cwnd gain is 2. *)
Theorem EnterProbeBW_skips_drain_phase (now : Time) (h : UvStore) (b : TcpBbr) :
  let r := to_int (double_trunc
                     (fst (Urv_GetValue (uv_read h (m_uv b)) 0%float 6%float))) in
  let b' := snd (EnterProbeBW now h b) in
  0 <= r <= 5 ->
  m_cycleIndex b' = (8 - r) mod 8
  /\ m_cycleIndex b' <> 1
  /\ (m_pacingGain b' = 1.25%float \/ m_pacingGain b' = 1%float)
  /\ m_cWndGain b' = 2%float
  /\ m_cycleStamp b' = now
  /\ m_state b' = BBR_PROBE_BW.
Proof.
  cbv zeta. unfold EnterProbeBW.
  cbn [m_uv SetBbrState set_m_state set_m_pacingGain set_m_cWndGain].
  destruct (Urv_GetValue (uv_read h (m_uv b)) 0%float 6%float) as [x rv].
  cbn [fst snd]. intros Hr.
  rewrite AdvanceCyclePhase_index, AdvanceCyclePhase_gain.
  cbn [m_cycleIndex set_m_cycleIndex]. unfold GAIN_CYCLE_LENGTH.
  rewrite u32_small by lia.
  replace (8 - 1 - to_int (double_trunc x) + 1) with (8 - to_int (double_trunc x))
    by lia.
  assert (Hc : to_int (double_trunc x) = 0 \/ to_int (double_trunc x) = 1
               \/ to_int (double_trunc x) = 2 \/ to_int (double_trunc x) = 3
               \/ to_int (double_trunc x) = 4 \/ to_int (double_trunc x) = 5) by lia.
  destruct Hc as [->|[->|[->|[->|[->| ->]]]]];
    (split; [reflexivity|]); (split; [cbn; discriminate|]);
    (split; [(left; reflexivity) || (right; reflexivity)|]);
    repeat split.
Qed.

End Transitions.

Lemma CheckDrain_transitions_witness :
  m_state (snd (CheckDrain tcb_example 0 uv_example
                  (set_m_isPipeFilled true bbr_example))) = BBR_PROBE_BW.
Proof.
  destruct (CheckDrain_transitions tcb_example 0 uv_example
              (set_m_isPipeFilled true bbr_example)) as (_ & H & _).
  destruct (H eq_refl eq_refl) as [_ ->]. reflexivity.
Defined.

Lemma EnterProbeBW_skips_drain_phase_witness :
  m_cycleIndex (snd (EnterProbeBW 0 uv_example bbr_example)) = 4.
Proof.
  rewrite (proj1 (EnterProbeBW_skips_drain_phase 0 uv_example bbr_example
                    ltac:(vm_compute; split; discriminate))).
  reflexivity.
Defined.


(** ** The min-RTT filter and the saved window *)

Lemma std_min_max_floor (x m : Z) : std_min (std_max x m) m = m.
Proof.
  pose proof (std_max_ge_r x m) as H. unfold std_min.
  destruct (m <? std_max x m) eqn:E; [reflexivity|].
  apply Z.ltb_ge in E. lia.
Qed.

Section MinRttAndWindow.
Context {L : Ns3Lib}.

(** [UpdateRTprop].  The expiry flag is recomputed on every call.  The
    estimate is replaced only by a last RTT that is not negative, and then
    only if it is at most the estimate or the estimate has expired; the
    stamp moves with it.  So, while the estimate has not expired, it never
    increases. *)
Theorem UpdateRTprop_windowed_minimum (tcb : TcpSocketState) (now : Time)
  (b : TcpBbr) :
  let b' := UpdateRTprop tcb now b in
  m_minRttExpired b' = (m_minRttStamp b + m_minRttFilterLen b <? now)
  /\ ((m_minRtt b' = m_minRtt b /\ m_minRttStamp b' = m_minRttStamp b)
      \/ (m_minRtt b' = tcb_lastRtt tcb /\ m_minRttStamp b' = now
          /\ 0 <= tcb_lastRtt tcb))
  /\ (m_minRttExpired b' = false -> m_minRtt b' <= m_minRtt b)
  /\ (0 <= tcb_lastRtt tcb <= m_minRtt b -> m_minRtt b' = tcb_lastRtt tcb)
  /\ (tcb_lastRtt tcb < 0 -> UpdateRTprop tcb now b
                             = set_m_minRttExpired
                                 (m_minRttStamp b + m_minRttFilterLen b <? now) b).
Proof.
  cbv zeta. unfold UpdateRTprop, Time_IsPositive. cbv zeta.
  cbn [m_minRtt m_minRttExpired set_m_minRttExpired].
  destruct (0 <=? tcb_lastRtt tcb) eqn:Hp;
    destruct (tcb_lastRtt tcb <=? m_minRtt b) eqn:Hle;
    destruct (m_minRttStamp b + m_minRttFilterLen b <? now) eqn:He;
    cbn [andb orb m_minRtt m_minRttStamp m_minRttExpired set_m_minRtt
           set_m_minRttStamp set_m_minRttExpired];
    try apply Z.leb_le in Hp; try apply Z.leb_gt in Hp;
    try apply Z.leb_le in Hle; try apply Z.leb_gt in Hle;
    (split; [reflexivity|]);
    (split; [first [left; split; reflexivity
                   | right; split; [reflexivity|split; [reflexivity|lia]]]|]);
    (split; [intros; first [discriminate | lia]|]);
    (split; [intros; first [reflexivity | lia]|]);
    intros; first [reflexivity | lia].
Qed.

(** [SaveCwnd] and [RestoreCwnd].  The saved window is at least the window
    at the time of the save (in RECOVERY and PROBE_RTT it is the larger of
    the two); a restore never lowers the window and brings it at least to
    the saved one.  So whatever happens to the window between a save and a
    restore, the restore yields at least the window that was saved. *)
Theorem RestoreCwnd_after_SaveCwnd (tcb tcb' : TcpSocketState) (b : TcpBbr) :
  tcb_cWnd tcb <= m_priorCwnd (SaveCwnd tcb b)
  /\ (tcb_congState tcb <> CA_RECOVERY -> m_state b <> BBR_PROBE_RTT ->
      m_priorCwnd (SaveCwnd tcb b) = tcb_cWnd tcb)
  /\ m_priorCwnd b <= tcb_cWnd (RestoreCwnd tcb' b)
  /\ tcb_cWnd tcb' <= tcb_cWnd (RestoreCwnd tcb' b)
  /\ tcb_cWnd tcb <= tcb_cWnd (RestoreCwnd tcb' (SaveCwnd tcb b))
  /\ RestoreCwnd tcb' b = set_tcb_cWnd (tcb_cWnd (RestoreCwnd tcb' b)) tcb'.
Proof.
  assert (Hs : tcb_cWnd tcb <= m_priorCwnd (SaveCwnd tcb b)).
  { unfold SaveCwnd.
    destruct (negb (TcpCongState_eqb (tcb_congState tcb) CA_RECOVERY)
              && negb (BbrMode_eqb (m_state b) BBR_PROBE_RTT));
      cbn [m_priorCwnd set_m_priorCwnd]; [lia|apply std_max_ge_r]. }
  split; [exact Hs|]. split; [|split; [|split; [|split]]].
  - intros Hc Hm. unfold SaveCwnd.
    assert (E1 : TcpCongState_eqb (tcb_congState tcb) CA_RECOVERY = false).
    { destruct (tcb_congState tcb); cbn; congruence. }
    assert (E2 : BbrMode_eqb (m_state b) BBR_PROBE_RTT = false).
    { destruct (m_state b); cbn; congruence. }
    rewrite E1, E2. reflexivity.
  - unfold RestoreCwnd. cbn [tcb_cWnd set_tcb_cWnd]. apply std_max_ge_l.
  - unfold RestoreCwnd. cbn [tcb_cWnd set_tcb_cWnd]. apply std_max_ge_r.
  - unfold RestoreCwnd. cbn [tcb_cWnd set_tcb_cWnd].
    pose proof (std_max_ge_l (m_priorCwnd (SaveCwnd tcb b)) (tcb_cWnd tcb')). lia.
  - reflexivity.
Qed.

(** [SetCwnd] in PROBE_RTT: whatever the sample, the window it leaves is at
    most the minimum pipe window; with a non-zero acked count and outside
    packet conservation in RECOVERY it is exactly the minimum pipe window.
    Outside PROBE_RTT a sample with a zero acked count changes nothing. *)
Theorem SetCwnd_ProbeRTT_clamp (tcb : TcpSocketState) (rs : TcpRateSample)
  (b : TcpBbr) :
  (m_state b = BBR_PROBE_RTT ->
   tcb_cWnd (fst (SetCwnd tcb rs b)) <= m_minPipeCwnd b
   /\ (rs_ackedSacked rs <> 0 ->
       ~ (tcb_congState tcb = CA_RECOVERY /\ m_packetConservation b = true) ->
       tcb_cWnd (fst (SetCwnd tcb rs b)) = m_minPipeCwnd b))
  /\ (m_state b <> BBR_PROBE_RTT -> rs_ackedSacked rs = 0 ->
      SetCwnd tcb rs b = (tcb, b)).
Proof.
  split.
  - intros Hm.
    assert (Hclamp : forall t b1, m_state b1 = BBR_PROBE_RTT ->
                       m_minPipeCwnd b1 = m_minPipeCwnd b ->
                       tcb_cWnd (ModulateCwndForProbeRTT t b1) <= m_minPipeCwnd b).
    { intros t b1 H1 H2. unfold ModulateCwndForProbeRTT. rewrite H1, <- H2.
      cbn [BbrMode_eqb tcb_cWnd set_tcb_cWnd]. apply std_min_le_r. }
    split.
    + unfold SetCwnd.
      destruct (rs_ackedSacked rs =? 0); [apply Hclamp; auto|].
      destruct (if TcpCongState_eqb (tcb_congState tcb) CA_RECOVERY
                then ModulateCwndForRecovery tcb rs b else (tcb, false)) as [t d].
      destruct d; cbn [fst]; apply Hclamp; auto.
    + intros Hack Hout. apply Z.eqb_neq in Hack.
      unfold SetCwnd. rewrite Hack.
      assert (Hd : snd (if TcpCongState_eqb (tcb_congState tcb) CA_RECOVERY
                        then ModulateCwndForRecovery tcb rs b else (tcb, false))
                   = false).
      { destruct (TcpCongState_eqb (tcb_congState tcb) CA_RECOVERY) eqn:E;
          [|reflexivity].
        rewrite ModulateCwndForRecovery_done. apply TcpCongState_eqb_eq in E.
        destruct (m_packetConservation b); [exfalso; apply Hout; auto|reflexivity]. }
      destruct (if TcpCongState_eqb (tcb_congState tcb) CA_RECOVERY
                then ModulateCwndForRecovery tcb rs b else (tcb, false)) as [t d].
      cbn [snd] in Hd. subst d. cbv zeta. cbn [fst].
      unfold ModulateCwndForProbeRTT.
      change (m_state (UpdateTargetCwnd t b)) with (m_state b). rewrite Hm.
      cbn [BbrMode_eqb tcb_cWnd set_tcb_cWnd].
      change (m_minPipeCwnd (UpdateTargetCwnd t b)) with (m_minPipeCwnd b).
      apply std_min_max_floor.
  - intros Hm Hz. unfold SetCwnd, ModulateCwndForProbeRTT.
    apply Z.eqb_eq in Hz. rewrite Hz.
    assert (E : BbrMode_eqb (m_state b) BBR_PROBE_RTT = false).
    { destruct (m_state b); cbn; congruence. }
    rewrite E. reflexivity.
Qed.

(** [SetCwnd] outside RECOVERY and PROBE_RTT, for a sample that
    acknowledges bytes: the new target is the in-flight target at the cwnd
    gain plus the aggregation bonus; the window grows by at most the acked
    bytes (or sits at the floor); once the pipe is filled it does not pass
    the larger of target and floor; before that, a window at or above the
    target stops growing once the delivered total has covered the initial
    window. *)
Theorem SetCwnd_growth (tcb : TcpSocketState) (rs : TcpRateSample) (b : TcpBbr) :
  rs_ackedSacked rs <> 0 ->
  tcb_congState tcb <> CA_RECOVERY ->
  m_state b <> BBR_PROBE_RTT ->
  0 <= tcb_cWnd tcb -> 0 <= rs_ackedSacked rs ->
  let tcb' := fst (SetCwnd tcb rs b) in
  let b' := snd (SetCwnd tcb rs b) in
  m_targetCWnd b' = u32 (InFlight tcb (m_cWndGain b) b + AckAggregationCwnd b)
  /\ tcb_cWnd tcb' <= Z.max (tcb_cWnd tcb + rs_ackedSacked rs) (m_minPipeCwnd b)
  /\ m_minPipeCwnd b <= tcb_cWnd tcb'
  /\ (m_isPipeFilled b = true ->
      tcb_cWnd tcb' <= Z.max (m_targetCWnd b') (m_minPipeCwnd b))
  /\ (m_isPipeFilled b = false -> m_targetCWnd b' <= tcb_cWnd tcb ->
      u32 (tcb_initialCWnd tcb * tcb_segmentSize tcb) <= m_delivered b ->
      tcb_cWnd tcb' = std_max (tcb_cWnd tcb) (m_minPipeCwnd b)).
Proof.
  intros Hack Hc Hm H0 Ha. cbv zeta. apply Z.eqb_neq in Hack.
  assert (E1 : TcpCongState_eqb (tcb_congState tcb) CA_RECOVERY = false).
  { destruct (tcb_congState tcb); cbn; congruence. }
  assert (E2 : BbrMode_eqb (m_state b) BBR_PROBE_RTT = false).
  { destruct (m_state b); cbn; congruence. }
  unfold SetCwnd. rewrite Hack, E1. cbv zeta. cbv beta iota.
  unfold ModulateCwndForProbeRTT.
  change (m_state (UpdateTargetCwnd tcb b)) with (m_state b). rewrite E2.
  cbn [fst snd].
  change (m_isPipeFilled (UpdateTargetCwnd tcb b)) with (m_isPipeFilled b).
  change (m_minPipeCwnd (UpdateTargetCwnd tcb b)) with (m_minPipeCwnd b).
  change (m_delivered (UpdateTargetCwnd tcb b)) with (m_delivered b).
  change (m_targetCWnd (UpdateTargetCwnd tcb b))
    with (u32 (InFlight tcb (m_cWndGain b) b + AckAggregationCwnd b)).
  set (target := u32 (InFlight tcb (m_cWndGain b) b + AckAggregationCwnd b)).
  assert (Hu : u32 (tcb_cWnd tcb + rs_ackedSacked rs)
               <= tcb_cWnd tcb + rs_ackedSacked rs).
  { unfold u32. apply Z.mod_le; lia. }
  split; [reflexivity|].
  destruct (m_isPipeFilled b) eqn:Hf.
  - cbn [tcb_cWnd set_tcb_cWnd].
    pose proof (std_min_le_l (u32 (tcb_cWnd tcb + rs_ackedSacked rs)) target).
    pose proof (std_min_le_r (u32 (tcb_cWnd tcb + rs_ackedSacked rs)) target).
    pose proof (std_max_ge_r
                  (std_min (u32 (tcb_cWnd tcb + rs_ackedSacked rs)) target)
                  (m_minPipeCwnd b)).
    unfold std_max in *.
    destruct (std_min (u32 (tcb_cWnd tcb + rs_ackedSacked rs)) target
              <? m_minPipeCwnd b) eqn:E;
      repeat split; intros; try discriminate; lia.
  - destruct ((tcb_cWnd tcb <? target)
              || (m_delivered b <? u32 (tcb_initialCWnd tcb * tcb_segmentSize tcb)))
      eqn:Eg; cbn [tcb_cWnd set_tcb_cWnd].
    + pose proof (std_max_ge_r (u32 (tcb_cWnd tcb + rs_ackedSacked rs))
                    (m_minPipeCwnd b)).
      unfold std_max in *.
      destruct (u32 (tcb_cWnd tcb + rs_ackedSacked rs) <? m_minPipeCwnd b) eqn:E;
        (split; [lia|]); (split; [lia|]); (split; [intros; discriminate|]);
        intros _ Ht Hd; apply orb_true_iff in Eg;
        destruct Eg as [Eg|Eg]; apply Z.ltb_lt in Eg; lia.
    + pose proof (std_max_ge_r (tcb_cWnd tcb) (m_minPipeCwnd b)).
      unfold std_max in *.
      destruct (tcb_cWnd tcb <? m_minPipeCwnd b) eqn:E;
        (split; [lia|]); (split; [lia|]); (split; [intros; discriminate|]);
        intros; reflexivity.
Qed.

(** [AckAggregationCwnd]: the bonus is never negative, is zero until the
    pipe is filled (and when the extra-acked gain is zero), and otherwise is
    the smaller of the gain times the larger slot and the bytes the best
    bandwidth carries in a tenth of a second (both as 32-bit values). *)
Theorem AckAggregationCwnd_bound (b : TcpBbr) :
  0 <= AckAggregationCwnd b
  /\ (m_isPipeFilled b = false -> AckAggregationCwnd b = 0)
  /\ (m_extraAckedGain b = 0 -> AckAggregationCwnd b = 0)
  /\ AckAggregationCwnd b
     <= u32 (GetBitRate (Filter_GetBest (m_maxBwFilter b)) / 80)
  /\ AckAggregationCwnd b
     <= u32 (m_extraAckedGain b
             * Z.max (fst (m_extraAcked b)) (snd (m_extraAcked b))).
Proof.
  unfold AckAggregationCwnd. cbv zeta.
  pose proof (u32_range (GetBitRate (Filter_GetBest (m_maxBwFilter b)) / 80)) as H1.
  pose proof (u32_range (m_extraAckedGain b
                         * Z.max (fst (m_extraAcked b)) (snd (m_extraAcked b))))
    as H2.
  assert (Hmax : std_max (fst (m_extraAcked b)) (snd (m_extraAcked b))
                 = Z.max (fst (m_extraAcked b)) (snd (m_extraAcked b))).
  { unfold std_max. destruct (fst (m_extraAcked b) <? snd (m_extraAcked b)) eqn:E;
      [apply Z.ltb_lt in E|apply Z.ltb_ge in E]; lia. }
  rewrite Hmax. change (10 * 8) with 80.
  destruct (m_extraAckedGain b =? 0) eqn:Eg; cbn [negb andb].
  - repeat split; intros; lia.
  - apply Z.eqb_neq in Eg. destruct (m_isPipeFilled b).
    + match goal with
      | |- context [std_min ?a ?c] =>
          pose proof (std_min_le_l a c); pose proof (std_min_le_r a c);
          assert (0 <= std_min a c) by (apply std_min_glb; lia)
      end.
      repeat split; intros; try discriminate; lia.
    + repeat split; intros; lia.
Qed.

End MinRttAndWindow.

Lemma UpdateRTprop_windowed_minimum_witness :
  m_minRtt (UpdateRTprop (set_tcb_lastRtt 20000000 tcb_example) 5 bbr_example)
  = 20000000.
Proof.
  apply (UpdateRTprop_windowed_minimum (set_tcb_lastRtt 20000000 tcb_example) 5
           bbr_example).
  vm_compute. split; discriminate.
Defined.

Lemma RestoreCwnd_after_SaveCwnd_witness :
  m_priorCwnd (SaveCwnd tcb_example bbr_example) = 14480.
Proof.
  apply (RestoreCwnd_after_SaveCwnd tcb_example tcb_example bbr_example);
    discriminate.
Defined.

Lemma SetCwnd_ProbeRTT_clamp_witness :
  tcb_cWnd (fst (SetCwnd tcb_example rs_one_segment (EnterProbeRTT bbr_example)))
  = 5792.
Proof.
  destruct (SetCwnd_ProbeRTT_clamp tcb_example rs_one_segment
              (EnterProbeRTT bbr_example)) as [H _].
  destruct (H eq_refl) as [_ H1]. rewrite H1.
  - reflexivity.
  - discriminate.
  - intros [Hc _]. discriminate Hc.
Defined.

Lemma SetCwnd_growth_witness :
  tcb_cWnd (fst (SetCwnd tcb_example rs_one_segment bbr_example)) <= 15928.
Proof.
  apply (SetCwnd_growth tcb_example rs_one_segment bbr_example);
    try discriminate.
Defined.

Lemma AckAggregationCwnd_bound_witness :
  AckAggregationCwnd bbr_example = 0.
Proof.
  exact (proj1 (proj2 (AckAggregationCwnd_bound bbr_example)) eq_refl).
Defined.


(** ** Congestion state changes *)

Section CongestionStates.
Context {L : Ns3Lib}.

Lemma InitPacingRate_effect (tcb : TcpSocketState) (b : TcpBbr) :
  let known := negb (tcb_minRtt tcb =? Time_Max) in
  let tcb' := fst (InitPacingRate tcb b) in
  let b' := snd (InitPacingRate tcb b) in
  tcb' = set_tcb_pacingRate (tcb_pacingRate tcb') (set_tcb_pacing true tcb)
  /\ b' = set_m_maxBwFilter (m_maxBwFilter b')
            (set_m_hasSeenRtt (m_hasSeenRtt b || known) b).
Proof.
  cbv zeta. unfold InitPacingRate.
  destruct (tcb_pacing tcb) eqn:Hp; cbn [negb].
  - destruct (tcb_minRtt tcb =? Time_Max); cbn [negb fst snd];
      rewrite ?orb_true_r, ?orb_false_r; split;
      destruct tcb, b; cbn in *; subst; reflexivity.
  - change (tcb_minRtt (set_tcb_pacing true tcb)) with (tcb_minRtt tcb).
    destruct (tcb_minRtt tcb =? Time_Max); cbn [negb fst snd];
      rewrite ?orb_true_r, ?orb_false_r; split;
      destruct tcb, b; cbn in *; subst; reflexivity.
Qed.

(** [InitPacingRate] turns pacing on, records that an RTT has been seen
    exactly when the connection's min-RTT is known, and rebuilds the
    bandwidth filter; in the control block it writes nothing but the pacing
    flag and the pacing rate, in the object nothing but the flag and the
    filter. *)
Theorem InitPacingRate_writes (tcb : TcpSocketState) (b : TcpBbr) :
  let tcb' := fst (InitPacingRate tcb b) in
  let b' := snd (InitPacingRate tcb b) in
  tcb_pacing tcb' = true
  /\ m_hasSeenRtt b' = (m_hasSeenRtt b || negb (tcb_minRtt tcb =? Time_Max))
  /\ tcb' = set_tcb_pacingRate (tcb_pacingRate tcb') (set_tcb_pacing true tcb)
  /\ b' = set_m_maxBwFilter (m_maxBwFilter b')
            (set_m_hasSeenRtt (m_hasSeenRtt b') b)
  /\ (tcb_minRtt tcb = Time_Max ->
      m_maxBwFilter b'
      = Filter_make (m_bandwidthWindowLength b)
          (double_to_u64
             (double_of_Z (u32 (tcb_cWnd tcb * 8))
              / Time_GetSeconds (MilliSeconds 1))%float) 0).
Proof.
  cbv zeta. destruct (InitPacingRate_effect tcb b) as [Ht Hb]. cbv zeta in Ht, Hb.
  assert (Hs : m_hasSeenRtt (snd (InitPacingRate tcb b))
               = (m_hasSeenRtt b || negb (tcb_minRtt tcb =? Time_Max))).
  { rewrite Hb. reflexivity. }
  split; [rewrite Ht; reflexivity|]. split; [exact Hs|].
  split; [exact Ht|]. split; [rewrite Hs; exact Hb|].
  intros Hm. unfold InitPacingRate. apply Z.eqb_eq in Hm.
  destruct (tcb_pacing tcb); cbn [negb];
    [|change (tcb_minRtt (set_tcb_pacing true tcb)) with (tcb_minRtt tcb)];
    rewrite Hm; reflexivity.
Qed.

(** The first [CongestionStateSet(CA_OPEN)] initialises the model: mode
    STARTUP with both gains at the high gain, latch and round counters
    cleared, the minimum pipe window at four segments and the send quantum
    at one segment (32-bit products), prior and target window at the current
    window, both extra-acked slots empty, the stamps at the current time and
    the min-RTT taken from the smoothed RTT.  In the control block it sets
    the slow-start threshold to its initial value and turns pacing on; the
    window is not changed. *)
Theorem CongestionStateSet_first_open (tcb : TcpSocketState) (now : Time)
  (b : TcpBbr) :
  m_isInitialized b = false ->
  let tcb' := fst (CongestionStateSet tcb CA_OPEN now b) in
  let b' := snd (CongestionStateSet tcb CA_OPEN now b) in
  m_isInitialized b' = true
  /\ m_state b' = BBR_STARTUP
  /\ m_pacingGain b' = m_highGain b /\ m_cWndGain b' = m_highGain b
  /\ m_isPipeFilled b' = false
  /\ m_fullBandwidth b' = 0 /\ m_fullBandwidthCount b' = 0
  /\ m_roundCount b' = 0 /\ m_roundStart b' = false
  /\ m_nextRoundDelivered b' = 0
  /\ m_minPipeCwnd b' = u32 (4 * tcb_segmentSize tcb)
  /\ m_sendQuantum b' = u32 (1 * tcb_segmentSize tcb)
  /\ m_priorCwnd b' = tcb_cWnd tcb /\ m_targetCWnd b' = tcb_cWnd tcb
  /\ m_extraAcked b' = (0, 0)
  /\ m_extraAckedIdx b' = 0 /\ m_extraAckedWinRtt b' = 0
  /\ m_ackEpochAcked b' = 0 /\ m_ackEpochTime b' = now
  /\ m_minRttStamp b' = now /\ m_minRtt b' = tcb_srtt tcb
  /\ m_hasSeenRtt b' = (m_hasSeenRtt b || negb (tcb_minRtt tcb =? Time_Max))
  /\ tcb_ssThresh tcb' = tcb_initialSsThresh tcb
  /\ tcb_pacing tcb' = true
  /\ tcb_cWnd tcb' = tcb_cWnd tcb.
Proof.
  intros Hi. cbv zeta. unfold CongestionStateSet. rewrite Hi.
  cbn [TcpCongState_eqb negb andb]. cbv zeta.
  assert (Hs : (if negb (tcb_srtt tcb =? Time_Max) then tcb_srtt tcb else Time_Max)
               = tcb_srtt tcb).
  { destruct (tcb_srtt tcb =? Time_Max) eqn:E; [|reflexivity].
    apply Z.eqb_eq in E. cbn [negb]. symmetry. exact E. }
  rewrite Hs.
  match goal with
  | |- context [InitPacingRate ?t ?x] =>
      destruct (InitPacingRate_effect t x) as [Ht Hb];
      cbv zeta in Ht, Hb;
      destruct (InitPacingRate t x) as [t1 b1]
  end.
  cbn [fst snd] in Ht, Hb |- *. rewrite Hb, Ht.
  repeat split.
Qed.

(** Once the object is initialised, [CongestionStateSet] with CA_OPEN,
    CA_DISORDER or CA_CWR changes neither the object nor the control block:
    the initialisation is not repeated. *)
Theorem CongestionStateSet_initialised_once (tcb : TcpSocketState)
  (newState : TcpCongState_t) (now : Time) (b : TcpBbr) :
  m_isInitialized b = true ->
  newState <> CA_LOSS -> newState <> CA_RECOVERY ->
  CongestionStateSet tcb newState now b = (tcb, b).
Proof.
  intros Hi Hl Hr. unfold CongestionStateSet. rewrite Hi, andb_false_r.
  destruct newState; cbn; congruence.
Qed.


End CongestionStates.

Lemma CongestionStateSet_first_open_witness :
  m_minPipeCwnd
    (snd (CongestionStateSet tcb_example CA_OPEN 0 (fst (TcpBbr_new [])))) = 5792.
Proof.
  destruct (CongestionStateSet_first_open tcb_example 0 (fst (TcpBbr_new []))
              eq_refl)
    as (_ & _ & _ & _ & _ & _ & _ & _ & _ & _ & H & _).
  rewrite H. reflexivity.
Defined.

Lemma CongestionStateSet_initialised_once_witness :
  CongestionStateSet tcb_example CA_OPEN 7 bbr_example = (tcb_example, bbr_example).
Proof.
  apply (CongestionStateSet_initialised_once tcb_example CA_OPEN 7 bbr_example);
    [reflexivity|discriminate|discriminate].
Defined.


Lemma InitPacingRate_writes_witness :
  m_maxBwFilter (snd (InitPacingRate tcb_example (fst (TcpBbr_new []))))
  = 115840000.
Proof.
  destruct (InitPacingRate_writes tcb_example (fst (TcpBbr_new [])))
    as (_ & _ & _ & _ & H).
  rewrite (H eq_refl). vm_compute. reflexivity.
Defined.

(** ** The ECN edges and the accumulators *)

Section EcnEdges.
Context {L : Ns3Lib}.

Lemma CeState0to1_effect (tcb : TcpSocketState) (b : TcpBbr) :
  tcb_rxNext (fst (CeState0to1 tcb b)) = tcb_rxNext tcb
  /\ tcb_sent (fst (CeState0to1 tcb b))
     = tcb_sent tcb
       ++ (if negb (m_ceState b) && m_delayedAckReserved b && m_priorRcvNxtFlag b
           then [(ACK, m_priorRcvNxt b)] else [])
  /\ tcb_ecnState (fst (CeState0to1 tcb b)) = ECN_CE_RCVD
  /\ m_ceState (snd (CeState0to1 tcb b)) = true
  /\ m_priorRcvNxt (snd (CeState0to1 tcb b)) = tcb_rxNext tcb
  /\ m_priorRcvNxtFlag (snd (CeState0to1 tcb b)) = true.
Proof.
  unfold CeState0to1. cbv zeta.
  destruct (negb (m_ceState b) && m_delayedAckReserved b && m_priorRcvNxtFlag b);
    destruct (m_priorRcvNxtFlag b) eqn:Hf; cbn; rewrite ?app_nil_r, ?Hf;
    repeat split.
Qed.

Lemma CeState1to0_effect (tcb : TcpSocketState) (b : TcpBbr) :
  tcb_rxNext (fst (CeState1to0 tcb b)) = tcb_rxNext tcb
  /\ tcb_sent (fst (CeState1to0 tcb b))
     = tcb_sent tcb
       ++ (if m_ceState b && m_delayedAckReserved b && m_priorRcvNxtFlag b
           then [(ACK_ECE, m_priorRcvNxt b)] else [])
  /\ tcb_ecnState (fst (CeState1to0 tcb b))
     = (match tcb_ecnState tcb with
        | ECN_CE_RCVD | ECN_SENDING_ECE => ECN_IDLE
        | s => s
        end)
  /\ m_ceState (snd (CeState1to0 tcb b)) = false
  /\ m_priorRcvNxt (snd (CeState1to0 tcb b)) = tcb_rxNext tcb
  /\ m_priorRcvNxtFlag (snd (CeState1to0 tcb b)) = true.
Proof.
  unfold CeState1to0. cbv zeta.
  destruct (m_ceState b && m_delayedAckReserved b && m_priorRcvNxtFlag b);
    destruct (m_priorRcvNxtFlag b) eqn:Hf; destruct (tcb_ecnState tcb) eqn:E;
    cbn; rewrite ?E; cbn; rewrite ?app_nil_r, ?Hf; repeat split;
    assumption.
Qed.

(** The handlers of the CE edges.  Each leaves the receive sequence of the
    control block as it found it.  On a real edge (the CE state changes)
    with a delayed ACK pending and a recorded boundary, it first sends one
    empty packet at the recorded boundary: a plain ACK before the state
    becomes CE, an ACK with ECE before it stops being CE.  Otherwise it
    sends nothing.  Afterwards the recorded boundary is the current receive
    sequence and the CE state is the new one. *)
Theorem CeState_edges (tcb : TcpSocketState) (b : TcpBbr) :
  let edge01 := negb (m_ceState b) && m_delayedAckReserved b && m_priorRcvNxtFlag b in
  let edge10 := m_ceState b && m_delayedAckReserved b && m_priorRcvNxtFlag b in
  (tcb_rxNext (fst (CeState0to1 tcb b)) = tcb_rxNext tcb
   /\ tcb_sent (fst (CeState0to1 tcb b))
      = tcb_sent tcb ++ (if edge01 then [(ACK, m_priorRcvNxt b)] else [])
   /\ tcb_ecnState (fst (CeState0to1 tcb b)) = ECN_CE_RCVD
   /\ m_ceState (snd (CeState0to1 tcb b)) = true
   /\ m_priorRcvNxt (snd (CeState0to1 tcb b)) = tcb_rxNext tcb
   /\ m_priorRcvNxtFlag (snd (CeState0to1 tcb b)) = true)
  /\ (tcb_rxNext (fst (CeState1to0 tcb b)) = tcb_rxNext tcb
      /\ tcb_sent (fst (CeState1to0 tcb b))
         = tcb_sent tcb ++ (if edge10 then [(ACK_ECE, m_priorRcvNxt b)] else [])
      /\ tcb_ecnState (fst (CeState1to0 tcb b))
         = (match tcb_ecnState tcb with
            | ECN_CE_RCVD | ECN_SENDING_ECE => ECN_IDLE
            | s => s
            end)
      /\ m_ceState (snd (CeState1to0 tcb b)) = false
      /\ m_priorRcvNxt (snd (CeState1to0 tcb b)) = tcb_rxNext tcb
      /\ m_priorRcvNxtFlag (snd (CeState1to0 tcb b)) = true).
Proof.
  cbv zeta. split.
  - apply CeState0to1_effect.
  - apply CeState1to0_effect.
Qed.

(** A CE edge reported twice sends nothing the second time, whatever the
    socket did to the control block in between; and the ACK with ECE sent on
    the falling edge carries the receive sequence recorded on the rising
    edge. *)
Theorem CE_replay_once (tcb tcb2 : TcpSocketState) (now now2 : Time)
  (h h2 : UvStore) (b : TcpBbr) :
  let b1 := snd (CwndEvent tcb CA_EVENT_ECN_IS_CE now h b) in
  tcb_sent (snd (fst (CwndEvent tcb2 CA_EVENT_ECN_IS_CE now2 h2 b1)))
  = tcb_sent tcb2
  /\ tcb_sent (snd (fst (CwndEvent tcb2 CA_EVENT_ECN_NO_CE now2 h2 b1)))
     = tcb_sent tcb2
       ++ (if m_delayedAckReserved b then [(ACK_ECE, tcb_rxNext tcb)] else [])
  /\ tcb_rxNext (snd (fst (CwndEvent tcb2 CA_EVENT_ECN_NO_CE now2 h2 b1)))
     = tcb_rxNext tcb2.
Proof.
  cbv zeta. cbn [CwndEvent].
  destruct (CeState0to1_effect tcb b) as (_ & _ & _ & Hc & Hn & Hf).
  destruct (CeState0to1 tcb b) as [t1 b1] eqn:E1. cbn [fst snd] in *.
  assert (Hd : m_delayedAckReserved b1 = m_delayedAckReserved b).
  { replace b1 with (snd (CeState0to1 tcb b)) by (rewrite E1; reflexivity).
    unfold CeState0to1. cbv zeta.
    destruct (m_priorRcvNxtFlag b); reflexivity. }
  destruct (CeState0to1_effect tcb2 b1) as (_ & Hs0 & _).
  destruct (CeState1to0_effect tcb2 b1) as (Hr1 & Hs1 & _).
  destruct (CeState0to1 tcb2 b1) as [t2 b2].
  destruct (CeState1to0 tcb2 b1) as [t3 b3]. cbn [fst snd] in *.
  rewrite Hc, Hf, Hd, Hn in *. cbn [negb andb] in *.
  rewrite app_nil_r in Hs0. rewrite andb_true_r in Hs1.
  repeat split; assumption.
Qed.

Lemma PktsAcked_accumulators (tcb : TcpSocketState) (segmentsAcked : Z)
  (rtt : Time) (b : TcpBbr) :
  let boundary := if m_nextSeqFlag b then m_nextSeq b else tcb_nextTxSequence tcb in
  let bytes := u32 (segmentsAcked * tcb_segmentSize tcb) in
  let reached := SequenceNumber32_geq (tcb_lastAckedSeq tcb) boundary in
  m_ackedBytesTotal (fst (PktsAcked tcb segmentsAcked rtt b))
  = (if reached then 0 else u32 (m_ackedBytesTotal b + bytes))
  /\ m_ackedBytesEcn (fst (PktsAcked tcb segmentsAcked rtt b))
     = (if reached then 0
        else if EcnState_eqb (tcb_ecnState tcb) ECN_ECE_RCVD
             then u32 (m_ackedBytesEcn b + bytes) else m_ackedBytesEcn b)
  /\ m_nextSeq (fst (PktsAcked tcb segmentsAcked rtt b))
     = (if reached then tcb_nextTxSequence tcb else boundary)
  /\ m_nextSeqFlag (fst (PktsAcked tcb segmentsAcked rtt b)) = true
  /\ (reached = false ->
      m_alpha (fst (PktsAcked tcb segmentsAcked rtt b)) = m_alpha b
      /\ snd (PktsAcked tcb segmentsAcked rtt b) = None).
Proof.
  cbv zeta. unfold PktsAcked, Reset.
  destruct (EcnState_eqb (tcb_ecnState tcb) ECN_ECE_RCVD);
    destruct (EcnCodePoint_eqb (tcb_ectCodePoint tcb) Ect0);
    destruct (EcnCodePoint_eqb (tcb_ectCodePoint tcb) Ect1);
    cbn -[u32 Z.add Z.mul Z.ltb];
    destruct (m_nextSeqFlag b) eqn:Hflag;
    cbn -[u32 Z.add Z.mul Z.ltb];
    match goal with
    | |- context [SequenceNumber32_geq ?x ?y] =>
        destruct (SequenceNumber32_geq x y)
    end; cbn -[u32 Z.add Z.mul Z.ltb];
    repeat split; try discriminate; try exact Hflag.
Qed.

(** [PktsAcked] between two window boundaries: the estimate and the boundary
    stay, nothing is traced and the total grows by the acked bytes.  At any
    time the marked bytes stay at or below the total bytes of the window, as
    long as the total does not pass 32 bits. *)
Theorem PktsAcked_marked_at_most_total (tcb : TcpSocketState)
  (segmentsAcked : Z) (rtt : Time) (b : TcpBbr) :
  0 <= m_ackedBytesEcn b <= m_ackedBytesTotal b ->
  0 <= segmentsAcked * tcb_segmentSize tcb ->
  m_ackedBytesTotal b + segmentsAcked * tcb_segmentSize tcb < 2 ^ 32 ->
  let b' := fst (PktsAcked tcb segmentsAcked rtt b) in
  0 <= m_ackedBytesEcn b' <= m_ackedBytesTotal b'
  /\ (SequenceNumber32_geq (tcb_lastAckedSeq tcb)
        (if m_nextSeqFlag b then m_nextSeq b else tcb_nextTxSequence tcb) = false ->
      m_ackedBytesTotal b'
      = m_ackedBytesTotal b + segmentsAcked * tcb_segmentSize tcb
      /\ m_alpha b' = m_alpha b
      /\ snd (PktsAcked tcb segmentsAcked rtt b) = None).
Proof.
  intros Hm H0 Hn. cbv zeta.
  destruct (PktsAcked_accumulators tcb segmentsAcked rtt b)
    as (Ht & He & _ & _ & Hnone).
  cbv zeta in Ht, He, Hnone. rewrite Ht, He.
  rewrite (u32_small (segmentsAcked * tcb_segmentSize tcb)) in * by lia.
  rewrite (u32_small (m_ackedBytesTotal b + segmentsAcked * tcb_segmentSize tcb))
    in * by lia.
  destruct (SequenceNumber32_geq (tcb_lastAckedSeq tcb)
              (if m_nextSeqFlag b then m_nextSeq b else tcb_nextTxSequence tcb)).
  - split; [lia|intros; discriminate].
  - split.
    + destruct (EcnState_eqb (tcb_ecnState tcb) ECN_ECE_RCVD);
        rewrite ?u32_small by lia; lia.
    + intros _. split; [reflexivity|apply Hnone; reflexivity].
Qed.

End EcnEdges.

Lemma PktsAcked_marked_at_most_total_witness :
  0 <= m_ackedBytesEcn (fst (PktsAcked tcb_marked 1 10000000 bbr_marked))
    <= m_ackedBytesTotal (fst (PktsAcked tcb_marked 1 10000000 bbr_marked)).
Proof.
  apply (PktsAcked_marked_at_most_total tcb_marked 1 10000000 bbr_marked).
  - change (0 <= 0 <= 0). lia.
  - change (0 <= 1448). lia.
  - change (0 + 1448 < 2 ^ 32). lia.
Defined.

(** ** Pacing, gain cycling and PROBE_RTT *)

Section PacingAndProbes.
Context {L : Ns3Lib}.

(** The rate [SetPacingRate] computes before it looks at the control block. *)
Definition SetPacingRate_rate (tcb : TcpSocketState) (gain : float) (b : TcpBbr)
  : DataRate :=
  std_min
    (DataRate_mul_double
       (double_to_u64
          (gain * double_of_Z (GetBitRate (Filter_GetBest (m_maxBwFilter b))))%float)
       (1 - m_pacingMargin b)%float)
    (tcb_maxPacingRate tcb).

Lemma InitPacingRate_isPipeFilled (tcb : TcpSocketState) (b : TcpBbr) :
  m_isPipeFilled (snd (InitPacingRate tcb b)) = m_isPipeFilled b.
Proof.
  destruct (InitPacingRate_effect tcb b) as [_ Hb]. cbv zeta in Hb.
  rewrite Hb. reflexivity.
Qed.

(** [SetPacingRate]: the computed rate never exceeds the maximum pacing rate
    of the connection.  Once the pipe is filled the pacing rate is set to
    the computed rate, up or down.  Before that, and with an RTT already
    seen, the pacing rate only ratchets up: it becomes the larger of the old
    rate and the computed one, and the object is left as it was. *)
Theorem SetPacingRate_ratchet (tcb : TcpSocketState) (gain : float) (b : TcpBbr) :
  let rate := SetPacingRate_rate tcb gain b in
  let tcb' := fst (SetPacingRate tcb gain b) in
  rate <= tcb_maxPacingRate tcb
  /\ (m_isPipeFilled b = true -> tcb_pacingRate tcb' = rate)
  /\ (m_hasSeenRtt b = true -> m_isPipeFilled b = false ->
      tcb_pacingRate tcb' = Z.max (tcb_pacingRate tcb) rate
      /\ snd (SetPacingRate tcb gain b) = b).
Proof.
  cbv zeta. split; [apply std_min_le_r|]. split.
  - intros Hf. unfold SetPacingRate. cbv zeta.
    fold (SetPacingRate_rate tcb gain b).
    destruct (negb (m_hasSeenRtt b) && negb (tcb_minRtt tcb =? Time_Max)).
    + pose proof (InitPacingRate_isPipeFilled tcb b) as Hi.
      destruct (InitPacingRate tcb b) as [t b1]. cbn [snd] in Hi.
      cbv beta iota. rewrite Hi, Hf. reflexivity.
    + cbv beta iota. rewrite Hf. reflexivity.
  - intros Hs Hf. unfold SetPacingRate. cbv zeta.
    fold (SetPacingRate_rate tcb gain b).
    rewrite Hs. cbn [negb andb]. cbv beta iota. rewrite Hf. cbn [orb].
    destruct (tcb_pacingRate tcb <? SetPacingRate_rate tcb gain b) eqn:E;
      cbn [fst snd tcb_pacingRate set_tcb_pacingRate]; split; try reflexivity.
    + apply Z.ltb_lt in E. lia.
    + apply Z.ltb_ge in E. lia.
Qed.

(** [CheckCyclePhase] outside PROBE_BW does nothing.  In PROBE_BW a phase
    whose gain is 1 or above is never left before more than one min-RTT has
    passed since the phase began; a phase whose gain is not above 1 is
    always left once that time has passed; and leaving a phase stamps it
    with the current time. *)
Theorem CheckCyclePhase_guard (tcb : TcpSocketState) (rs : TcpRateSample)
  (now : Time) (b : TcpBbr) :
  (m_state b <> BBR_PROBE_BW -> CheckCyclePhase tcb rs now b = b)
  /\ (now - m_cycleStamp b <= m_minRtt b ->
      ((m_pacingGain b =? 1) || (1 <? m_pacingGain b))%float = true ->
      CheckCyclePhase tcb rs now b = b)
  /\ (m_state b = BBR_PROBE_BW -> m_minRtt b < now - m_cycleStamp b ->
      (1 <? m_pacingGain b)%float = false ->
      CheckCyclePhase tcb rs now b = AdvanceCyclePhase now b)
  /\ (CheckCyclePhase tcb rs now b <> b ->
      m_state b = BBR_PROBE_BW
      /\ m_cycleStamp (CheckCyclePhase tcb rs now b) = now).
Proof.
  unfold CheckCyclePhase, IsNextCyclePhase. cbv zeta.
  split; [|split; [|split]].
  - intros Hs. destruct (BbrMode_eqb (m_state b) BBR_PROBE_BW) eqn:E;
      [apply BbrMode_eqb_eq in E; contradiction|reflexivity].
  - intros Ht Hg. apply Z.ltb_ge in Ht. rewrite Ht.
    destruct (m_pacingGain b =? 1)%float;
      [rewrite andb_false_r; reflexivity|].
    cbn [orb] in Hg. rewrite Hg. cbn [andb]. rewrite andb_false_r. reflexivity.
  - intros Hs Ht Hg. apply BbrMode_eqb_eq in Hs. apply Z.ltb_lt in Ht.
    rewrite Hs, Ht, Hg. cbn [andb orb].
    destruct (m_pacingGain b =? 1)%float; reflexivity.
  - intros Hc.
    destruct (BbrMode_eqb (m_state b) BBR_PROBE_BW) eqn:E;
      [|cbn [andb] in Hc; contradiction].
    apply BbrMode_eqb_eq in E. split; [exact E|].
    cbn [andb] in *.
    match goal with
    | |- context [if ?c then _ else _] => destruct c
    end; [reflexivity|contradiction].
Qed.

Lemma ExitProbeRTT_effect (now : Time) (h : UvStore) (b : TcpBbr) :
  m_minRttStamp (snd (ExitProbeRTT now h b)) = m_minRttStamp b
  /\ m_state (snd (ExitProbeRTT now h b))
     = (if m_isPipeFilled b then BBR_PROBE_BW else BBR_STARTUP).
Proof.
  unfold ExitProbeRTT, EnterProbeBW. destruct (m_isPipeFilled b).
  - cbn [m_uv SetBbrState set_m_state set_m_pacingGain set_m_cWndGain].
    destruct (Urv_GetValue (uv_read h (m_uv b)) 0%float 6%float) as [x rv].
    split; reflexivity.
  - split; reflexivity.
Qed.

(** [HandleProbeRTT] leaves PROBE_RTT only when the done stamp is set and
    passed and a round has started since it was set (now or before); it then
    restores the window to the larger of the saved and the current one,
    restarts the min-RTT window at the current time, and goes to PROBE_BW if
    the pipe is filled and to STARTUP if not. *)
Theorem HandleProbeRTT_exit (tcb : TcpSocketState) (now : Time) (h : UvStore)
  (b : TcpBbr) :
  m_state b = BBR_PROBE_RTT ->
  let r := HandleProbeRTT tcb now h b in
  m_state (snd r) <> BBR_PROBE_RTT ->
  m_probeRttDoneStamp b <> 0
  /\ m_probeRttDoneStamp b < now
  /\ (m_roundStart b = true \/ m_probeRttRoundDone b = true)
  /\ tcb_cWnd (snd (fst r)) = std_max (m_priorCwnd b) (tcb_cWnd tcb)
  /\ m_minRttStamp (snd r) = now
  /\ m_state (snd r) = (if m_isPipeFilled b then BBR_PROBE_BW else BBR_STARTUP).
Proof.
  intros Hs. cbv zeta.
  assert (Hx : forall b1, m_minRttStamp b1 = now -> m_priorCwnd b1 = m_priorCwnd b ->
            m_isPipeFilled b1 = m_isPipeFilled b ->
            let r := (let '(h1, b2) := ExitProbeRTT now h b1 in
                      (h1, RestoreCwnd tcb b1, b2)) in
            tcb_cWnd (snd (fst r)) = std_max (m_priorCwnd b) (tcb_cWnd tcb)
            /\ m_minRttStamp (snd r) = now
            /\ m_state (snd r)
               = (if m_isPipeFilled b then BBR_PROBE_BW else BBR_STARTUP)).
  { intros b1 H1 H2 H3. cbv zeta.
    destruct (ExitProbeRTT_effect now h b1) as [Ha Hb].
    destruct (ExitProbeRTT now h b1) as [h1 b2]. cbn [fst snd] in *.
    rewrite Ha, Hb, H1, H3. unfold RestoreCwnd. rewrite H2.
    repeat split. }
  unfold HandleProbeRTT, Time_IsZero. cbv zeta.
  set (b0 := set_m_appLimited _ b).
  change (m_probeRttDoneStamp b0) with (m_probeRttDoneStamp b).
  change (m_roundStart b0) with (m_roundStart b).
  destruct (m_probeRttDoneStamp b =? 0) eqn:Ez; cbn [negb andb].
  - destruct (tcb_bytesInFlight tcb <=? m_minPipeCwnd b0); cbn [fst snd];
      intros Hn; exfalso; apply Hn; exact Hs.
  - apply Z.eqb_neq in Ez.
    destruct (m_roundStart b) eqn:Hr.
    + change (m_probeRttRoundDone (set_m_probeRttRoundDone true b0)) with true.
      change (m_probeRttDoneStamp (set_m_probeRttRoundDone true b0))
        with (m_probeRttDoneStamp b).
      cbn [andb].
      destruct (m_probeRttDoneStamp b <? now) eqn:Et.
      * apply Z.ltb_lt in Et. intros _.
        split; [exact Ez|]. split; [exact Et|]. split; [left; reflexivity|].
        apply Hx; reflexivity.
      * cbn [fst snd]. intros Hn; exfalso; apply Hn; exact Hs.
    + change (m_probeRttRoundDone b0) with (m_probeRttRoundDone b).
      change (m_probeRttDoneStamp b0) with (m_probeRttDoneStamp b).
      destruct (m_probeRttRoundDone b) eqn:Hd; cbn [andb].
      * destruct (m_probeRttDoneStamp b <? now) eqn:Et.
        -- apply Z.ltb_lt in Et. intros _.
           split; [exact Ez|]. split; [exact Et|]. split; [right; reflexivity|].
           apply Hx; reflexivity.
        -- cbn [fst snd]. intros Hn; exfalso; apply Hn; exact Hs.
      * cbn [fst snd]. intros Hn; exfalso; apply Hn; exact Hs.
Qed.

(** [CheckProbeRTT] enters PROBE_RTT when the min-RTT window has expired
    outside an idle restart: the mode becomes PROBE_RTT with both gains at
    1, and, the mode being set before the window is saved, the saved window
    is the larger of the one saved before and the current one, whatever the
    congestion state.  The same call cannot leave PROBE_RTT again: it arms
    the done stamp if the bytes in flight are within the minimum pipe window
    and leaves it at zero otherwise, and the control block and the store of
    random variables are untouched. *)
Theorem CheckProbeRTT_enters (tcb : TcpSocketState) (rs : TcpRateSample)
  (now : Time) (h : UvStore) (b : TcpBbr) :
  m_state b <> BBR_PROBE_RTT ->
  m_minRttExpired b = true ->
  m_idleRestart b = false ->
  let r := CheckProbeRTT tcb rs now h b in
  m_state (snd r) = BBR_PROBE_RTT
  /\ m_pacingGain (snd r) = 1%float /\ m_cWndGain (snd r) = 1%float
  /\ m_priorCwnd (snd r) = std_max (m_priorCwnd b) (tcb_cWnd tcb)
  /\ m_probeRttDoneStamp (snd r)
     = (if tcb_bytesInFlight tcb <=? m_minPipeCwnd b
        then now + m_probeRttDuration b else 0)
  /\ 0 < m_appLimited (snd r)
  /\ fst r = (h, tcb).
Proof.
  intros Hs He Hi. cbv zeta.
  assert (Hm : BbrMode_eqb (m_state b) BBR_PROBE_RTT = false).
  { destruct (BbrMode_eqb (m_state b) BBR_PROBE_RTT) eqn:E; [|reflexivity].
    apply BbrMode_eqb_eq in E. contradiction. }
  unfold CheckProbeRTT. rewrite Hm, He, Hi. cbn [negb andb]. cbv zeta.
  unfold SaveCwnd.
  change (BbrMode_eqb (m_state (EnterProbeRTT b)) BBR_PROBE_RTT) with true.
  rewrite andb_false_r.
  change (m_priorCwnd (EnterProbeRTT b)) with (m_priorCwnd b).
  set (b1 := set_m_probeRttDoneStamp _ _).
  change (BbrMode_eqb (m_state b1) BBR_PROBE_RTT) with true. cbv iota.
  unfold HandleProbeRTT. cbv zeta.
  set (total := u32 (u64 (m_delivered b1 + tcb_bytesInFlight tcb))).
  assert (Hpos : 0 < (if 0 <? total then total else 1)).
  { destruct (0 <? total) eqn:E; [apply Z.ltb_lt in E; exact E|lia]. }
  set (b2 := set_m_appLimited _ b1).
  change (Time_IsZero (m_probeRttDoneStamp b2)) with true.
  change (m_minPipeCwnd b2) with (m_minPipeCwnd b).
  cbn [negb andb].
  destruct (tcb_bytesInFlight tcb <=? m_minPipeCwnd b);
    destruct (negb (rs_delivered rs =? 0));
    cbn [fst snd]; repeat split; exact Hpos.
Qed.

End PacingAndProbes.

(** ** The window floor over a whole ACK *)

Section FloorPerAck.
Context {L : Ns3Lib}.

Lemma EnterProbeBW_minPipeCwnd now h b :
  m_minPipeCwnd (snd (EnterProbeBW now h b)) = m_minPipeCwnd b.
Proof.
  unfold EnterProbeBW.
  cbn [m_uv SetBbrState set_m_state set_m_pacingGain set_m_cWndGain].
  destruct (Urv_GetValue (uv_read h (m_uv b)) 0%float 6%float) as [x rv].
  reflexivity.
Qed.

Lemma ExitProbeRTT_minPipeCwnd now h b :
  m_minPipeCwnd (snd (ExitProbeRTT now h b)) = m_minPipeCwnd b.
Proof.
  unfold ExitProbeRTT. destruct (m_isPipeFilled b);
    [apply EnterProbeBW_minPipeCwnd|reflexivity].
Qed.

Lemma CheckDrain_keeps tcb now h b :
  m_minPipeCwnd (snd (CheckDrain tcb now h b)) = m_minPipeCwnd b
  /\ tcb_congState (snd (fst (CheckDrain tcb now h b))) = tcb_congState tcb.
Proof.
  unfold CheckDrain.
  destruct (BbrMode_eqb (m_state b) BBR_STARTUP && m_isPipeFilled b);
    cbv beta iota;
    match goal with
    | |- context [if ?c then _ else _] => destruct c
    end;
    try (split; reflexivity).
  - pose proof (EnterProbeBW_minPipeCwnd now h (EnterDrain b)) as H.
    destruct (EnterProbeBW now h (EnterDrain b)) as [h1 b1].
    cbn [fst snd] in *. split; [exact H|reflexivity].
  - pose proof (EnterProbeBW_minPipeCwnd now h b) as H.
    destruct (EnterProbeBW now h b) as [h1 b1].
    cbn [fst snd] in *. split; [exact H|reflexivity].
Qed.

Lemma HandleProbeRTT_keeps tcb now h b :
  m_minPipeCwnd (snd (HandleProbeRTT tcb now h b)) = m_minPipeCwnd b
  /\ tcb_congState (snd (fst (HandleProbeRTT tcb now h b))) = tcb_congState tcb.
Proof.
  unfold HandleProbeRTT. cbv zeta.
  set (b0 := set_m_appLimited _ b).
  destruct (Time_IsZero (m_probeRttDoneStamp b0)
            && (tcb_bytesInFlight tcb <=? m_minPipeCwnd b0));
    [split; reflexivity|].
  destruct (negb (Time_IsZero (m_probeRttDoneStamp b0))); [|split; reflexivity].
  match goal with
  | |- context [if m_roundStart b0 then ?X else b0] =>
      set (b1 := if m_roundStart b0 then X else b0)
  end.
  assert (H1 : m_minPipeCwnd b1 = m_minPipeCwnd b).
  { unfold b1. destruct (m_roundStart b0); reflexivity. }
  clearbody b1.
  destruct (m_probeRttRoundDone b1 && (m_probeRttDoneStamp b1 <? now));
    [|split; [exact H1|reflexivity]].
  pose proof (ExitProbeRTT_minPipeCwnd now h (set_m_minRttStamp now b1)) as H.
  destruct (ExitProbeRTT now h (set_m_minRttStamp now b1)) as [h1 b2].
  cbn [fst snd] in *. split; [rewrite H; exact H1|reflexivity].
Qed.

Lemma CheckProbeRTT_keeps tcb rs now h b :
  m_minPipeCwnd (snd (CheckProbeRTT tcb rs now h b)) = m_minPipeCwnd b
  /\ tcb_congState (snd (fst (CheckProbeRTT tcb rs now h b))) = tcb_congState tcb.
Proof.
  unfold CheckProbeRTT. cbv zeta.
  match goal with
  | |- context [if ?c then ?X else b] => set (b0 := if c then X else b)
  end.
  assert (H0 : m_minPipeCwnd b0 = m_minPipeCwnd b).
  { unfold b0, SaveCwnd.
    repeat match goal with
           | |- context [if ?c then _ else _] => destruct c
           end; reflexivity. }
  clearbody b0.
  destruct (BbrMode_eqb (m_state b0) BBR_PROBE_RTT).
  - destruct (HandleProbeRTT_keeps tcb now h b0) as [Hb Ht].
    destruct (HandleProbeRTT tcb now h b0) as [[h1 t1] b1]. cbn [fst snd] in *.
    destruct (negb (rs_delivered rs =? 0)); cbn [fst snd];
      (split; [|exact Ht]);
      change (m_minPipeCwnd b1 = m_minPipeCwnd b); congruence.
  - cbv beta iota.
    destruct (negb (rs_delivered rs =? 0)); cbn [fst snd];
      (split; [exact H0|reflexivity]).
Qed.

Lemma UpdateModelAndState_keeps tcb rs now h b :
  m_minPipeCwnd (snd (UpdateModelAndState tcb rs now h b)) = m_minPipeCwnd b
  /\ tcb_congState (snd (fst (UpdateModelAndState tcb rs now h b)))
     = tcb_congState tcb.
Proof.
  unfold UpdateModelAndState. cbv zeta.
  set (b1 := CheckFullPipe rs _).
  assert (H1 : m_minPipeCwnd b1 = m_minPipeCwnd b).
  { unfold b1.
    transitivity (m_minPipeCwnd
                    (CheckCyclePhase tcb rs now
                       (UpdateAckAggregation tcb rs now
                          (UpdateBottleneckBandwidth rs b)))).
    { unfold CheckFullPipe. frame. }
    transitivity (m_minPipeCwnd
                    (UpdateAckAggregation tcb rs now
                       (UpdateBottleneckBandwidth rs b))).
    { unfold CheckCyclePhase, AdvanceCyclePhase. frame. }
    transitivity (m_minPipeCwnd (UpdateBottleneckBandwidth rs b)).
    { unfold UpdateAckAggregation. frame. }
    unfold UpdateBottleneckBandwidth, UpdateRound. frame. }
  clearbody b1.
  destruct (CheckDrain_keeps tcb now h b1) as [Hb Ht].
  destruct (CheckDrain tcb now h b1) as [[h2 t2] b2]. cbn [fst snd] in Hb, Ht.
  destruct (CheckProbeRTT_keeps t2 rs now h2 (UpdateRTprop t2 now b2)) as [Hb3 Ht3].
  rewrite Hb3, Ht3. split; [|exact Ht].
  rewrite <- H1, <- Hb. unfold UpdateRTprop. frame.
Qed.

Lemma SetPacingRate_keeps tcb gain b :
  m_minPipeCwnd (snd (SetPacingRate tcb gain b)) = m_minPipeCwnd b
  /\ tcb_congState (fst (SetPacingRate tcb gain b)) = tcb_congState tcb.
Proof.
  unfold SetPacingRate. cbv zeta.
  destruct (negb (m_hasSeenRtt b) && negb (tcb_minRtt tcb =? Time_Max)).
  - destruct (InitPacingRate_effect tcb b) as [Ht Hb]. cbv zeta in Ht, Hb.
    destruct (InitPacingRate tcb b) as [t1 b1]. cbn [fst snd] in *.
    match goal with
    | |- context [if ?c then _ else _] => destruct c
    end; cbn [fst snd]; rewrite Hb, Ht; split; reflexivity.
  - cbv beta iota.
    match goal with
    | |- context [if ?c then _ else _] => destruct c
    end; split; reflexivity.
Qed.

Lemma SetCwnd_floor_open tcb rs b :
  rs_ackedSacked rs <> 0 ->
  tcb_congState tcb <> CA_RECOVERY ->
  m_minPipeCwnd b <= tcb_cWnd (fst (SetCwnd tcb rs b)).
Proof.
  intros Hack Hc. apply Z.eqb_neq in Hack. unfold SetCwnd. rewrite Hack.
  destruct (TcpCongState_eqb (tcb_congState tcb) CA_RECOVERY) eqn:E;
    [apply TcpCongState_eqb_eq in E; contradiction|].
  cbv beta iota zeta. cbn [fst].
  change (m_minPipeCwnd b) with (m_minPipeCwnd (UpdateTargetCwnd tcb b)).
  apply ModulateCwndForProbeRTT_floor.
  cbn [tcb_cWnd set_tcb_cWnd]. apply std_max_ge_r.
Qed.

(** Over a whole [CongControl], for a sample with a non-zero acked count on
    a connection that is not in RECOVERY: no step before [SetCwnd] touches
    the congestion state or the minimum pipe window, so the window the call
    leaves is at or above the minimum pipe window, whatever mode changes
    (DRAIN, PROBE_BW, entering or leaving PROBE_RTT) the call went through. *)
Theorem CongControl_floor (tcb : TcpSocketState) (rc : TcpRateConnection)
  (rs : TcpRateSample) (now : Time) (h : UvStore) (b : TcpBbr) :
  rs_ackedSacked rs <> 0 ->
  tcb_congState tcb <> CA_RECOVERY ->
  let r := CongControl tcb rc rs now h b in
  m_minPipeCwnd (snd r) = m_minPipeCwnd b
  /\ tcb_congState (snd (fst r)) = tcb_congState tcb
  /\ m_minPipeCwnd b <= tcb_cWnd (snd (fst r)).
Proof.
  intros Hack Hc. cbv zeta. unfold CongControl, UpdateControlParameters. cbv zeta.
  destruct (UpdateModelAndState_keeps tcb rs now h
              (set_m_delivered (rc_delivered rc) b)) as [Hb1 Ht1].
  destruct (UpdateModelAndState tcb rs now h (set_m_delivered (rc_delivered rc) b))
    as [[h1 t1] b1].
  cbn [fst snd] in Hb1, Ht1.
  change (m_minPipeCwnd (set_m_delivered (rc_delivered rc) b))
    with (m_minPipeCwnd b) in Hb1.
  destruct (SetPacingRate_keeps t1 (m_pacingGain b1) b1) as [Hb2 Ht2].
  destruct (SetPacingRate t1 (m_pacingGain b1) b1) as [t2 b2].
  cbn [fst snd] in Hb2, Ht2.
  pose proof (SetCwnd_keeps_minPipeCwnd t2 rs (SetSendQuantum t2 b2)) as Hb3.
  change (m_minPipeCwnd (SetSendQuantum t2 b2)) with (m_minPipeCwnd b2) in Hb3.
  assert (Hc2 : tcb_congState t2 <> CA_RECOVERY) by congruence.
  pose proof (SetCwnd_floor_open t2 rs (SetSendQuantum t2 b2) Hack Hc2) as Hfl.
  change (m_minPipeCwnd (SetSendQuantum t2 b2)) with (m_minPipeCwnd b2) in Hfl.
  assert (Hcs : tcb_congState (fst (SetCwnd t2 rs (SetSendQuantum t2 b2)))
                = tcb_congState t2).
  { unfold SetCwnd, ModulateCwndForProbeRTT, ModulateCwndForRecovery.
    repeat match goal with
           | |- context [if ?c then _ else _] => destruct c
           end; reflexivity. }
  destruct (SetCwnd t2 rs (SetSendQuantum t2 b2)) as [t3 b3].
  cbn [fst snd] in *.
  split; [congruence|]. split; [congruence|]. lia.
Qed.

End FloorPerAck.

Lemma SetPacingRate_ratchet_witness :
  tcb_pacingRate
    (fst (SetPacingRate tcb_example 1%float (set_m_hasSeenRtt true bbr_example)))
  = Z.max (tcb_pacingRate tcb_example)
      (SetPacingRate_rate tcb_example 1%float (set_m_hasSeenRtt true bbr_example)).
Proof.
  exact (proj1 (proj2 (proj2 (SetPacingRate_ratchet tcb_example 1%float
                                (set_m_hasSeenRtt true bbr_example)))
                 eq_refl eq_refl)).
Defined.

Lemma CheckCyclePhase_guard_witness :
  CheckCyclePhase tcb_example rs_one_segment 20000000
    (set_m_minRtt 10000000 bbr_probe_bw)
  = AdvanceCyclePhase 20000000 (set_m_minRtt 10000000 bbr_probe_bw).
Proof.
  apply (proj1 (proj2 (proj2 (CheckCyclePhase_guard tcb_example rs_one_segment
                                20000000 (set_m_minRtt 10000000 bbr_probe_bw))))).
  - reflexivity.
  - reflexivity.
  - reflexivity.
Defined.

(** The object in PROBE_RTT with the done stamp at 5 and a round started. *)
Definition bbr_probe_rtt : TcpBbr :=
  set_m_roundStart true (set_m_probeRttDoneStamp 5 (EnterProbeRTT bbr_example)).

Lemma HandleProbeRTT_exit_witness :
  m_minRttStamp (snd (HandleProbeRTT tcb_example 10 uv_example bbr_probe_rtt)) = 10.
Proof.
  apply (HandleProbeRTT_exit tcb_example 10 uv_example bbr_probe_rtt).
  - reflexivity.
  - vm_compute. discriminate.
Defined.

Lemma CheckProbeRTT_enters_witness :
  m_state
    (snd (CheckProbeRTT tcb_example rs_one_segment 10 uv_example
            (set_m_minRttExpired true bbr_example)))
  = BBR_PROBE_RTT.
Proof.
  apply (CheckProbeRTT_enters tcb_example rs_one_segment 10 uv_example
           (set_m_minRttExpired true bbr_example)).
  - vm_compute. discriminate.
  - reflexivity.
  - reflexivity.
Defined.

Lemma CongControl_floor_witness :
  m_minPipeCwnd bbr_example
  <= tcb_cWnd
       (snd (fst (CongControl tcb_example {| rc_delivered := 1448 |}
                    rs_one_segment 10000000 uv_example bbr_example))).
Proof.
  apply (CongControl_floor tcb_example {| rc_delivered := 1448 |} rs_one_segment
           10000000 uv_example bbr_example).
  - vm_compute. discriminate.
  - vm_compute. discriminate.
Defined.

(** ** The RTT cache *)

(** The cache after the pushes of [rtts], in order. *)
Fixpoint push_all (rtts : list Time) (m_rttDeque : RttCache) : RttCache :=
  match rtts with
  | [] => m_rttDeque
  | rtt :: rtts' => push_all rtts' (PushRtt rtt m_rttDeque)
  end.

Lemma PushRtt_length (rtt : Time) (d : RttCache) :
  (length d <= 10)%nat -> (length (PushRtt rtt d) <= 10)%nat.
Proof.
  intros H. unfold PushRtt.
  destruct (10 <=? length d)%nat eqn:E; rewrite length_app; cbn [length].
  - destruct d as [|x t]; cbn [tl length] in *; lia.
  - apply Nat.leb_gt in E. lia.
Qed.

Lemma push_all_window (rtts : list Time) :
  forall d : RttCache,
    (length d <= 10)%nat ->
    push_all rtts d = skipn (length (d ++ rtts) - 10) (d ++ rtts).
Proof.
  induction rtts as [|a rtts IH]; intros d Hd; cbn [push_all].
  - rewrite app_nil_r. replace (length d - 10)%nat with 0%nat by lia. reflexivity.
  - rewrite IH by (apply PushRtt_length; exact Hd). unfold PushRtt.
    destruct (10 <=? length d)%nat eqn:E.
    + apply Nat.leb_le in E. destruct d as [|x t]; [cbn in E; lia|].
      cbn [tl]. rewrite <- app_assoc. cbn [app length] in *.
      replace (S (length (t ++ a :: rtts)) - 10)%nat
        with (S (length (t ++ a :: rtts) - 10))%nat
        by (rewrite length_app; cbn [length]; lia).
      reflexivity.
    + rewrite <- app_assoc. reflexivity.
Qed.

(** After any sequence of pushes on a new cache, [GetRttDeque] returns the
    last ten samples pushed, oldest first (all of them while fewer than ten
    were pushed); the deque never holds more than ten. *)
Theorem RttCache_keeps_last_ten (rtts : list Time) :
  GetRttDeque (push_all rtts RttCache_new) = skipn (length rtts - 10) rtts
  /\ (length (GetRttDeque (push_all rtts RttCache_new)) <= 10)%nat.
Proof.
  assert (H : push_all rtts RttCache_new = skipn (length rtts - 10) rtts).
  { rewrite push_all_window by (cbn; lia). reflexivity. }
  unfold GetRttDeque. split; [exact H|].
  rewrite H, length_skipn. lia.
Qed.

